(** * TikTok user scraper: a shallow embedding of the extraction pipeline,
      the fetcher and the CSV exporter, with the properties stated in the
      specification.

    Source files embedded here:
      - [src/extractors/tiktok_parser.py]
      - [src/extractors/utils_network.py]
      - [src/outputs/exporters.py]
      - [src/runner.py] ([load_inputs])

    Conventions.
      - A Python [str] is a Rocq [string]; a character is a code point in
        U+0000..U+00FF.  On that range [\d] is exactly [0-9] and [\s] (and
        [str.strip]) is the set 09-0D, 1C-1F, 20, 85, A0.
      - Python objects that travel through the parser (the output of
        [json.loads], the fields of a record) are terms of [value].
      - A Python exception is the [Raise] outcome of [result]. *)

From Stdlib Require Import ZArith List String Ascii Bool Arith Lia.
From Stdlib Require Import DecimalString DecimalNat.
Import ListNotations.
Local Open Scope string_scope.
Local Open Scope list_scope.

Set Implicit Arguments.
Set Warnings "-register-all".

(* ================================================================= *)
(** ** Python outcomes *)

Inductive exn := TypeError | ValueError | AttributeError | OverflowError.

Inductive result (A : Type) :=
| Ok (a : A)
| Raise (e : exn).
Arguments Ok {A} a.
Arguments Raise {A} e.

Definition bind {A B} (r : result A) (k : A -> result B) : result B :=
  match r with
  | Ok a => k a
  | Raise e => Raise e
  end.

Notation "x <- c ;; k" := (bind c (fun x => k))
  (at level 61, c at next level, right associativity).

(** [try: body except Exception: handler]. *)
Definition try_except {A} (body : result A) (handler : A) : A :=
  match body with
  | Ok a => a
  | Raise _ => handler
  end.

(* ================================================================= *)
(** ** Python values *)

(** A float is NaN, an infinity, or the finite dyadic [m * 2^e]. *)
Inductive pyfloat :=
| FNan
| FInf (negative : bool)
| FFin (m e : Z).

Inductive value :=
| VNone
| VBool (b : bool)
| VInt (z : Z)
| VFloat (f : pyfloat)
| VStr (s : string)
| VList (l : list value)
| VDict (d : list (value * value)).

(** A [dict] keeps its items in insertion order. *)
Definition dict := list (value * value).

Coercion VStr : string >-> value.

Definition empty_dict : value := VDict [].

(** [bool(v)]. *)
Definition truthy (v : value) : bool :=
  match v with
  | VNone => false
  | VBool b => b
  | VInt z => negb (z =? 0)%Z
  | VFloat (FFin m _) => negb (m =? 0)%Z
  | VFloat _ => true
  | VStr s => negb (s =? "")
  | VList l => negb (Nat.eqb (List.length l) 0)
  | VDict d => negb (Nat.eqb (List.length d) 0)
  end.

(** [a or b]; both operands are pure wherever the parser uses it. *)
Definition py_or (a b : value) : value := if truthy a then a else b.
Infix "or'" := py_or (at level 52, left associativity).

(** Numeric value of a key, as the mantissa and exponent of a dyadic. *)
Definition num_of (v : value) : option (Z * Z) :=
  match v with
  | VBool b => Some (Z.b2z b, 0%Z)
  | VInt z => Some (z, 0%Z)
  | VFloat (FFin m e) => Some (m, e)
  | _ => None
  end.

Definition num_eqb (x y : Z * Z) : bool :=
  let '(m1, e1) := x in
  let '(m2, e2) := y in
  let e := Z.min e1 e2 in
  (m1 * 2 ^ (e1 - e) =? m2 * 2 ^ (e2 - e))%Z.

(** [a == b] on hashable scalars, as used to compare dict keys.  Two NaN
    never compare equal; [json.loads] produces string keys only. *)
Definition py_eqb (a b : value) : bool :=
  match a, b with
  | VNone, VNone => true
  | VStr s, VStr t => (s =? t)
  | VFloat (FInf s), VFloat (FInf t) => Bool.eqb s t
  | _, _ =>
      match num_of a, num_of b with
      | Some x, Some y => num_eqb x y
      | _, _ => false
      end
  end.

Definition hashable (v : value) : bool :=
  match v with
  | VList _ | VDict _ => false
  | _ => true
  end.

Fixpoint dict_find (k : value) (d : dict) : option value :=
  match d with
  | [] => None
  | (k', v) :: r => if py_eqb k' k then Some v else dict_find k r
  end.

(** [d.get(k, default)] *)
Definition dict_get (k : value) (d : dict) (default : value) : value :=
  match dict_find k d with
  | Some v => v
  | None => default
  end.

(** [k in d] *)
Definition dict_has (k : value) (d : dict) : bool :=
  match dict_find k d with
  | Some _ => true
  | None => false
  end.

(** [d[k] = v] *)
Fixpoint dict_set (k v : value) (d : dict) : dict :=
  match d with
  | [] => [(k, v)]
  | (k', v') :: r =>
      if py_eqb k' k then (k', v) :: r else (k', v') :: dict_set k v r
  end.

(** [d.setdefault(k, v)], as a new dict. *)
Definition dict_setdefault (k v : value) (d : dict) : dict :=
  if dict_has k d then d else d ++ [(k, v)].

(** One element of the iterable given to [dict(...)]: it must itself be an
    iterable of exactly two items. *)
Definition pair_of (elem : value) : result (value * value) :=
  match elem with
  | VList [k; v] => Ok (k, v)
  | VList _ => Raise ValueError
  | VStr (String a (String b "")) =>
      Ok (VStr (String a ""), VStr (String b ""))
  | VStr _ => Raise ValueError
  | VDict [(k1, _); (k2, _)] => Ok (k1, k2)
  | VDict _ => Raise ValueError
  | _ => Raise TypeError
  end.

Fixpoint dict_of_pairs (l : list value) (acc : dict) : result dict :=
  match l with
  | [] => Ok acc
  | elem :: r =>
      kv <- pair_of elem ;;
      if hashable (fst kv) then dict_of_pairs r (dict_set (fst kv) (snd kv) acc)
      else Raise TypeError
  end.

(** [dict(v)]: a shallow copy of a dict, a dict built from a sequence of
    pairs, an error on anything that is not iterable. *)
Definition py_dict (v : value) : result dict :=
  match v with
  | VDict d => Ok d
  | VList l => dict_of_pairs l []
  | VStr "" => Ok []
  | VStr _ => Raise ValueError
  | _ => Raise TypeError
  end.

(** [o.get(k, default)] on an arbitrary object: only a dict has [get]. *)
Definition py_get (o : value) (k : value) (default : value) : result value :=
  match o with
  | VDict d => Ok (dict_get k d default)
  | _ => Raise AttributeError
  end.

(* ================================================================= *)
(** ** Characters and strings *)

Definition code (c : ascii) : nat := nat_of_ascii c.

Definition is_digit (c : ascii) : bool :=
  ((48 <=? code c) && (code c <=? 57))%nat.

(** [\s] of a str pattern, and the characters removed by [str.strip()]. *)
Definition is_space (c : ascii) : bool :=
  let n := code c in
  (((9 <=? n) && (n <=? 13)) || ((28 <=? n) && (n <=? 32))
   || (n =? 133) || (n =? 160))%nat.

Definition is_alpha (c : ascii) : bool :=
  let n := code c in
  (((65 <=? n) && (n <=? 90)) || ((97 <=? n) && (n <=? 122)))%nat.

Definition is_char (a : ascii) (c : ascii) : bool := Ascii.eqb c a.

Definition is_one_of (set : string) (c : ascii) : bool :=
  existsb (Ascii.eqb c) (list_ascii_of_string set).

Fixpoint str_filter (p : ascii -> bool) (s : string) : string :=
  match s with
  | "" => ""
  | String c r => if p c then String c (str_filter p r) else str_filter p r
  end.

Fixpoint str_forall (p : ascii -> bool) (s : string) : bool :=
  match s with
  | "" => true
  | String c r => p c && str_forall p r
  end.

Fixpoint lstrip (s : string) : string :=
  match s with
  | "" => ""
  | String c r => if is_space c then lstrip r else s
  end.

Fixpoint rstrip (s : string) : string :=
  match s with
  | "" => ""
  | String c r =>
      match rstrip r with
      | "" => if is_space c then "" else String c ""
      | r' => String c r'
      end
  end.

(** [s.strip()] *)
Definition strip (s : string) : string := rstrip (lstrip s).

(** [s.split(sep, 1)[0]] for a one-character separator. *)
Fixpoint split1_head (sep : ascii) (s : string) : string :=
  match s with
  | "" => ""
  | String c r => if Ascii.eqb c sep then "" else String c (split1_head sep r)
  end.

Fixpoint drop (n : nat) (s : string) : string :=
  match n, s with
  | O, _ => s
  | S n', String _ r => drop n' r
  | S _, "" => ""
  end.

Fixpoint take (n : nat) (s : string) : string :=
  match n, s with
  | O, _ => ""
  | S n', String c r => String c (take n' r)
  | S _, "" => ""
  end.

(** [s[i:j]] *)
Definition slice (i j : nat) (s : string) : string := take (j - i) (drop i s).

Fixpoint starts_with (pre s : string) : bool :=
  match pre, s with
  | "", _ => true
  | String a p, String c r => Ascii.eqb a c && starts_with p r
  | String _ _, "" => false
  end.

(** [s.replace(old, new)] for a non-empty [old]: occurrences are replaced
    left to right, without overlap. *)
Fixpoint replace_fuel (fuel : nat) (old new s : string) : string :=
  match fuel with
  | O => s
  | S fuel' =>
      match s with
      | "" => ""
      | String c r =>
          if starts_with old s
          then new ++ replace_fuel fuel' old new (drop (String.length old) s)
          else String c (replace_fuel fuel' old new r)
      end
  end.

Definition replace (old new s : string) : string :=
  replace_fuel (String.length s) old new s.

(* ================================================================= *)
(** ** Numeric coercion: [_safe_int] *)

(** [int(f)] for a float: truncation toward zero; NaN and the infinities
    raise. *)
Definition int_of_float (f : pyfloat) : result Z :=
  match f with
  | FNan => Raise ValueError
  | FInf _ => Raise OverflowError
  | FFin m e =>
      Ok (if (0 <=? e)%Z then (m * 2 ^ e)%Z else Z.quot m (2 ^ (- e)))
  end.

Definition digit_val (c : ascii) : Z := Z.of_nat (code c - 48).

Fixpoint digits_acc (acc : Z) (s : string) : result Z :=
  match s with
  | "" => Ok acc
  | String c r =>
      if is_digit c then digits_acc (10 * acc + digit_val c)%Z r
      else Raise ValueError
  end.

(** [sys.get_int_max_str_digits()]: the interpreter's default bound on the
    number of digits of a text given to [int] (Python 3.11 and later). *)
Definition int_max_str_digits : nat := 4300.

(** [int(s)] for a string of decimal digits (the only strings [_safe_int]
    gives it); the empty string raises, and so does a string of more digits
    than the interpreter converts. *)
Definition int_of_str (s : string) : result Z :=
  match s with
  | "" => Raise ValueError
  | _ =>
      if Nat.ltb int_max_str_digits (String.length s) then Raise ValueError
      else digits_acc 0%Z s
  end.

(** [re.sub(r"[^\d]", "", s)] *)
Definition re_sub_non_digit (s : string) : string := str_filter is_digit s.

Definition _safe_int_body (v : value) (default : Z) : result Z :=
  match v with
  | VNone => Ok default
  | VBool b => Ok (Z.b2z b)              (* bool is a subclass of int *)
  | VInt z => Ok z
  | VFloat f => int_of_float f
  | VStr s =>
      let cleaned := re_sub_non_digit s in
      if truthy (VStr cleaned) then int_of_str cleaned else Ok default
  | _ => Ok default
  end.

Definition _safe_int (v : value) (default : Z) : Z :=
  try_except (_safe_int_body v default) default.

(* ================================================================= *)
(** ** Regular expressions

    The patterns of the parser are sequences of single-character items:
    a character class, an optional class, a class repeated at least [min]
    times (greedy or lazy), and group delimiters.  [run] is the backtracking
    matcher of [re]: alternatives are explored in priority order and the
    first complete match is returned. *)

Inductive item :=
| One (p : ascii -> bool)
| Opt (p : ascii -> bool)
| Rep (p : ascii -> bool) (min : nat) (greedy : bool)
| Open (g : nat)
| Close (g : nat).

Definition regex := list item.

(** Positions where groups were opened, and the spans of closed groups. *)
Record captures := {
  opened : list (nat * nat);
  spans : list (nat * (nat * nat))
}.

Definition no_captures : captures := {| opened := []; spans := [] |}.

Fixpoint lookup {A} (g : nat) (l : list (nat * A)) : option A :=
  match l with
  | [] => None
  | (g', a) :: r => if Nat.eqb g' g then Some a else lookup g r
  end.

Definition open_group (g pos : nat) (st : captures) : captures :=
  {| opened := (g, pos) :: opened st; spans := spans st |}.

Definition close_group (g pos : nat) (st : captures) : captures :=
  match lookup g (opened st) with
  | Some start =>
      {| opened := opened st; spans := (g, (start, pos)) :: spans st |}
  | None => st
  end.

(** A match: the position where it ends and the spans of its groups. *)
Record re_match_obj := {
  m_start : nat;
  m_end : nat;
  m_spans : list (nat * (nat * nat))
}.

Section Repeat.
Variable R : Type.
Variable p : ascii -> bool.
Variable k : string -> nat -> option R.

(** [p{need,}] then [k]: the longest repetition is tried first. *)
Fixpoint rep_greedy (need : nat) (s : string) (pos : nat) : option R :=
  match s with
  | String c r =>
      if p c then
        match rep_greedy (pred need) r (S pos) with
        | Some m => Some m
        | None => if Nat.eqb need 0 then k s pos else None
        end
      else if Nat.eqb need 0 then k s pos else None
  | "" => if Nat.eqb need 0 then k s pos else None
  end.

(** [p{need,}?] then [k]: the shortest repetition is tried first. *)
Fixpoint rep_lazy (need : nat) (s : string) (pos : nat) : option R :=
  match s with
  | String c r =>
      let more := if p c then rep_lazy (pred need) r (S pos) else None in
      if Nat.eqb need 0 then
        match k s pos with
        | Some m => Some m
        | None => more
        end
      else more
  | "" => if Nat.eqb need 0 then k s pos else None
  end.
End Repeat.

Fixpoint run (its : regex) (s : string) (pos : nat) (st : captures)
  : option (nat * list (nat * (nat * nat))) :=
  match its with
  | [] => Some (pos, spans st)
  | One p :: r =>
      match s with
      | String c s' => if p c then run r s' (S pos) st else None
      | "" => None
      end
  | Opt p :: r =>
      let taken :=
        match s with
        | String c s' => if p c then run r s' (S pos) st else None
        | "" => None
        end in
      match taken with
      | Some m => Some m
      | None => run r s pos st
      end
  | Rep p n true :: r => rep_greedy p (fun s' pos' => run r s' pos' st) n s pos
  | Rep p n false :: r => rep_lazy p (fun s' pos' => run r s' pos' st) n s pos
  | Open g :: r => run r s pos (open_group g pos st)
  | Close g :: r => run r s pos (close_group g pos st)
  end.

Definition match_at (its : regex) (s : string) (pos : nat) : option re_match_obj :=
  match run its s pos no_captures with
  | Some (e, sp) => Some {| m_start := pos; m_end := e; m_spans := sp |}
  | None => None
  end.

(** Leftmost match starting at or after [pos]; [s] is the text from [pos]. *)
Fixpoint search_from (its : regex) (s : string) (pos : nat) : option re_match_obj :=
  match match_at its s pos with
  | Some m => Some m
  | None =>
      match s with
      | String _ r => search_from its r (S pos)
      | "" => None
      end
  end.

(** [pattern.search(s)] *)
Definition re_search (its : regex) (s : string) : option re_match_obj :=
  search_from its s 0.

(** [re.match(pattern, s)] *)
Definition re_match (its : regex) (s : string) : option re_match_obj :=
  match_at its s 0.

(** [m.group(g)], for a match [m] found in [s]. *)
Definition group (g : nat) (m : re_match_obj) (s : string) : string :=
  match lookup g (m_spans m) with
  | Some (a, b) => slice a b s
  | None => ""
  end.

Definition is_some {A} (o : option A) : bool :=
  match o with
  | Some _ => true
  | None => false
  end.

(** [[A-Za-z0-9._%+-]+@[A-Za-z0-9.-]+\.[A-Za-z]{2,}] *)
Definition EMAIL_RE : regex :=
  [ Rep (fun c => is_alpha c || is_digit c || is_one_of "._%+-" c) 1 true;
    One (is_char "@");
    Rep (fun c => is_alpha c || is_digit c || is_one_of ".-" c) 1 true;
    One (is_char ".");
    Rep is_alpha 2 true ].

Definition phone_body (c : ascii) : bool :=
  is_digit c || is_space c || is_char "-" c.

(** [(\+?\d[\d\s\-]{7,}\d)] *)
Definition PHONE_RE : regex :=
  [ Open 1;
    Opt (is_char "+");
    One is_digit;
    Rep phone_body 7 true;
    One is_digit;
    Close 1 ].

Definition not_slash (c : ascii) : bool := negb (is_char "/" c).

(** [/@([^/]+)/?] *)
Definition USERNAME_RE : regex :=
  [ One (is_char "/");
    One (is_char "@");
    Open 1;
    Rep not_slash 1 true;
    Close 1;
    Opt (is_char "/") ].

(** [.] matches everything but a newline. *)
Definition dot (c : ascii) : bool := negb (Nat.eqb (code c) 10).

(** [(.+?)\s+\(@(.+?)\)] *)
Definition TITLE_RE : regex :=
  [ Open 1; Rep dot 1 false; Close 1;
    Rep is_space 1 true;
    One (is_char "(");
    One (is_char "@");
    Open 2; Rep dot 1 false; Close 2;
    One (is_char ")") ].

(* ================================================================= *)
(** ** Field normalizer *)

Definition _extract_username_from_url (url : string) : string :=
  let url := strip url in
  if negb (truthy (VStr url)) then ""
  else
    let url := split1_head "#" (split1_head "?" url) in
    match re_search USERNAME_RE url with
    | Some m => group 1 m url
    | None => ""
    end.

(** A search on anything but a string is a [TypeError]. *)
Definition _detect_contacts (bio : value) : result (bool * bool) :=
  if negb (truthy bio) then Ok (false, false)
  else
    match bio with
    | VStr s =>
        let has_email := is_some (re_search EMAIL_RE s) in
        let has_phone := is_some (re_search PHONE_RE s) in
        Ok (has_email, has_phone)
    | _ => Raise TypeError
    end.

(** [key not in node] hashes the key: on a dict node a key that cannot be
    hashed is a [TypeError]. *)
Fixpoint _deep_get (data : value) (path : list value) (default : value)
  : result value :=
  match path with
  | [] => Ok data
  | key :: rest =>
      match data with
      | VDict d =>
          if hashable key then
            match dict_find key d with
            | Some node => _deep_get node rest default
            | None => Ok default
            end
          else Raise TypeError
      | _ => Ok default
      end
  end.

(* ================================================================= *)
(** ** The record *)

Record TikTokUser := {
  id : string;
  url : string;
  username : value;
  nickname : value;
  bio : value;
  followers : Z;
  following : Z;
  likes : Z;
  videos : Z;
  verified : bool;
  avatar : value;
  region : value;
  language : value;
  hasEmail : bool;
  hasPhone : bool;
  coverImage : value;
  extra : dict
}.

(* ================================================================= *)
(** ** External libraries

    What the parser asks of BeautifulSoup, [json] and the [str] builtin; the
    repository does not contain them. *)

Class Library := {
  (** [soup.find("script", id="SIGI_STATE").string]; [None] when there is no
      such node or the node has no single string child. *)
  script_string : string -> option string;
  (** [json.loads] *)
  json_loads : string -> result value;
  (** [soup.find("meta", attrs={"property": p}).get("content")]; [None] when
      there is no such tag or it has no [content] attribute. *)
  meta_content : string -> string -> option string;
  (** [str(v)] *)
  py_str : value -> string
}.

Section Parser.
Context {L : Library}.

Definition _parse_from_sigi_state (html : string) : value :=
  match script_string html with
  | None => empty_dict
  | Some text =>
      if negb (truthy (VStr text)) then empty_dict
      else try_except (json_loads text) empty_dict
  end.

Definition _select_primary_user (data : value) : result dict :=
  users <- _deep_get data [VStr "UserModule"; VStr "users"] empty_dict ;;
  match users with
  | VDict (((first_key, _) :: _) as d) =>
      let user := dict_get first_key d empty_dict in
      stats <-
        _deep_get data [VStr "UserModule"; VStr "stats"; first_key] empty_dict ;;
      merged <- py_dict user ;;
      Ok match stats with
         | VDict _ => dict_setdefault "stats" stats merged
         | _ => merged
         end
  | _ =>
      user_info <- _deep_get data [VStr "UserPage"; VStr "userInfo"] empty_dict ;;
      match user_info with
      | VDict d => Ok d
      | _ => Ok []
      end
  end.

Definition _parse_user_from_structured_json (url html : string)
  : result (option TikTokUser) :=
  let sigi_state := _parse_from_sigi_state html in
  if negb (truthy sigi_state) then Ok None
  else
    user_data <- _select_primary_user sigi_state ;;
    if negb (truthy (VDict user_data)) then Ok None
    else
      let user_info :=
        if dict_has "user" user_data && dict_has "stats" user_data
        then dict_get "user" user_data empty_dict or' empty_dict
        else VDict user_data in
      let stats := dict_get "stats" user_data empty_dict or' empty_dict in
      uniqueId <- py_get user_info "uniqueId" VNone ;;
      let username := uniqueId or' VStr (_extract_username_from_url url) in
      nickname <- py_get user_info "nickname" "" ;;
      bio <- py_get user_info "signature" "" ;;
      avatarLarger <- py_get user_info "avatarLarger" VNone ;;
      avatarThumb <- py_get user_info "avatarThumb" VNone ;;
      avatarMedium <- py_get user_info "avatarMedium" VNone ;;
      let avatar := avatarLarger or' avatarThumb or' avatarMedium or' "" in
      region0 <- py_get user_info "region" "" ;;
      country <- py_get user_info "country" "" ;;
      let region := region0 or' country in
      language <- py_get user_info "language" "" ;;
      cover_image <- py_get user_info "coverImage" "" ;;
      followerCount <- py_get stats "followerCount" VNone ;;
      fans <- py_get stats "fans" VNone ;;
      followers0 <- py_get stats "followers" VNone ;;
      follower <- py_get stats "follower" VNone ;;
      let followers :=
        _safe_int (followerCount or' fans or' followers0 or' follower) 0 in
      followingCount <- py_get stats "followingCount" VNone ;;
      following0 <- py_get stats "following" VNone ;;
      followings <- py_get stats "followings" VNone ;;
      let following :=
        _safe_int (followingCount or' following0 or' followings) 0 in
      heartCount <- py_get stats "heartCount" VNone ;;
      heart <- py_get stats "heart" VNone ;;
      totalFavorited <- py_get stats "totalFavorited" VNone ;;
      likes0 <- py_get stats "likes" VNone ;;
      let likes :=
        _safe_int (heartCount or' heart or' totalFavorited or' likes0) 0 in
      videoCount <- py_get stats "videoCount" VNone ;;
      videos0 <- py_get stats "videos" VNone ;;
      video <- py_get stats "video" VNone ;;
      let videos := _safe_int (videoCount or' videos0 or' video) 0 in
      id0 <- py_get user_info "id" VNone ;;
      uid0 <- py_get user_info "uid" VNone ;;
      (* a lookup along text keys never raises: running it before the [or]
         chain, rather than as its last operand, changes nothing *)
      page_id <- _deep_get sigi_state [VStr "UserPage"; VStr "uniqueId"] "" ;;
      let uid := py_str (id0 or' uid0 or' page_id) in
      verified0 <- py_get user_info "verified" VNone ;;
      badgeVerification <- py_get user_info "badgeVerification" VNone ;;
      let verified := truthy (verified0 or' badgeVerification) in
      contacts <- _detect_contacts bio ;;
      Ok (Some {|
        id := uid;
        url := url;
        username := username;
        nickname := nickname;
        bio := bio;
        followers := followers;
        following := following;
        likes := likes;
        videos := videos;
        verified := verified;
        avatar := avatar;
        region := region;
        language := language;
        hasEmail := fst contacts;
        hasPhone := snd contacts;
        coverImage := cover_image;
        extra := []
      |}).

(** The local helper [og] of [_parse_from_open_graph]. *)
Definition og (html name : string) : string :=
  match meta_content html ("og:" ++ name) with
  | Some content => if truthy (VStr content) then content else ""
  | None => ""
  end.

Definition _parse_from_open_graph (url html : string)
  : result (option TikTokUser) :=
  let title := og html "title" in
  let description := og html "description" in
  let image := og html "image" in
  let username := _extract_username_from_url url in
  let '(nickname, username) :=
    if truthy (VStr title) then
      match re_match TITLE_RE title with
      | Some m =>
          (strip (group 1 m title),
           if negb (truthy (VStr username)) then strip (group 2 m title)
           else username)
      | None => (strip (replace "| TikTok" "" title), username)
      end
    else ("", username) in
  let bio := if truthy (VStr description) then description else "" in
  contacts <- _detect_contacts (VStr bio) ;;
  Ok (Some {|
    id := "";
    url := url;
    username := VStr username;
    nickname := VStr nickname;
    bio := VStr bio;
    followers := 0;
    following := 0;
    likes := 0;
    videos := 0;
    verified := false;
    avatar := VStr image;
    region := "";
    language := "";
    hasEmail := fst contacts;
    hasPhone := snd contacts;
    coverImage := "";
    extra := []
  |}).

(** [TikTokUser(id="", url=url, username=username)] *)
Definition minimal_user (url username : string) : TikTokUser :=
  {| id := ""; url := url; username := VStr username;
     nickname := ""; bio := "";
     followers := 0; following := 0; likes := 0; videos := 0;
     verified := false; avatar := ""; region := ""; language := "";
     hasEmail := false; hasPhone := false; coverImage := "";
     extra := [] |}.
End Parser.

(* ================================================================= *)
(** ** Fetcher

    The session is the network seen from the program: the outcome of its
    n-th request.  The world records how many requests were made and what
    the program did, in order. *)

Inductive response :=
| ConnectionError                        (** [session.get] raised *)
| Response (status_code : Z) (text : string).

Inductive event :=
| Get (url : string) (timeout : Z)
| Sleep (seconds : Z).

Record Session := {
  session_get : nat -> string -> Z -> response
}.

Record world := {
  requests : nat;
  trace : list event
}.

Definition new_world : world := {| requests := 0; trace := [] |}.

(** [session.get(url, timeout=timeout)] followed by [resp.raise_for_status()],
    which raises on the statuses 400..599. *)
Definition get_ok (session : Session) (url : string) (timeout : Z) (w : world)
  : option string * world :=
  let w' := {| requests := S (requests w);
               trace := trace w ++ [Get url timeout] |} in
  match session_get session (requests w) url timeout with
  | ConnectionError => (None, w')
  | Response status text =>
      if ((400 <=? status) && (status <? 600))%Z then (None, w')
      else (Some text, w')
  end.

(** [time.sleep(seconds)] *)
Definition sleep (seconds : Z) (w : world) : world :=
  {| requests := requests w; trace := trace w ++ [Sleep seconds] |}.

(** [range(a, b)] *)
Definition py_range (a b : Z) : list Z :=
  map (fun i => (a + Z.of_nat i)%Z) (seq 0 (Z.to_nat (b - a))).

(** The [for attempt in ...] loop of [fetch_html], and the [return ""] that
    follows it. *)
Fixpoint fetch_attempts (session : Session) (url : string) (timeout : Z)
    (attempts : list Z) (w : world) : string * world :=
  match attempts with
  | [] => ("", w)
  | attempt :: rest =>
      match get_ok session url timeout w with
      | (Some text, w1) => (text, w1)
      | (None, w1) =>
          fetch_attempts session url timeout rest
            (sleep (Z.min (2 * attempt) 10) w1)
      end
  end.

(** [fetch_html(url, session, timeout, retries)], for a session that is not
    [None]. *)
Definition fetch_html (url : string) (session : Session) (timeout retries : Z)
    (w : world) : string * world :=
  fetch_attempts session url timeout (py_range 1 (retries + 1)) w.

Section Pipeline.
Context {L : Library}.

(** [_parse_from_sigi_state] returns a JSON object, never a [TikTokUser]:
    the [isinstance(user, TikTokUser)] test of the source is always false.
    A dataclass instance is always true, so [if structured_user] and
    [if og_user] only test for [None]. *)
Definition parse_user_from_url (url : string) (session : Session)
    (timeout retries : Z) (w : world) : result (option TikTokUser) * world :=
  let '(html, w) := fetch_html url session timeout retries w in
  (if negb (truthy (VStr html)) then
     let username := _extract_username_from_url url in
     Ok (Some (minimal_user url username))
   else
     structured_user <- _parse_user_from_structured_json url html ;;
     match structured_user with
     | Some user => Ok (Some user)
     | None =>
         og_user <- _parse_from_open_graph url html ;;
         match og_user with
         | Some user => Ok (Some user)
         | None =>
             let username := _extract_username_from_url url in
             Ok (Some (minimal_user url username))
         end
     end,
   w).
End Pipeline.

(* ================================================================= *)
(** ** Exporter

    A flattened record is a dict keyed by field names; [csv.DictWriter]
    writes one line per call.  The file is the list of lines written. *)

Definition record := list (string * value).

Inductive csv_line :=
| Header (fieldnames : list string)
| Row (cells : list value).

Definition keys (rec : record) : list string := map fst rec.

Definition str_in (key : string) (l : list string) : bool :=
  existsb (String.eqb key) l.

(** The two nested loops that collect [fieldnames]. *)
Definition add_fieldname (fieldnames : list string) (key : string) : list string :=
  if negb (str_in key fieldnames) then fieldnames ++ [key] else fieldnames.

Definition collect_fieldnames (normalized : list record) : list string :=
  fold_left (fun fieldnames rec => fold_left add_fieldname (keys rec) fieldnames)
            normalized [].

Fixpoint rec_get (key : string) (rec : record) (restval : value) : value :=
  match rec with
  | [] => restval
  | (k, v) :: r => if String.eqb k key then v else rec_get key r restval
  end.

(** [writer.writerow(rec)]: a key outside [fieldnames] is a [ValueError]
    ([extrasaction="raise"]), a missing one is written as [restval=""]. *)
Definition writerow (fieldnames : list string) (rec : record) : result csv_line :=
  if forallb (fun k => str_in k fieldnames) (keys rec)
  then Ok (Row (map (fun k => rec_get k rec "") fieldnames))
  else Raise ValueError.

Fixpoint writerows (fieldnames : list string) (recs : list record)
  : result (list csv_line) :=
  match recs with
  | [] => Ok []
  | rec :: rest =>
      line <- writerow fieldnames rec ;;
      lines <- writerows fieldnames rest ;;
      Ok (line :: lines)
  end.

(** [export_to_csv(records, output_path)] for records that are dicts: the
    lines written to [output_path]. *)
Definition export_to_csv (records : list record) : result (list csv_line) :=
  let normalized := records in
  match normalized with
  | [] => Ok []
  | _ =>
      let fieldnames := collect_fieldnames normalized in
      rows <- writerows fieldnames normalized ;;
      Ok (Header fieldnames :: rows)
  end.

(* ================================================================= *)
(** * Notions used to state the properties *)

(** ** Shapes of user objects *)

Definition is_dict (v : value) : bool :=
  match v with
  | VDict _ => true
  | _ => false
  end.

Definition is_str (v : value) : bool :=
  match v with
  | VStr _ => true
  | _ => false
  end.

(** A user object of the first layout: it holds the user fields itself
    (no ["user"] key), its [signature], when present and not empty, is text,
    and its own ["stats"], when present and not empty, is an object. *)
Definition plain_user (u : dict) : bool :=
  negb (dict_has "user" u)
  && (negb (truthy (dict_get "signature" u "")) || is_str (dict_get "signature" u ""))
  && (negb (truthy (dict_get "stats" u empty_dict)) || is_dict (dict_get "stats" u empty_dict)).

(** The first entry of [UserModule.users] in a decoded blob. *)
Definition first_user (data : value) (k : string) (u : dict) : Prop :=
  exists rest,
    _deep_get data [VStr "UserModule"; VStr "users"] empty_dict
    = Ok (VDict ((VStr k, VDict u) :: rest)).

(** The entry of [UserModule.stats] under the same key, an empty object when
    there is none (the lookup is along text keys, which never raises). *)
Definition module_stats (data : value) (k : string) : value :=
  try_except
    (_deep_get data [VStr "UserModule"; VStr "stats"; VStr k] empty_dict)
    empty_dict.

(* ================================================================= *)
(** ** Sample documents and sessions *)

Record page := {
  sigi_text : option string;
  sigi_json : result value;
  og_tags : list (string * string)
}.

Fixpoint assoc (key : string) (l : list (string * string)) : option string :=
  match l with
  | [] => None
  | (k, v) :: r => if String.eqb k key then Some v else assoc key r
  end.

(** A library that reads every document as the page [p]; [str] is given on
    strings, [None] and booleans. *)
Definition page_library (p : page) : Library := {|
  script_string := fun _ => sigi_text p;
  json_loads := fun _ => sigi_json p;
  meta_content := fun _ property => assoc property (og_tags p);
  py_str := fun v =>
    match v with
    | VStr s => s
    | VNone => "None"
    | VBool true => "True"
    | VBool false => "False"
    | _ => ""
    end
|}.

Definition obj (items : list (string * value)) : value :=
  VDict (map (fun kv => (VStr (fst kv), snd kv)) items).

(** [{"UserModule": {"users": {"u1": user}, "stats": {"u1": stats}}}] *)
Definition user_module_page (user stats : value) : page := {|
  sigi_text := Some "{...}";
  sigi_json := Ok (obj [("UserModule",
                 obj [("users", obj [("u1", user)]);
                      ("stats", obj [("u1", stats)])])]);
  og_tags := []
|}.

(** A session whose every request fails, and one that answers 200. *)
Definition failing_session : Session :=
  {| session_get := fun _ _ _ => ConnectionError |}.

Definition serving_session (text : string) : Session :=
  {| session_get := fun _ _ _ => Response 200 text |}.

(** ** Inputs of the numeric coercion *)

(** [isinstance(v, (int, float))] *)
Definition is_number (v : value) : bool :=
  match v with
  | VBool _ | VInt _ | VFloat _ => true
  | _ => false
  end.

Definition not_digit (c : ascii) : bool := negb (is_digit c).

(** ** Documents without embedded state *)

(** The script node is absent or empty, or its text does not decode. *)
Definition no_decodable_state `{L : Library} (page : string) : Prop :=
  match script_string page with
  | None => True
  | Some text => text = "" \/ exists e, json_loads text = Raise e
  end.

(** A page with Open Graph tags and no script node. *)
Definition metadata_page (tags : list (string * string)) : page := {|
  sigi_text := None;
  sigi_json := Raise ValueError;
  og_tags := tags
|}.

(** ** What a call of the fetcher is expected to do *)

(** The n-th request of the session is a failed attempt: the request raises
    or the status is an error status. *)
Definition request_fails (session : Session) (url : string) (timeout : Z)
    (n : nat) : bool :=
  match session_get session n url timeout with
  | ConnectionError => true
  | Response status _ => ((400 <=? status) && (status <? 600))%Z
  end.

(** The events of attempt [k] when it fails. *)
Definition failed_attempt (url : string) (timeout : Z) (k : Z) : list event :=
  [Get url timeout; Sleep (Z.min (2 * k) 10)].

(** ** The header the tabular export is expected to have *)

(** The distinct elements of a list, in the order of their first
    occurrence.  ([nodup] keeps the last occurrence of each element.) *)
Definition first_seen (l : list string) : list string :=
  rev (nodup string_dec (rev l)).

(** All keys of all records, record after record. *)
Definition all_keys (records : list record) : list string :=
  List.concat (map keys records).

(** ** Path segments of a URL *)

(** [s.split(sep)]: the pieces of [s] between the separators. *)
Fixpoint split_on (sep : ascii) (s : string) : list string :=
  match s with
  | "" => [""]
  | String c r =>
      if Ascii.eqb c sep then "" :: split_on sep r
      else
        match split_on sep r with
        | piece :: pieces => String c piece :: pieces
        | [] => [String c ""]
        end
  end.

(** The segments of a text: the pieces that follow a separator. *)
Definition segments (text : string) : list string := tl (split_on "/" text).

(** The handle of a segment that begins with the marker and goes on. *)
Definition handle_of (segment : string) : option string :=
  match segment with
  | String "@" (String c h) => Some (String c h)
  | _ => None
  end.

(** The handle of the first segment that has one. *)
Fixpoint first_handle (segs : list string) : string :=
  match segs with
  | [] => ""
  | seg :: rest =>
      match handle_of seg with
      | Some h => h
      | None => first_handle rest
      end
  end.

(** Neither the start of a query string nor of a fragment. *)
Definition in_path (c : ascii) : bool :=
  negb (is_char "?" c) && negb (is_char "#" c).

(** Length of the longest prefix made of characters of the class [p]. *)
Fixpoint span_len (p : ascii -> bool) (s : string) : nat :=
  match s with
  | "" => 0
  | String c r => if p c then S (span_len p r) else 0
  end.

(** ** Texts that look like a phone number *)

(** The text holds a run of at least nine characters, each a digit, a white
    space or a hyphen. *)
Definition phone_run (text : string) : Prop :=
  exists before run after,
    text = (before ++ run ++ after)%string
    /\ 9 <= String.length run
    /\ str_forall phone_body run = true.

(** The text holds a digit, then at least seven characters that are digits,
    white space or hyphens, then a digit. *)
Definition phone_like (text : string) : Prop :=
  exists before first middle last after,
    text = (before ++ String first (middle ++ String last after))%string
    /\ is_digit first = true
    /\ is_digit last = true
    /\ 7 <= String.length middle
    /\ str_forall phone_body middle = true.

(** [PHONE_RE] after its optional sign: a digit, the body, a digit. *)
Definition PHONE_CORE : regex :=
  [ One is_digit; Rep phone_body 7 true; One is_digit; Close 1 ].

(** ** Decimal text *)

(** [str(n)] for a non-negative integer. *)
Definition decimal (n : nat) : string :=
  NilZero.string_of_uint (Nat.to_uint n).

(** Number of digits in a text. *)
Definition digit_count (s : string) : nat :=
  String.length (str_filter is_digit s).

(** ** Texts that hold an e-mail address *)

(** [[A-Za-z0-9._%+-]] *)
Definition email_local (c : ascii) : bool :=
  is_alpha c || is_digit c || is_one_of "._%+-" c.

(** [[A-Za-z0-9.-]] *)
Definition email_domain (c : ascii) : bool :=
  is_alpha c || is_digit c || is_one_of ".-" c.

(** The text holds a local part, [@], a domain, a dot and at least two
    letters. *)
Definition email_like (text : string) : Prop :=
  exists before local domain tld after,
    text = (before ++ local ++ String "@" (domain ++ String "." (tld ++ after)))%string
    /\ 1 <= String.length local /\ str_forall email_local local = true
    /\ 1 <= String.length domain /\ str_forall email_domain domain = true
    /\ 2 <= String.length tld /\ str_forall is_alpha tld = true.

(** [EMAIL_RE] from its [@] on, and from the dot before the last label on. *)
Definition EMAIL_AT : regex :=
  [ One (is_char "@"); Rep email_domain 1 true; One (is_char "."); Rep is_alpha 2 true ].

Definition EMAIL_DOT : regex :=
  [ One (is_char "."); Rep is_alpha 2 true ].

(** ** Handles *)

(** A character that can stand in a handle: neither a separator nor the
    start of a query string or of a fragment. *)
Definition handle_char (c : ascii) : bool := not_slash c && in_path c.

(** ** The path of a URL *)

(** The path of [scheme://authority/path?query#fragment]: the text from the
    first [/] after the authority to the first [?] or [#].  A text without
    [://] is read as a path from its start. *)
Definition url_path (u : string) : string :=
  let rest :=
    match index 0 "://" u with
    | Some i =>
        let after := drop (i + 3) u in
        drop (span_len handle_char after) after
    | None => u
    end in
  take (span_len in_path rest) rest.

(** ** Blobs without a users mapping *)

(** [UserModule.users] is absent, empty, or not an object. *)
Definition no_users (data : value) : Prop :=
  match _deep_get data [VStr "UserModule"; VStr "users"] empty_dict with
  | Ok (VDict (_ :: _)) => False
  | _ => True
  end.

(** [{"UserPage": {"userInfo": {"user": user, "stats": stats}}}] *)
Definition user_page (user stats : value) : page := {|
  sigi_text := Some "{...}";
  sigi_json := Ok (obj [("UserPage",
                 obj [("userInfo", obj [("user", user); ("stats", stats)])])]);
  og_tags := []
|}.

(** ** What every strategy does alike *)

(** The record echoes the URL, leaves [extra] empty, and has the contact
    flags computed from its bio. *)
Definition well_formed (link : string) (r : TikTokUser) : Prop :=
  url r = link
  /\ extra r = []
  /\ _detect_contacts (bio r) = Ok (hasEmail r, hasPhone r).

(** ** Traces *)

(** [a] is the beginning of [b]. *)
Definition extends (a b : list event) : Prop := exists more, b = a ++ more.

(** Number of requests in a trace. *)
Definition count_gets (t : list event) : nat :=
  List.length (filter (fun ev => match ev with Get _ _ => true | Sleep _ => false end) t).

(** ** Flattening a record: [TikTokUser.to_dict] *)

(** The fields of the schema, in the order of their declaration. *)
Definition schema : list string :=
  ["id"; "url"; "username"; "nickname"; "bio"; "followers"; "following";
   "likes"; "videos"; "verified"; "avatar"; "region"; "language";
   "hasEmail"; "hasPhone"; "coverImage"].

(** [asdict(self)] without its ["extra"] item. *)
Definition schema_record (u : TikTokUser) : record :=
  [("id", VStr (id u)); ("url", VStr (url u)); ("username", username u);
   ("nickname", nickname u); ("bio", bio u);
   ("followers", VInt (followers u)); ("following", VInt (following u));
   ("likes", VInt (likes u)); ("videos", VInt (videos u));
   ("verified", VBool (verified u)); ("avatar", avatar u);
   ("region", region u); ("language", language u);
   ("hasEmail", VBool (hasEmail u)); ("hasPhone", VBool (hasPhone u));
   ("coverImage", coverImage u)].

(** A dict with the given string keys. *)
Definition str_keys (items : list (string * value)) : dict :=
  map (fun kv => (VStr (fst kv), snd kv)) items.

(** [asdict(self)] *)
Definition asdict (u : TikTokUser) : dict :=
  str_keys (schema_record u) ++ [(VStr "extra", VDict (extra u))].

(** [d.pop(k, default)]: the value and the dict without the key. *)
Fixpoint dict_remove (k : value) (d : dict) : dict :=
  match d with
  | [] => []
  | (k', v) :: r => if py_eqb k' k then r else (k', v) :: dict_remove k r
  end.

Definition dict_pop (k : value) (d : dict) (default : value) : value * dict :=
  (dict_get k d default, dict_remove k d).

(** [d.update(items)] *)
Definition dict_update (d : dict) (items : dict) : dict :=
  fold_left (fun acc kv => dict_set (fst kv) (snd kv) acc) items d.

(** [extra] is a dict by the type of the record, so the last branch is never
    taken. *)
Definition to_dict (u : TikTokUser) : dict :=
  let data := asdict u in
  let '(popped, data) := dict_pop "extra" data empty_dict in
  match popped or' empty_dict with
  | VDict extra => dict_update data extra
  | _ => data
  end.

(** ** Input lines: [load_inputs] of the runner *)

(** The body of the loop over the lines of the input file. *)
Definition keep_line (urls : list string) (line : string) : list string :=
  let stripped := strip line in
  if negb (truthy (VStr stripped)) || starts_with "#" stripped then urls
  else urls ++ [stripped].

(** [load_inputs(path)], given the lines of the file at [path], [None] when
    there is no such file. *)
Definition load_inputs (file : option (list string)) : list string :=
  match file with
  | None => []
  | Some lines => fold_left keep_line lines []
  end.

(** A line that is kept as it is: not empty, without surrounding white
    space, not a comment. *)
Definition clean_line (line : string) : Prop :=
  line <> "" /\ strip line = line /\ starts_with "#" line = false.

(** ** Query parameters: [build_query_params] *)

Definition is_none (v : value) : bool :=
  match v with
  | VNone => true
  | _ => false
  end.

(** [{k: v for k, v in extras.items() if v is not None}] *)
Definition without_none (extras : dict) : dict :=
  dict_update [] (filter (fun kv => negb (is_none (snd kv))) extras).

(** [build_query_params(base, extras)]; [extras] is [None] or a dict. *)
Definition build_query_params (base : dict) (extras : option dict) : dict :=
  let params := base in
  match extras with
  | Some e =>
      if truthy (VDict e) then dict_update params (without_none e) else params
  | None => params
  end.

(** ** Blobs without any user *)

(** [UserPage.userInfo] is absent, empty, or not an object. *)
Definition no_user_info (data : value) : Prop :=
  match _deep_get data [VStr "UserPage"; VStr "userInfo"] empty_dict with
  | Ok (VDict (_ :: _)) => False
  | _ => True
  end.

(** A page whose blob decodes to [{"AppContext": {}}] and that has Open
    Graph tags. *)
Definition userless_page (tags : list (string * string)) : page := {|
  sigi_text := Some "{...}";
  sigi_json := Ok (obj [("AppContext", obj [])]);
  og_tags := tags
|}.

(* ================================================================= *)
(** * Properties *)

(** ** Strings *)

Lemma append_assoc (a b c : string) : ((a ++ b) ++ c = a ++ (b ++ c))%string.
Proof. induction a as [|x a IH]; simpl; [reflexivity | rewrite IH; reflexivity]. Qed.

Lemma append_nil_r (a : string) : (a ++ "")%string = a.
Proof. induction a as [|x a IH]; simpl; [reflexivity | rewrite IH; reflexivity]. Qed.

Lemma length_append (a b : string) :
  String.length (a ++ b)%string = String.length a + String.length b.
Proof. induction a as [|x a IH]; simpl; [reflexivity | rewrite IH; reflexivity]. Qed.

Lemma drop_append (a b : string) : drop (String.length a) (a ++ b)%string = b.
Proof. induction a as [|x a IH]; simpl; [destruct b; reflexivity | exact IH]. Qed.

Lemma drop_drop (n m : nat) (s : string) : drop n (drop m s) = drop (m + n) s.
Proof.
  revert s. induction m as [|m IH]; intros s; [reflexivity|].
  destruct s as [|c s]; simpl; [destruct n; reflexivity | apply IH].
Qed.

Lemma take_drop (n : nat) (s : string) : (take n s ++ drop n s)%string = s.
Proof.
  revert s. induction n as [|n IH]; intros s; [reflexivity|].
  destruct s as [|c s]; simpl; [reflexivity | rewrite IH; reflexivity].
Qed.

Lemma str_forall_append (p : ascii -> bool) (a b : string) :
  str_forall p (a ++ b)%string = str_forall p a && str_forall p b.
Proof.
  induction a as [|c a IH]; simpl; [reflexivity|].
  rewrite IH. apply andb_assoc.
Qed.

Lemma span_len_le (p : ascii -> bool) (s : string) : span_len p s <= String.length s.
Proof. induction s as [|c s IH]; simpl; [lia | destruct (p c); simpl; lia]. Qed.

Lemma span_take (p : ascii -> bool) (s : string) :
  str_forall p (take (span_len p s) s) = true.
Proof.
  induction s as [|c s IH]; simpl; [reflexivity|].
  destruct (p c) eqn:E; simpl; [rewrite E; exact IH | reflexivity].
Qed.

(** ** Dictionaries with string keys *)

Lemma py_eqb_str (a b : string) : py_eqb (VStr a) (VStr b) = String.eqb a b.
Proof. reflexivity. Qed.

Lemma dict_find_app (k : value) (d1 d2 : dict) :
  dict_find k (d1 ++ d2) =
  match dict_find k d1 with
  | Some v => Some v
  | None => dict_find k d2
  end.
Proof.
  induction d1 as [|[k' v'] d1 IH]; simpl; [reflexivity|].
  destruct (py_eqb k' k); [reflexivity | exact IH].
Qed.

Lemma dict_find_setdefault_other (key k : string) (v : value) (d : dict) :
  String.eqb k key = false ->
  dict_find (VStr key) (dict_setdefault (VStr k) v d) = dict_find (VStr key) d.
Proof.
  intros Hne. unfold dict_setdefault.
  destruct (dict_has (VStr k) d); [reflexivity|].
  rewrite dict_find_app. destruct (dict_find (VStr key) d); [reflexivity|].
  simpl. rewrite Hne. reflexivity.
Qed.

Lemma dict_find_setdefault_same (k : string) (v : value) (d : dict) :
  dict_find (VStr k) (dict_setdefault (VStr k) v d) =
  match dict_find (VStr k) d with
  | Some own => Some own
  | None => Some v
  end.
Proof.
  unfold dict_setdefault, dict_has.
  destruct (dict_find (VStr k) d) eqn:E.
  - exact E.
  - rewrite dict_find_app, E. simpl. rewrite String.eqb_refl. reflexivity.
Qed.

Lemma setdefault_nonempty (k v : value) (d : dict) :
  d <> [] -> dict_setdefault k v d <> [].
Proof.
  unfold dict_setdefault. destruct (dict_has k d); [auto|].
  destruct d; [congruence | discriminate].
Qed.

Lemma truthy_dict_nonempty (d : dict) : d <> [] -> truthy (VDict d) = true.
Proof. destruct d; [congruence | reflexivity]. Qed.

Lemma or_empty_dict_is_dict (v : value) :
  negb (truthy v) || is_dict v = true -> exists st, v or' empty_dict = VDict st.
Proof.
  unfold py_or. destruct (truthy v); simpl.
  - destruct v; try discriminate. eauto.
  - intros _. exists []. reflexivity.
Qed.

Lemma detect_contacts_text (v : value) :
  negb (truthy v) || is_str v = true -> exists c, _detect_contacts v = Ok c.
Proof.
  unfold _detect_contacts. destruct (truthy v); simpl.
  - destruct v; try discriminate. eauto.
  - eauto.
Qed.

(** ** The backtracking matcher *)

Section RepeatFacts.
Variable R : Type.
Variable p : ascii -> bool.
Variable k : string -> nat -> option R.

(** When what follows cannot fail, a greedy repetition takes the longest
    run. *)
Lemma rep_greedy_total :
  (forall s pos, k s pos <> None) ->
  forall s need pos,
    rep_greedy p k need s pos
    = if Nat.leb need (span_len p s)
      then k (drop (span_len p s) s) (pos + span_len p s)
      else None.
Proof.
  intros Hk. induction s as [|c s IH]; intros need pos.
  - cbn [rep_greedy span_len drop]. rewrite Nat.add_0_r.
    destruct need; reflexivity.
  - cbn [rep_greedy span_len]. destruct (p c).
    + rewrite IH. cbn [drop].
      replace (S pos + span_len p s) with (pos + S (span_len p s)) by lia.
      destruct need as [|need].
      * cbn [pred Nat.leb].
        destruct (k (drop (span_len p s) s) (pos + S (span_len p s))) eqn:E;
          [reflexivity|]. exfalso. exact (Hk _ _ E).
      * cbn [pred Nat.leb]. destruct (Nat.leb need (span_len p s)) eqn:E; [|reflexivity].
        destruct (k (drop (span_len p s) s) (pos + S (span_len p s))) eqn:E';
          [reflexivity|]. exfalso. exact (Hk _ _ E').
    + cbn [drop]. rewrite Nat.add_0_r. destruct need; reflexivity.
Qed.

(** A greedy repetition followed by [k] succeeds exactly when some
    admissible number of repetitions lets [k] succeed. *)
Lemma rep_greedy_some :
  forall s need pos,
    rep_greedy p k need s pos <> None
    <-> exists j, need <= j /\ j <= span_len p s
                  /\ k (drop j s) (pos + j) <> None.
Proof.
  induction s as [|c s IH]; intros need pos.
  - cbn [rep_greedy span_len]. split.
    + destruct need; cbn [Nat.eqb]; [|congruence]. intros H. exists 0.
      rewrite Nat.add_0_r. repeat split; auto.
    + intros (j & Hn & Hj & Hk).
      assert (j = 0) by lia. subst j. assert (need = 0) by lia. subst need.
      rewrite Nat.add_0_r in Hk. exact Hk.
  - cbn [rep_greedy span_len]. destruct (p c).
    + specialize (IH (pred need) (S pos)).
      destruct (rep_greedy p k (pred need) s (S pos)) as [m|] eqn:E.
      * split; [intros _ | intros _; congruence].
        destruct (proj1 IH) as (j & Hn & Hj & Hk); [congruence|].
        exists (S j). cbn [drop].
        replace (pos + S j) with (S pos + j) by lia.
        repeat split; [lia | lia | exact Hk].
      * split.
        -- destruct need; cbn [Nat.eqb]; [|congruence]. intros H. exists 0.
           rewrite Nat.add_0_r. repeat split; [lia | lia | exact H].
        -- intros (j & Hn & Hj & Hk). destruct j as [|j].
           ++ assert (need = 0) by lia. subst need.
              rewrite Nat.add_0_r in Hk. exact Hk.
           ++ exfalso. apply (proj2 IH); [|reflexivity].
              exists j. cbn [drop] in Hk.
              replace (pos + S j) with (S pos + j) in Hk by lia.
              repeat split; [lia | lia | exact Hk].
    + split.
      * destruct need; cbn [Nat.eqb]; [|congruence]. intros H. exists 0.
        rewrite Nat.add_0_r. repeat split; auto.
      * intros (j & Hn & Hj & Hk).
        assert (j = 0) by lia. subst j. assert (need = 0) by lia. subst need.
        rewrite Nat.add_0_r in Hk. exact Hk.
Qed.
End RepeatFacts.

(** ** Numeric coercion *)

Lemma digits_acc_nonneg (s : string) :
  forall acc z, (0 <= acc)%Z -> digits_acc acc s = Ok z -> (0 <= z)%Z.
Proof.
  induction s as [|c s IH]; cbn [digits_acc]; intros acc z Hacc H.
  - injection H as <-. exact Hacc.
  - destruct (is_digit c); [|discriminate].
    eapply IH; [|exact H]. unfold digit_val. lia.
Qed.

Lemma safe_int_str_nonneg (s : string) : (0 <= _safe_int (VStr s) 0)%Z.
Proof.
  unfold _safe_int, _safe_int_body. cbv zeta.
  destruct (truthy (VStr (re_sub_non_digit s))); [|simpl; lia].
  unfold int_of_str. destruct (re_sub_non_digit s) as [|c r] eqn:E; [simpl; lia|].
  destruct (Nat.ltb int_max_str_digits (String.length (String c r)));
    [cbn [try_except]; lia|].
  destruct (digits_acc 0 (String c r)) as [z|e] eqn:D; cbn [try_except]; [|lia].
  apply (digits_acc_nonneg (String c r) (acc := 0%Z)); [lia | exact D].
Qed.

Lemma no_digit_filter (s : string) :
  str_forall not_digit s = true -> re_sub_non_digit s = "".
Proof.
  unfold re_sub_non_digit, not_digit.
  induction s as [|c s IH]; simpl; [reflexivity|].
  destruct (is_digit c); simpl; [discriminate | exact IH].
Qed.

(** C2, as stated, fails: a negative number is returned as it is. *)
Lemma safe_int_negative_number : (_safe_int (VInt (-5)) 0 < 0)%Z.
Proof. reflexivity. Qed.

(** C2, as the code has it. A failure inside the coercion gives the default
    instead of an error. For [None], a string, or any value that is not a
    number the result is never negative; a string without a digit, like
    every value that is neither a number nor a string, gives the default 0.
    A number is returned truncated toward zero, with its sign; NaN and the
    infinities give 0. *)
Theorem safe_int_coercion :
  (forall v default e, _safe_int_body v default = Raise e -> _safe_int v default = default)
  /\ (forall v, is_number v = false -> (0 <= _safe_int v 0)%Z)
  /\ (forall s, str_forall not_digit s = true -> _safe_int (VStr s) 0 = 0%Z)
  /\ (forall v, is_number v = false -> is_str v = false -> _safe_int v 0 = 0%Z)
  /\ (forall z, _safe_int (VInt z) 0 = z)
  /\ (forall b, _safe_int (VBool b) 0 = Z.b2z b)
  /\ (forall m e, (0 <= e)%Z -> _safe_int (VFloat (FFin m e)) 0 = (m * 2 ^ e)%Z)
  /\ (forall m e, (e < 0)%Z -> _safe_int (VFloat (FFin m e)) 0 = Z.quot m (2 ^ (- e)))
  /\ _safe_int (VFloat FNan) 0 = 0%Z
  /\ (forall negative, _safe_int (VFloat (FInf negative)) 0 = 0%Z).
Proof.
  repeat split.
  - intros v default e H. unfold _safe_int. rewrite H. reflexivity.
  - intros v Hv. destruct v; try discriminate; try (simpl; lia).
    apply safe_int_str_nonneg.
  - intros s Hs. unfold _safe_int, _safe_int_body. cbv zeta.
    rewrite (no_digit_filter s Hs). reflexivity.
  - intros v Hv Hs. destruct v; try discriminate; reflexivity.
  - intros m e He. unfold _safe_int. simpl.
    destruct (Z.leb_spec 0 e); [reflexivity | lia].
  - intros m e He. unfold _safe_int. simpl.
    destruct (Z.leb_spec 0 e); [lia | reflexivity].
Qed.

Lemma safe_int_coercion_witness :
  (0 <= _safe_int VNone 0)%Z
  /\ _safe_int (VStr "n/a") 0 = 0%Z
  /\ _safe_int (VFloat (FFin (-7) (-1))) 0 = (-3)%Z.
Proof.
  split; [|split].
  - apply (proj1 (proj2 safe_int_coercion) VNone). reflexivity.
  - apply (proj1 (proj2 (proj2 safe_int_coercion)) "n/a"). reflexivity.
  - rewrite (proj1 (proj2 (proj2 (proj2 (proj2 (proj2 (proj2 (proj2 safe_int_coercion)))))))
               (-7)%Z (-1)%Z); reflexivity.
Defined.

(** ** Username derivation *)

Lemma drop_append_plus (pre s : string) (n : nat) :
  drop (String.length pre + n) (pre ++ s)%string = drop n s.
Proof. induction pre as [|c pre IH]; simpl; [reflexivity | exact IH]. Qed.

Lemma username_tail (start : nat) (s : string) (pos : nat) :
  exists e,
    run [Close 1; Opt (is_char "/")] s pos (open_group 1 start no_captures)
    = Some (e, [(1, (start, pos))]).
Proof.
  cbn. destruct s as [|c s]; [eauto|]. destruct (is_char "/" c); eauto.
Qed.

Lemma username_rep (t : string) (pos : nat) :
  run USERNAME_RE (String "/" (String "@" t)) pos no_captures
  = rep_greedy not_slash
      (fun s' pos' =>
         run [Close 1; Opt (is_char "/")] s' pos'
             (open_group 1 (S (S pos)) no_captures))
      1 t (S (S pos)).
Proof. reflexivity. Qed.

Lemma username_tail_total (start : nat) (s : string) (pos : nat) :
  run [Close 1; Opt (is_char "/")] s pos (open_group 1 start no_captures) <> None.
Proof. destruct (username_tail start s pos) as [e ->]. discriminate. Qed.

Lemma username_match (t : string) (pos : nat) :
  1 <= span_len not_slash t ->
  exists e,
    match_at USERNAME_RE (String "/" (String "@" t)) pos
    = Some {| m_start := pos; m_end := e;
              m_spans := [(1, (S (S pos), S (S pos) + span_len not_slash t))] |}.
Proof.
  intros Hn. unfold match_at. rewrite username_rep.
  rewrite rep_greedy_total by (intros s p; apply username_tail_total).
  apply Nat.leb_le in Hn. rewrite Hn.
  destruct (username_tail (S (S pos)) (drop (span_len not_slash t) t)
              (S (S pos) + span_len not_slash t)) as [e ->].
  eauto.
Qed.

Lemma username_no_handle (t : string) (pos : nat) :
  span_len not_slash t = 0 ->
  match_at USERNAME_RE (String "/" (String "@" t)) pos = None.
Proof.
  intros Hn. unfold match_at. rewrite username_rep.
  rewrite rep_greedy_total by (intros s p; apply username_tail_total).
  rewrite Hn. reflexivity.
Qed.

Lemma username_no_marker (s : string) (pos : nat) :
  (forall t, s <> String "/" (String "@" t)) ->
  match_at USERNAME_RE s pos = None.
Proof.
  intros H. unfold match_at, USERNAME_RE. cbn [run].
  destruct s as [|c [|c' t]]; [reflexivity | |].
  - destruct (is_char "/" c); reflexivity.
  - unfold is_char.
    destruct (Ascii.eqb_spec c "/") as [->|]; [|reflexivity].
    destruct (Ascii.eqb_spec c' "@") as [->|]; [|reflexivity].
    exfalso. exact (H t eq_refl).
Qed.

Lemma split_on_head (s : string) :
  exists pieces,
    split_on "/" s = take (span_len not_slash s) s :: pieces.
Proof.
  induction s as [|c s [pieces IH]]; [exists []; reflexivity|].
  cbn [split_on span_len]. unfold not_slash at 1, is_char.
  destruct (Ascii.eqb c "/"); cbn [negb take]; [eauto|].
  rewrite IH. eauto.
Qed.

Lemma segments_slash (r : string) : segments (String "/" r) = split_on "/" r.
Proof. reflexivity. Qed.

Lemma segments_other (c : ascii) (r : string) :
  Ascii.eqb c "/" = false -> segments (String c r) = segments r.
Proof.
  intros H. unfold segments. cbn [split_on]. rewrite H.
  destruct (split_on_head r) as [pieces ->]. reflexivity.
Qed.

Lemma first_handle_split (r : string) :
  first_handle (split_on "/" r)
  = match handle_of (take (span_len not_slash r) r) with
    | Some h => h
    | None => first_handle (segments r)
    end.
Proof.
  unfold segments. destruct (split_on_head r) as [pieces ->]. reflexivity.
Qed.

(** The search finds the handle of the first segment that has one. *)
Lemma search_first_handle (s : string) :
  forall pre,
    match search_from USERNAME_RE s (String.length pre) with
    | Some m => group 1 m (pre ++ s)
    | None => ""
    end = first_handle (segments s).
Proof.
  induction s as [|c r IH]; intros pre; [reflexivity|].
  assert (Hnext :
            match search_from USERNAME_RE r (S (String.length pre)) with
            | Some m => group 1 m (pre ++ String c r)
            | None => ""
            end = first_handle (segments r)).
  { specialize (IH (pre ++ String c "")%string).
    rewrite length_append, append_assoc in IH. cbn [String.length append] in IH.
    rewrite Nat.add_1_r in IH. exact IH. }
  cbn [search_from].
  destruct (Ascii.eqb_spec c "/") as [->|Hc].
  - rewrite segments_slash, first_handle_split.
    destruct r as [|c' t].
    + rewrite username_no_marker by (intros t; discriminate). exact Hnext.
    + destruct (Ascii.eqb_spec c' "@") as [->|Hc'].
      * cbn [span_len not_slash is_char Ascii.eqb Bool.eqb negb take].
        destruct (span_len not_slash t) as [|n] eqn:Hn.
        -- rewrite username_no_handle by exact Hn. exact Hnext.
        -- destruct (@username_match t (String.length pre)) as [e He]; [lia|].
           rewrite He, Hn. unfold group. cbn [m_spans lookup Nat.eqb].
           unfold slice.
           replace (S (S (String.length pre))) with (String.length pre + 2) by lia.
           rewrite drop_append_plus. cbn [drop].
           replace (String.length pre + 2 + S n - (String.length pre + 2)) with (S n) by lia.
           destruct t as [|x t]; [discriminate|]. reflexivity.
      * rewrite username_no_marker by (intros t' E; congruence).
        rewrite Hnext.
        cbn [span_len]. destruct (not_slash c'); cbn [take handle_of]; [|reflexivity].
        destruct (Ascii.eqb_spec c' "@"); [contradiction|].
        destruct c' as [[] [] [] [] [] [] [] []]; try reflexivity; contradiction.
  - rewrite username_no_marker by (intros t E; congruence).
    rewrite segments_other by (apply Ascii.eqb_neq; exact Hc). exact Hnext.
Qed.

Lemma split1_head_append (sep : ascii) (a b : string) :
  str_forall (fun c => negb (Ascii.eqb c sep)) a = true ->
  split1_head sep (a ++ b) = (a ++ split1_head sep b)%string.
Proof.
  induction a as [|c a IH]; cbn [str_forall append split1_head]; [reflexivity|].
  intros H. apply andb_prop in H. destruct H as [Hc Ha].
  apply negb_true_iff in Hc. rewrite Hc, (IH Ha). reflexivity.
Qed.

Lemma in_path_split (path : string) :
  str_forall in_path path = true ->
  str_forall (fun c => negb (Ascii.eqb c "?")) path = true
  /\ str_forall (fun c => negb (Ascii.eqb c "#")) path = true.
Proof.
  induction path as [|c path IH]; cbn [str_forall]; [auto|].
  unfold in_path at 1, is_char. intros H.
  apply andb_prop in H. destruct H as [Hc Hp].
  apply andb_prop in Hc. destruct Hc as [Hq Hf].
  destruct (IH Hp) as [IHq IHf]. rewrite Hq, Hf, IHq, IHf. auto.
Qed.

(** Cutting the query string and the fragment leaves the path. *)
Lemma cut_query_fragment (path suffix : string) :
  str_forall in_path path = true ->
  (suffix = "" \/ exists c r, suffix = String c r /\ in_path c = false) ->
  split1_head "#" (split1_head "?" (path ++ suffix)) = path.
Proof.
  intros Hpath Hsuffix. destruct (@in_path_split path Hpath) as [Hq Hf].
  rewrite (@split1_head_append "?" path suffix Hq).
  destruct Hsuffix as [-> | (c & r & -> & Hc)].
  - cbn [split1_head]. rewrite (@split1_head_append "#" path "" Hf).
    cbn [split1_head]. rewrite !append_nil_r. reflexivity.
  - unfold in_path, is_char in Hc. cbn [split1_head].
    destruct (Ascii.eqb c "?") eqn:Eq.
    + rewrite (@split1_head_append "#" path "" Hf).
      cbn [split1_head]. rewrite !append_nil_r. reflexivity.
    + destruct (Ascii.eqb c "#") eqn:Ef; [|discriminate].
      rewrite (@split1_head_append "#" path _ Hf).
      cbn [split1_head]. rewrite Ef. apply append_nil_r.
Qed.

Lemma split_on_no_sep (s : string) :
  Forall (fun piece => str_forall not_slash piece = true) (split_on "/" s).
Proof.
  induction s as [|c s IH]; cbn [split_on]; [repeat constructor|].
  destruct (Ascii.eqb c "/") eqn:E; [constructor; [reflexivity | exact IH]|].
  destruct (split_on "/" s) as [|piece pieces]; [repeat constructor|].
  - cbn [str_forall]. unfold not_slash, is_char. rewrite E. reflexivity.
  - inversion IH as [|? ? Hp Hps]; subst. constructor; [|exact Hps].
    cbn [str_forall]. unfold not_slash at 1, is_char. rewrite E. exact Hp.
Qed.

Lemma first_handle_no_sep (segs : list string) :
  Forall (fun piece => str_forall not_slash piece = true) segs ->
  str_forall not_slash (first_handle segs) = true.
Proof.
  induction 1 as [|seg segs Hseg _ IH]; [reflexivity|].
  cbn [first_handle]. destruct (handle_of seg) as [h|] eqn:E; [|exact IH].
  destruct seg as [|a [|c t]]; [discriminate | |];
    unfold handle_of in E;
    destruct a as [[] [] [] [] [] [] [] []]; try discriminate.
  injection E as <-. cbn [str_forall] in Hseg.
  apply andb_prop in Hseg. apply Hseg.
Qed.

Lemma first_handle_skip (before : list string) (rest : list string) :
  Forall (fun seg => handle_of seg = None) before ->
  first_handle (before ++ rest) = first_handle rest.
Proof.
  induction 1 as [|seg before Hseg _ IH]; [reflexivity|].
  cbn [app first_handle]. rewrite Hseg. exact IH.
Qed.

(** Every text is a path followed by nothing, by a query string or by a
    fragment. *)
Lemma path_suffix_exists (text : string) :
  exists path suffix,
    text = (path ++ suffix)%string
    /\ str_forall in_path path = true
    /\ (suffix = "" \/ exists c r, suffix = String c r /\ in_path c = false).
Proof.
  induction text as [|c text (path & suffix & -> & Hpath & Hsuffix)].
  - exists "", "". repeat split. left. reflexivity.
  - destruct (in_path c) eqn:E.
    + exists (String c path), suffix. cbn [append str_forall].
      rewrite E, Hpath. repeat split. exact Hsuffix.
    + exists "", (String c (path ++ suffix)). repeat split.
      right. eauto.
Qed.

(** C7, as the code has it. The derived username depends only on the front
    of the URL, that is on the text before the first [?] or [#] of the URL
    without surrounding white space, scheme and authority included.  Of the
    pieces of the front that follow a [/], it is the handle of the first one
    that begins with the marker [@] and goes on, without the marker and up
    to the next separator; it holds no separator; it is empty when no piece
    has a handle. *)
Theorem username_from_path_segment (link front suffix : string) :
  strip link = (front ++ suffix)%string ->
  str_forall in_path front = true ->
  (suffix = "" \/ exists c r, suffix = String c r /\ in_path c = false) ->
  _extract_username_from_url link = first_handle (segments front)
  /\ str_forall not_slash (_extract_username_from_url link) = true
  /\ (forall before h after,
        segments front = before ++ String "@" h :: after ->
        h <> "" ->
        Forall (fun seg => handle_of seg = None) before ->
        _extract_username_from_url link = h)
  /\ (Forall (fun seg => handle_of seg = None) (segments front) ->
      _extract_username_from_url link = "").
Proof.
  intros Hstrip Hfront Hsuffix.
  assert (Heq : _extract_username_from_url link = first_handle (segments front)).
  { unfold _extract_username_from_url. rewrite Hstrip.
    destruct (negb (truthy (VStr (front ++ suffix)))) eqn:E.
    - cbn [truthy] in E. rewrite negb_involutive in E.
      apply String.eqb_eq in E. destruct front; [reflexivity | discriminate].
    - rewrite (@cut_query_fragment front suffix Hfront Hsuffix).
      unfold re_search. exact (search_first_handle front ""). }
  rewrite Heq. repeat split.
  - apply first_handle_no_sep. unfold segments.
    pose proof (split_on_no_sep front) as H.
    destruct (split_on "/" front); [constructor|].
    inversion H; assumption.
  - intros before h after Hseg Hh Hbefore.
    rewrite Hseg, (@first_handle_skip before _ Hbefore). cbn [first_handle].
    destruct h as [|c h]; [congruence | reflexivity].
  - intros Hnone. rewrite <- (app_nil_r (segments front)).
    rewrite (@first_handle_skip (segments front) [] Hnone). reflexivity.
Qed.

(** C7, as stated, fails.  The search runs over the whole text, not over the
    path: a URL whose authority begins with the marker has no path segment
    that begins with it, and yet a username is derived.  And a path segment
    that is the marker alone is passed over for a later one. *)
Lemma username_outside_path :
  url_path "https://@www.tiktok.com/video/1" = "/video/1"
  /\ segments (url_path "https://@www.tiktok.com/video/1") = ["video"; "1"]
  /\ _extract_username_from_url "https://@www.tiktok.com/video/1" = "www.tiktok.com"
  /\ segments (url_path "https://www.tiktok.com/@/@bob") = ["@"; "@bob"]
  /\ _extract_username_from_url "https://www.tiktok.com/@/@bob" = "bob".
Proof. vm_compute. repeat split. Qed.

Lemma username_from_path_segment_witness :
  _extract_username_from_url "  https://www.tiktok.com/@jane/video/42?lang=en#top "
  = first_handle (segments "https://www.tiktok.com/@jane/video/42")
  /\ str_forall not_slash
       (_extract_username_from_url
          "  https://www.tiktok.com/@jane/video/42?lang=en#top ") = true
  /\ (forall before h after,
        segments "https://www.tiktok.com/@jane/video/42"
        = before ++ String "@" h :: after ->
        h <> "" ->
        Forall (fun seg => handle_of seg = None) before ->
        _extract_username_from_url
          "  https://www.tiktok.com/@jane/video/42?lang=en#top " = h)
  /\ (Forall (fun seg => handle_of seg = None)
             (segments "https://www.tiktok.com/@jane/video/42") ->
      _extract_username_from_url
        "  https://www.tiktok.com/@jane/video/42?lang=en#top " = "").
Proof.
  apply (@username_from_path_segment
           "  https://www.tiktok.com/@jane/video/42?lang=en#top "
           "https://www.tiktok.com/@jane/video/42" "?lang=en#top").
  - reflexivity.
  - reflexivity.
  - right. exists "?"%char, "lang=en#top". split; reflexivity.
Defined.

(** ** Contact detection *)

Lemma search_from_some (its : regex) (s : string) :
  forall pos m,
    search_from its s pos = Some m ->
    exists a b, s = (a ++ b)%string /\ match_at its b (pos + String.length a) <> None.
Proof.
  induction s as [|c s IH]; intros pos m H; cbn [search_from] in H.
  - exists "", "". split; [reflexivity|]. cbn [String.length]. rewrite Nat.add_0_r.
    destruct (match_at its "" pos); [discriminate | discriminate].
  - destruct (match_at its (String c s) pos) eqn:E.
    + exists "", (String c s). split; [reflexivity|].
      cbn [String.length]. rewrite Nat.add_0_r. congruence.
    + destruct (IH _ _ H) as (a & b & -> & Hb).
      exists (String c a), b. split; [reflexivity|].
      cbn [String.length]. replace (pos + S (String.length a))
        with (S pos + String.length a) by lia. exact Hb.
Qed.

Lemma search_from_append (its : regex) (a b : string) :
  forall pos,
    match_at its b (pos + String.length a) <> None ->
    search_from its (a ++ b) pos <> None.
Proof.
  induction a as [|c a IH]; intros pos H.
  - cbn [String.length append] in *. rewrite Nat.add_0_r in H.
    destruct b; cbn [search_from]; destruct (match_at its _ pos); congruence.
  - cbn [append search_from].
    destruct (match_at its (String c (a ++ b)) pos); [discriminate|].
    apply IH. cbn [String.length] in H.
    replace (S pos + String.length a) with (pos + S (String.length a)) by lia.
    exact H.
Qed.

Lemma span_len_append (p : ascii -> bool) (a b : string) :
  str_forall p a = true -> String.length a <= span_len p (a ++ b).
Proof.
  induction a as [|c a IH]; cbn [str_forall append span_len String.length]; [lia|].
  intros H. apply andb_prop in H. destruct H as [Hc Ha].
  rewrite Hc. specialize (IH Ha). lia.
Qed.

Lemma take_span (p : ascii -> bool) (s : string) :
  forall j, j <= span_len p s ->
            str_forall p (take j s) = true /\ String.length (take j s) = j.
Proof.
  induction s as [|c s IH]; intros j Hj; cbn [span_len] in Hj.
  - assert (j = 0) by lia. subst. split; reflexivity.
  - destruct j as [|j]; [split; reflexivity|].
    destruct (p c) eqn:E; [|lia].
    destruct (IH j ltac:(lia)) as [Hall Hlen].
    cbn [take str_forall String.length]. rewrite E, Hall, Hlen. split; reflexivity.
Qed.

Lemma phone_core_rep (d : ascii) (t : string) (pos : nat) (st : captures) :
  is_digit d = true ->
  run PHONE_CORE (String d t) pos st
  = rep_greedy phone_body
      (fun s' pos' => run [One is_digit; Close 1] s' pos' st) 7 t (S pos).
Proof. intros H. cbn [PHONE_CORE run]. rewrite H. reflexivity. Qed.

Lemma phone_last (s : string) (pos : nat) (st : captures) :
  run [One is_digit; Close 1] s pos st <> None
  <-> exists last after, s = String last after /\ is_digit last = true.
Proof.
  cbn [run]. destruct s as [|c s].
  - split; [congruence | intros (? & ? & ? & _); discriminate].
  - destruct (is_digit c) eqn:E.
    + split; [eauto | discriminate].
    + split; [congruence|]. intros (l & a & H & Hl). congruence.
Qed.

(** The core of the pattern matches at the start of [s] exactly when [s]
    starts with a digit, at least seven body characters, and a digit. *)
Lemma phone_core_some (s : string) (pos : nat) (st : captures) :
  run PHONE_CORE s pos st <> None
  <-> exists first middle last after,
        s = String first (middle ++ String last after)
        /\ is_digit first = true
        /\ is_digit last = true
        /\ 7 <= String.length middle
        /\ str_forall phone_body middle = true.
Proof.
  destruct s as [|d t].
  - split; [intros H; exact (False_ind _ (H eq_refl))|].
    intros (? & ? & ? & ? & H & _). discriminate.
  - destruct (is_digit d) eqn:Ed.
    + rewrite (@phone_core_rep d t pos st Ed), rep_greedy_some. split.
      * intros (j & H7 & Hj & Hk). apply phone_last in Hk.
        destruct Hk as (last & after & Hdrop & Hlast).
        destruct (@take_span phone_body t j Hj) as [Hall Hlen].
        exists d, (take j t), last, after. rewrite <- Hdrop, take_drop, Hlen.
        repeat split; assumption.
      * intros (first & middle & last & after & E & _ & Hlast & H7 & Hall).
        injection E as <- ->. exists (String.length middle).
        repeat split; [exact H7 | apply span_len_append; exact Hall |].
        apply phone_last. rewrite drop_append. eauto.
    + split.
      * cbn [PHONE_CORE run]. rewrite Ed. congruence.
      * intros (first & middle & last & after & E & Hfirst & _).
        injection E as <- _. congruence.
Qed.

Lemma match_at_some (its : regex) (s : string) (pos : nat) :
  match_at its s pos <> None <-> run its s pos no_captures <> None.
Proof.
  unfold match_at. destruct (run its s pos no_captures) as [[e sp]|];
    split; congruence.
Qed.

Lemma phone_match_some (s : string) (pos : nat) :
  match_at PHONE_RE s pos <> None
  <-> run PHONE_CORE s pos (open_group 1 pos no_captures) <> None
      \/ exists t, s = String "+" t
                   /\ run PHONE_CORE t (S pos) (open_group 1 pos no_captures) <> None.
Proof.
  rewrite match_at_some.
  change (run PHONE_RE s pos no_captures)
    with (match
             match s with
             | String c s' =>
                 if is_char "+" c
                 then run PHONE_CORE s' (S pos) (open_group 1 pos no_captures)
                 else None
             | "" => None
             end
           with
           | Some m => Some m
           | None => run PHONE_CORE s pos (open_group 1 pos no_captures)
           end).
  destruct s as [|c s'].
  - cbn [PHONE_CORE run]. split; [intros H; left; exact H|].
    intros [H | (t & E & _)]; [exact H | discriminate].
  - unfold is_char. destruct (Ascii.eqb_spec c "+") as [->|Hc].
    + destruct (run PHONE_CORE s' (S pos) _) eqn:E1.
      * split; [|discriminate]. intros _. right. exists s'. split; congruence.
      * destruct (run PHONE_CORE (String "+" s') pos _) eqn:E2.
        -- split; [|discriminate]. intros _. left. congruence.
        -- split; [congruence|]. intros [H | (t & E & H)]; [congruence|].
           injection E as <-. congruence.
    + destruct (run PHONE_CORE (String c s') pos _) eqn:E2.
      * split; [|discriminate]. intros _. left. congruence.
      * split; [congruence|]. intros [H | (t & E & H)]; [congruence|].
        injection E as ->. congruence.
Qed.

Lemma phone_search (text : string) :
  re_search PHONE_RE text <> None <-> phone_like text.
Proof.
  unfold re_search, phone_like. split.
  - intros H. destruct (search_from PHONE_RE text 0) as [m|] eqn:E; [|congruence].
    destruct (search_from_some _ _ _ E) as (a & b & -> & Hb).
    apply phone_match_some in Hb. destruct Hb as [Hb | (t & -> & Hb)];
      apply phone_core_some in Hb;
      destruct Hb as (first & middle & last & after & -> & H1 & H2 & H3 & H4).
    + exists a, first, middle, last, after. repeat split; assumption.
    + exists (a ++ "+")%string, first, middle, last, after.
      rewrite append_assoc. repeat split; assumption.
  - intros (before & first & middle & last & after & -> & H1 & H2 & H3 & H4).
    apply search_from_append. apply phone_match_some. left.
    apply phone_core_some. exists first, middle, last, after.
    repeat split; assumption.
Qed.

(** C8, as stated, fails: nine hyphens are a run of nine digit, space or
    hyphen characters, and no phone number is detected in them. *)
Lemma hyphen_run_is_no_phone :
  phone_run "---------"
  /\ _detect_contacts (VStr "---------") = Ok (false, false).
Proof.
  split; [|reflexivity].
  exists "", "---------", "". repeat split. simpl. lia.
Qed.

(** C8, as the code has it. For every bio text, [hasPhone] is true exactly
    when the text holds a digit, followed by at least seven characters that
    are digits, white space or hyphens, followed by a digit; a [+] before
    the first digit is allowed and changes nothing. *)
Theorem phone_detection (text : string) :
  exists has_email has_phone,
    _detect_contacts (VStr text) = Ok (has_email, has_phone)
    /\ (has_phone = true <-> phone_like text).
Proof.
  unfold _detect_contacts. destruct text as [|c text].
  - exists false, false. split; [reflexivity|]. split; [discriminate|].
    intros (before & first & middle & last & after & E & _).
    destruct before; discriminate.
  - cbn [truthy String.eqb negb].
    eexists. eexists. split; [reflexivity|].
    rewrite <- phone_search.
    destruct (re_search PHONE_RE (String c text)); cbn [is_some];
      split; congruence.
Qed.

Lemma phone_detection_witness :
  exists has_email has_phone,
    _detect_contacts (VStr "call +1 555-123-4567") = Ok (has_email, has_phone)
    /\ (has_phone = true <-> phone_like "call +1 555-123-4567").
Proof. exact (phone_detection "call +1 555-123-4567"). Defined.

(** ** Lookups along text keys *)

(** Along keys that can be hashed (text keys among them) a nested lookup
    returns: its only error is the one of an unhashable key. *)
Lemma deep_get_hashable (path : list value) :
  forall data default,
    forallb hashable path = true ->
    exists v, _deep_get data path default = Ok v.
Proof.
  induction path as [|key rest IH]; intros data default Hp.
  - exists data. reflexivity.
  - cbn [forallb] in Hp. apply andb_prop in Hp as [Hk Hrest].
    cbn [_deep_get]. destruct data; try (eexists; reflexivity).
    rewrite Hk. destruct (dict_find key d); [|eexists; reflexivity].
    apply IH. exact Hrest.
Qed.

Lemma module_stats_ok (data : value) (k : string) :
  _deep_get data [VStr "UserModule"; VStr "stats"; VStr k] empty_dict
  = Ok (module_stats data k).
Proof.
  unfold module_stats.
  destruct (@deep_get_hashable [VStr "UserModule"; VStr "stats"; VStr k]
              data empty_dict eq_refl) as [v Hv].
  rewrite Hv. reflexivity.
Qed.

Lemma deep_get_found (data : value) (k : value) (p : list value) (default v : value) :
  _deep_get data (k :: p) default = Ok v -> v <> default -> truthy data = true.
Proof.
  cbn [_deep_get]. destruct data; try congruence.
  destruct d; [cbn; destruct (hashable k); congruence | reflexivity].
Qed.

Lemma page_unique_id_ok (data : value) :
  exists v, _deep_get data [VStr "UserPage"; VStr "uniqueId"] "" = Ok v.
Proof. apply deep_get_hashable. reflexivity. Qed.

(** ** The embedded-state strategy on a [UserModule.users] entry *)

Section Structured.
Context {L : Library}.

Lemma first_user_truthy (data : value) (k : string) (u : dict) :
  first_user data k u -> truthy data = true.
Proof.
  intros [rest H]. destruct data; simpl in H; try discriminate.
  destruct d; [discriminate | reflexivity].
Qed.

Lemma select_first_user (data : value) (k : string) (u : dict) :
  first_user data k u ->
  _select_primary_user data =
    Ok match module_stats data k with
       | VDict st => dict_setdefault "stats" (VDict st) u
       | _ => u
       end.
Proof.
  intros [rest H]. unfold _select_primary_user. rewrite H. cbn [bind].
  rewrite module_stats_ok. cbn [bind].
  unfold dict_get. cbn [dict_find]. rewrite py_eqb_str, String.eqb_refl.
  cbn [py_dict bind].
  generalize (module_stats data k). intros []; reflexivity.
Qed.

(** What the merge leaves of the user entry: every key but ["stats"] is
    untouched, and ["stats"] is the entry's own when it has one. *)
Lemma merged_entry (data : value) (k : string) (u : dict) :
  first_user data k u ->
  exists ud,
    _select_primary_user data = Ok ud
    /\ (forall key, String.eqb "stats" key = false ->
          dict_find (VStr key) ud = dict_find (VStr key) u)
    /\ dict_find "stats" ud =
         match dict_find "stats" u with
         | Some own => Some own
         | None => if is_dict (module_stats data k)
                   then Some (module_stats data k) else None
         end
    /\ (u <> [] -> ud <> []).
Proof.
  intros H. rewrite (select_first_user H).
  destruct (module_stats data k) eqn:E;
    try (exists u; repeat split; auto; destruct (dict_find "stats" u); reflexivity).
  exists (dict_setdefault "stats" (VDict d) u). repeat split.
  - intros key Hk. apply dict_find_setdefault_other. exact Hk.
  - apply dict_find_setdefault_same.
  - apply setdefault_nonempty.
Qed.

(** The record built from a user object [ui] and a stats object [st]. *)
Lemma structured_fields (link page : string) (ud ui st : dict) c :
  truthy (_parse_from_sigi_state page) = true ->
  _select_primary_user (_parse_from_sigi_state page) = Ok ud ->
  truthy (VDict ud) = true ->
  (if dict_has "user" ud && dict_has "stats" ud
   then dict_get "user" ud empty_dict or' empty_dict
   else VDict ud) = VDict ui ->
  dict_get "stats" ud empty_dict or' empty_dict = VDict st ->
  _detect_contacts (dict_get "signature" ui "") = Ok c ->
  exists r,
    _parse_user_from_structured_json link page = Ok (Some r)
    /\ url r = link
    /\ username r = dict_get "uniqueId" ui VNone
                    or' VStr (_extract_username_from_url link)
    /\ avatar r = dict_get "avatarLarger" ui VNone
                  or' dict_get "avatarThumb" ui VNone
                  or' dict_get "avatarMedium" ui VNone or' ""
    /\ followers r = _safe_int (dict_get "followerCount" st VNone
                                or' dict_get "fans" st VNone
                                or' dict_get "followers" st VNone
                                or' dict_get "follower" st VNone) 0.
Proof.
  intros Hs Hsel Hud Hui Hst Hc.
  destruct (page_unique_id_ok (_parse_from_sigi_state page)) as [pid Hpid].
  unfold _parse_user_from_structured_json.
  rewrite Hs, Hsel. cbn [negb bind]. rewrite Hud. cbn [negb].
  rewrite Hui, Hst. cbn [py_get bind]. rewrite Hpid. cbn [py_get bind].
  rewrite Hc. cbn [bind].
  eexists. split; [reflexivity|]. cbn. repeat split; reflexivity.
Qed.

(** A selection with content comes from a blob with content. *)
Lemma select_nonempty_truthy (data : value) (ud : dict) :
  _select_primary_user data = Ok ud -> ud <> [] -> truthy data = true.
Proof.
  unfold _select_primary_user. intros Hsel Hne.
  destruct (@deep_get_hashable [VStr "UserModule"; VStr "users"]
              data empty_dict eq_refl) as [users Husers].
  destruct (@deep_get_hashable [VStr "UserPage"; VStr "userInfo"]
              data empty_dict eq_refl) as [info Hinfo].
  rewrite Husers, Hinfo in Hsel. cbn [bind] in Hsel.
  assert (Hfallback :
            match info with VDict d => Ok d | _ => Ok [] end = Ok ud ->
            truthy data = true).
  { intros H. destruct info; try (injection H as <-; congruence).
    injection H as ->.
    apply (@deep_get_found _ _ _ _ _ Hinfo). unfold empty_dict. congruence. }
  destruct users as [| | | | | |[|[k v] rest]]; try (apply Hfallback; exact Hsel).
  apply (@deep_get_found _ _ _ _ _ Husers). unfold empty_dict. congruence.
Qed.

(** What a record of the strategy was read from: the selection, and the
    user object taken from it by the layout rule. *)
Lemma structured_record_inv (link page : string) (r : TikTokUser) :
  _parse_user_from_structured_json link page = Ok (Some r) ->
  exists ud ui,
    _select_primary_user (_parse_from_sigi_state page) = Ok ud
    /\ (if dict_has "user" ud && dict_has "stats" ud
        then dict_get "user" ud empty_dict or' empty_dict
        else VDict ud) = VDict ui
    /\ avatar r = dict_get "avatarLarger" ui VNone
                  or' dict_get "avatarThumb" ui VNone
                  or' dict_get "avatarMedium" ui VNone or' "".
Proof.
  destruct (page_unique_id_ok (_parse_from_sigi_state page)) as [pid Hpid].
  unfold _parse_user_from_structured_json.
  destruct (negb (truthy (_parse_from_sigi_state page))); [discriminate|].
  destruct (_select_primary_user (_parse_from_sigi_state page)) as [ud|];
    cbn [bind]; [|discriminate].
  destruct (negb (truthy (VDict ud))); [discriminate|].
  destruct (if dict_has "user" ud && dict_has "stats" ud
            then dict_get "user" ud empty_dict or' empty_dict
            else VDict ud) as [| | | | | |ui] eqn:Hui;
    cbn [py_get bind]; try discriminate.
  destruct (dict_get "stats" ud empty_dict or' empty_dict) as [| | | | | |st];
    cbn [py_get bind]; try discriminate.
  rewrite Hpid. cbn [py_get bind].
  destruct (_detect_contacts (dict_get "signature" ui "")) as [[e p]|];
    cbn [bind]; [|discriminate].
  intros H. injection H as <-. exists ud, ui. repeat split. exact Hui.
Qed.

(** For a plain user entry the strategy returns a record, read from the
    entry and from the stats object the merge selected. *)
Lemma plain_user_record (link page : string) (k : string) (u : dict) :
  first_user (_parse_from_sigi_state page) k u ->
  u <> [] ->
  plain_user u = true ->
  exists r st,
    _parse_user_from_structured_json link page = Ok (Some r)
    /\ match dict_find "stats" u with
       | Some own => own
       | None => if is_dict (module_stats (_parse_from_sigi_state page) k)
                 then module_stats (_parse_from_sigi_state page) k
                 else empty_dict
       end or' empty_dict = VDict st
    /\ url r = link
    /\ username r = dict_get "uniqueId" u VNone
                    or' VStr (_extract_username_from_url link)
    /\ avatar r = dict_get "avatarLarger" u VNone
                  or' dict_get "avatarThumb" u VNone
                  or' dict_get "avatarMedium" u VNone or' ""
    /\ followers r = _safe_int (dict_get "followerCount" st VNone
                                or' dict_get "fans" st VNone
                                or' dict_get "followers" st VNone
                                or' dict_get "follower" st VNone) 0.
Proof.
  intros Hfirst Hne Hplain.
  destruct (merged_entry Hfirst) as (ud & Hsel & Hother & Hstats & Hnonempty).
  unfold plain_user in Hplain.
  apply andb_prop in Hplain. destruct Hplain as [Hplain Hown].
  apply andb_prop in Hplain. destruct Hplain as [Huser Hsig].
  assert (Hget : forall key d, String.eqb "stats" key = false ->
                   dict_get (VStr key) ud d = dict_get (VStr key) u d).
  { intros key d Hk. unfold dict_get. rewrite (Hother key Hk). reflexivity. }
  assert (Hlayout : dict_has "user" ud && dict_has "stats" ud = false).
  { unfold dict_has at 1. rewrite (Hother "user" eq_refl).
    unfold dict_has in Huser. destruct (dict_find "user" u); [discriminate|].
    reflexivity. }
  assert (Hst : exists st,
             dict_get "stats" ud empty_dict or' empty_dict = VDict st
             /\ match dict_find "stats" u with
                | Some own => own
                | None => if is_dict (module_stats (_parse_from_sigi_state page) k)
                          then module_stats (_parse_from_sigi_state page) k
                          else empty_dict
                end or' empty_dict = VDict st).
  { unfold dict_get in *. rewrite Hstats.
    destruct (dict_find "stats" u) as [own|].
    - destruct (or_empty_dict_is_dict _ Hown) as [st E]. eauto.
    - destruct (module_stats (_parse_from_sigi_state page) k) as [| | | | | |md];
        try (exists []; split; reflexivity).
      simpl. destruct md; [exists [] | eexists]; split; reflexivity. }
  destruct Hst as (st & Hst1 & Hst2).
  destruct (detect_contacts_text _ Hsig) as [c Hc].
  destruct (@structured_fields link page ud ud st c) as (r & Hr & F1 & F2 & F3 & F4).
  - exact (first_user_truthy Hfirst).
  - exact Hsel.
  - apply truthy_dict_nonempty. auto.
  - rewrite Hlayout. reflexivity.
  - exact Hst1.
  - rewrite Hget by reflexivity. exact Hc.
  - exists r, st. rewrite Hget in F2 by reflexivity.
    repeat (rewrite Hget in F3 by reflexivity).
    repeat split; assumption.
Qed.
End Structured.

(** ** The pipeline *)

Section PipelineFacts.
Context {L : Library}.

Lemma pipeline_structured (link page : string) (session : Session)
    (timeout retries : Z) (w w' : world) (r : TikTokUser) :
  fetch_html link session timeout retries w = (page, w') ->
  page <> "" ->
  _parse_user_from_structured_json link page = Ok (Some r) ->
  parse_user_from_url link session timeout retries w = (Ok (Some r), w').
Proof.
  intros Hf Hp Hr. unfold parse_user_from_url. rewrite Hf.
  destruct page as [|c page]; [congruence|]. cbn [truthy String.eqb negb].
  rewrite Hr. reflexivity.
Qed.

Lemma no_blob_no_structured (link page : string) :
  _parse_from_sigi_state page = empty_dict ->
  _parse_user_from_structured_json link page = Ok None.
Proof.
  intros H. unfold _parse_user_from_structured_json. rewrite H. reflexivity.
Qed.
End PipelineFacts.

(** ** Claims on the embedded-state strategy *)

(** C1, as the code has it. A blob whose [UserModule.users] starts with a
    plain entry (no ["user"] key, no ["stats"] key of its own, a [signature]
    that is absent, empty or text) with [uniqueId = "jane"], and whose
    [UserModule.stats] has, under the same key, an object with
    [followerCount = "12,345"], yields a record with username ["jane"] and
    12345 followers; the pipeline returns that record whenever the fetched
    content is this document. *)
Theorem embedded_state_jane `{L : Library} (link page k : string) (u s : dict) :
  first_user (_parse_from_sigi_state page) k u ->
  module_stats (_parse_from_sigi_state page) k = VDict s ->
  dict_find "uniqueId" u = Some (VStr "jane") ->
  dict_find "followerCount" s = Some (VStr "12,345") ->
  dict_has "stats" u = false ->
  plain_user u = true ->
  exists r,
    _parse_user_from_structured_json link page = Ok (Some r)
    /\ username r = VStr "jane"
    /\ followers r = 12345%Z
    /\ forall session timeout retries w w',
         fetch_html link session timeout retries w = (page, w') ->
         page <> "" ->
         parse_user_from_url link session timeout retries w = (Ok (Some r), w').
Proof.
  intros Hfirst Hmod Hid Hcount Hnostats Hplain.
  assert (Hne : u <> []) by (destruct u; [discriminate | congruence]).
  destruct (plain_user_record link page Hfirst Hne Hplain)
    as (r & st & Hr & Hst & _ & Huser & _ & Hfol).
  unfold dict_has in Hnostats. destruct (dict_find "stats" u); [discriminate|].
  rewrite Hmod in Hst. cbn [is_dict] in Hst.
  assert (s = st) as <-.
  { destruct s; [discriminate|]. unfold py_or in Hst. simpl in Hst. congruence. }
  exists r. split; [exact Hr|]. split; [|split].
  - rewrite Huser. unfold dict_get. rewrite Hid. reflexivity.
  - rewrite Hfol. unfold dict_get. rewrite Hcount. reflexivity.
  - intros. eapply pipeline_structured; eauto.
Qed.

(** C3, as the code has it. Whatever user object the strategy reads, be it
    the first entry of [UserModule.users] or [UserPage.userInfo], taken as it
    is or, in the layout with a ["user"] and a ["stats"] key, through its
    ["user"] value, the avatar of the record is the first non-empty of
    [avatarLarger], [avatarThumb], [avatarMedium], and the empty text when
    none is: so a user object without the largest variant and with a
    thumbnail gets the thumbnail, whatever its medium variant.  Every record
    the strategy returns has this avatar; and the strategy returns a record
    for every selection with content whose ["stats"] is empty or an object
    and whose user object has a [signature] that is empty or text. *)
Theorem avatar_larger_thumb_medium `{L : Library} (link page : string) :
  (forall r,
     _parse_user_from_structured_json link page = Ok (Some r) ->
     exists ud ui,
       _select_primary_user (_parse_from_sigi_state page) = Ok ud
       /\ (if dict_has "user" ud && dict_has "stats" ud
           then dict_get "user" ud empty_dict or' empty_dict
           else VDict ud) = VDict ui
       /\ avatar r = dict_get "avatarLarger" ui VNone
                     or' dict_get "avatarThumb" ui VNone
                     or' dict_get "avatarMedium" ui VNone or' ""
       /\ (truthy (dict_get "avatarLarger" ui VNone) = false ->
           truthy (dict_get "avatarThumb" ui VNone) = true ->
           avatar r = dict_get "avatarThumb" ui VNone))
  /\ (forall ud ui,
        _select_primary_user (_parse_from_sigi_state page) = Ok ud ->
        ud <> [] ->
        (if dict_has "user" ud && dict_has "stats" ud
         then dict_get "user" ud empty_dict or' empty_dict
         else VDict ud) = VDict ui ->
        negb (truthy (dict_get "stats" ud empty_dict))
        || is_dict (dict_get "stats" ud empty_dict) = true ->
        negb (truthy (dict_get "signature" ui ""))
        || is_str (dict_get "signature" ui "") = true ->
        exists r,
          _parse_user_from_structured_json link page = Ok (Some r)
          /\ avatar r = dict_get "avatarLarger" ui VNone
                        or' dict_get "avatarThumb" ui VNone
                        or' dict_get "avatarMedium" ui VNone or' ""
          /\ (truthy (dict_get "avatarLarger" ui VNone) = false ->
              truthy (dict_get "avatarThumb" ui VNone) = true ->
              avatar r = dict_get "avatarThumb" ui VNone)).
Proof.
  assert (Hthumb : forall (r : TikTokUser) (ui : dict),
             avatar r = dict_get "avatarLarger" ui VNone
                        or' dict_get "avatarThumb" ui VNone
                        or' dict_get "avatarMedium" ui VNone or' "" ->
             truthy (dict_get "avatarLarger" ui VNone) = false ->
             truthy (dict_get "avatarThumb" ui VNone) = true ->
             avatar r = dict_get "avatarThumb" ui VNone).
  { intros r ui Hav Hl Ht. rewrite Hav. unfold py_or. rewrite Hl, Ht, Ht.
    reflexivity. }
  split.
  - intros r Hr.
    destruct (structured_record_inv link page Hr) as (ud & ui & Hsel & Hui & Hav).
    exists ud, ui. repeat split; try assumption. apply Hthumb. exact Hav.
  - intros ud ui Hsel Hne Hui Hstats Hsig.
    destruct (or_empty_dict_is_dict _ Hstats) as [st Hst].
    destruct (detect_contacts_text _ Hsig) as [c Hc].
    destruct (@structured_fields L link page ud ui st c)
      as (r & Hr & _ & _ & Hav & _); try assumption.
    + exact (select_nonempty_truthy _ Hsel Hne).
    + apply truthy_dict_nonempty. exact Hne.
    + exists r. repeat split; try assumption. apply Hthumb. exact Hav.
Qed.

(** C10. When the selected [UserModule.users] entry has a ["stats"] key of
    its own, the selection is the entry unchanged, whatever
    [UserModule.stats] holds, and the counts are read from the nested
    object; the module-level entry is appended only when the user entry has
    no ["stats"] key. *)
Theorem own_stats_shadow_module_stats `{L : Library} (data : value) (k : string) (u : dict) :
  first_user data k u ->
  (forall own, dict_find "stats" u = Some own -> _select_primary_user data = Ok u)
  /\ (dict_find "stats" u = None ->
      forall st, module_stats data k = VDict st ->
        _select_primary_user data = Ok (u ++ [(VStr "stats", VDict st)]))
  /\ (forall merged,
        _select_primary_user data = Ok merged -> merged <> u ->
        dict_find "stats" u = None
        /\ merged = u ++ [(VStr "stats", module_stats data k)])
  /\ (forall link page own,
        data = _parse_from_sigi_state page ->
        dict_find "stats" u = Some (VDict own) ->
        plain_user u = true ->
        exists r,
          _parse_user_from_structured_json link page = Ok (Some r)
          /\ followers r = _safe_int (dict_get "followerCount" own VNone
                                      or' dict_get "fans" own VNone
                                      or' dict_get "followers" own VNone
                                      or' dict_get "follower" own VNone) 0).
Proof.
  intros Hfirst. pose proof (select_first_user Hfirst) as Hsel.
  split; [|split; [|split]].
  - intros own Hown. rewrite Hsel.
    destruct (module_stats data k); try reflexivity.
    unfold dict_setdefault, dict_has. rewrite Hown. reflexivity.
  - intros Hnone st Hst. rewrite Hsel, Hst.
    unfold dict_setdefault, dict_has. rewrite Hnone. reflexivity.
  - intros merged Hm Hneq. rewrite Hsel in Hm.
    destruct (module_stats data k) as [| | | | | |st];
      try (injection Hm as <-; congruence).
    unfold dict_setdefault, dict_has in Hm.
    destruct (dict_find "stats" u); injection Hm as <-; [congruence|].
    split; reflexivity.
  - intros link page own -> Hown Hplain.
    assert (Hne : u <> []) by (destruct u; [discriminate | congruence]).
    destruct (plain_user_record link page Hfirst Hne Hplain)
      as (r & st & Hr & Hst & _ & _ & _ & Hfol).
    rewrite Hown in Hst.
    assert (own = st) as <-.
    { unfold py_or, empty_dict in Hst. destruct own; simpl in Hst; congruence. }
    exists r. split; assumption.
Qed.

Lemma embedded_state_jane_witness :
  exists r,
    _parse_user_from_structured_json
      (L := page_library (user_module_page (obj [("uniqueId", VStr "jane")])
                                           (obj [("followerCount", VStr "12,345")])))
      "https://www.tiktok.com/share/1" "<html>" = Ok (Some r)
    /\ username r = VStr "jane"
    /\ followers r = 12345%Z
    /\ forall session timeout retries w w',
         fetch_html "https://www.tiktok.com/share/1" session timeout retries w
           = ("<html>", w') ->
         "<html>" <> "" ->
         parse_user_from_url
           (L := page_library (user_module_page (obj [("uniqueId", VStr "jane")])
                                                (obj [("followerCount", VStr "12,345")])))
           "https://www.tiktok.com/share/1" session timeout retries w
         = (Ok (Some r), w').
Proof.
  apply (@embedded_state_jane
           (page_library (user_module_page (obj [("uniqueId", VStr "jane")])
                                           (obj [("followerCount", VStr "12,345")])))
           "https://www.tiktok.com/share/1" "<html>" "u1"
           [(VStr "uniqueId", VStr "jane")]
           [(VStr "followerCount", VStr "12,345")]);
    try reflexivity.
  exists []. reflexivity.
Defined.

(** C1, as stated, fails on an entry that is not plain.  With a ["stats"]
    object of its own the entry keeps it, and the count is read there, not
    from the matching entry of [UserModule.stats]; with a ["user"] object
    the merged entry is read in the other layout, and the username is the one
    of that object; with a [signature] that is a number the strategy
    raises. *)
Lemma embedded_state_entry_not_plain :
  (first_user
     (_parse_from_sigi_state
        (L := page_library
                (user_module_page
                   (obj [("uniqueId", VStr "jane");
                         ("stats", obj [("followerCount", VInt 5)])])
                   (obj [("followerCount", VStr "12,345")])))
        "<html>")
     "u1"
     [(VStr "uniqueId", VStr "jane");
      (VStr "stats", obj [("followerCount", VInt 5)])]
   /\ module_stats
        (_parse_from_sigi_state
           (L := page_library
                   (user_module_page
                      (obj [("uniqueId", VStr "jane");
                            ("stats", obj [("followerCount", VInt 5)])])
                      (obj [("followerCount", VStr "12,345")])))
           "<html>")
        "u1"
      = obj [("followerCount", VStr "12,345")]
   /\ exists r,
        _parse_user_from_structured_json
          (L := page_library
                  (user_module_page
                     (obj [("uniqueId", VStr "jane");
                           ("stats", obj [("followerCount", VInt 5)])])
                     (obj [("followerCount", VStr "12,345")])))
          "https://www.tiktok.com/share/1" "<html>" = Ok (Some r)
        /\ username r = VStr "jane"
        /\ followers r = 5%Z)
  /\ (exists r,
        _parse_user_from_structured_json
          (L := page_library
                  (user_module_page
                     (obj [("uniqueId", VStr "jane");
                           ("user", obj [("uniqueId", VStr "bob")])])
                     (obj [("followerCount", VStr "12,345")])))
          "https://www.tiktok.com/share/1" "<html>" = Ok (Some r)
        /\ username r = VStr "bob"
        /\ followers r = 12345%Z)
  /\ _parse_user_from_structured_json
       (L := page_library
               (user_module_page
                  (obj [("uniqueId", VStr "jane"); ("signature", VInt 5)])
                  (obj [("followerCount", VStr "12,345")])))
       "https://www.tiktok.com/share/1" "<html>" = Raise TypeError.
Proof.
  split; [split; [|split]|split].
  - exists []. reflexivity.
  - reflexivity.
  - eexists. split; [vm_compute; reflexivity|]. split; reflexivity.
  - eexists. split; [vm_compute; reflexivity|]. split; reflexivity.
  - vm_compute. reflexivity.
Qed.

(** C3, as stated, fails: an entry without [avatarLarger] and with both
    [avatarMedium] and [avatarThumb] gets the thumbnail, not the medium
    variant. *)
Lemma avatar_medium_not_preferred :
  exists r,
    _parse_user_from_structured_json
      (L := page_library
              (user_module_page (obj [("uniqueId", VStr "jane");
                                      ("avatarMedium", VStr "m.jpg");
                                      ("avatarThumb", VStr "t.jpg")])
                                (obj [])))
      "https://www.tiktok.com/@jane" "<html>" = Ok (Some r)
    /\ avatar r = VStr "t.jpg"
    /\ avatar r <> VStr "m.jpg".
Proof.
  eexists. split; [vm_compute; reflexivity|]. split; [reflexivity | discriminate].
Qed.

Lemma avatar_larger_thumb_medium_witness :
  exists r,
    _parse_user_from_structured_json
      (L := page_library
              (user_page (obj [("uniqueId", VStr "jane");
                               ("avatarMedium", VStr "m.jpg");
                               ("avatarThumb", VStr "t.jpg")])
                         (obj [("fans", VInt 12)])))
      "https://www.tiktok.com/@jane" "<html>" = Ok (Some r)
    /\ avatar r = VNone or' VStr "t.jpg" or' VStr "m.jpg" or' VStr ""
    /\ (truthy VNone = false -> truthy (VStr "t.jpg") = true ->
        avatar r = VStr "t.jpg").
Proof.
  apply (proj2 (@avatar_larger_thumb_medium
                  (page_library
                     (user_page (obj [("uniqueId", VStr "jane");
                                      ("avatarMedium", VStr "m.jpg");
                                      ("avatarThumb", VStr "t.jpg")])
                                (obj [("fans", VInt 12)])))
                  "https://www.tiktok.com/@jane" "<html>")
           [(VStr "user", obj [("uniqueId", VStr "jane");
                               ("avatarMedium", VStr "m.jpg");
                               ("avatarThumb", VStr "t.jpg")]);
            (VStr "stats", obj [("fans", VInt 12)])]
           [(VStr "uniqueId", VStr "jane"); (VStr "avatarMedium", VStr "m.jpg");
            (VStr "avatarThumb", VStr "t.jpg")]).
  - reflexivity.
  - discriminate.
  - reflexivity.
  - reflexivity.
  - reflexivity.
Defined.


Lemma own_stats_shadow_module_stats_witness :
  _select_primary_user
    (obj [("UserModule",
           obj [("users", obj [("u1", obj [("uniqueId", VStr "jane");
                                           ("stats", obj [("followerCount", VInt 7)])])]);
                ("stats", obj [("u1", obj [("followerCount", VInt 9)])])])])
  = Ok [(VStr "uniqueId", VStr "jane");
        (VStr "stats", obj [("followerCount", VInt 7)])].
Proof.
  apply (proj1 (@own_stats_shadow_module_stats
                  (page_library (user_module_page VNone VNone))
                  (obj [("UserModule",
                         obj [("users", obj [("u1", obj [("uniqueId", VStr "jane");
                                                         ("stats", obj [("followerCount", VInt 7)])])]);
                              ("stats", obj [("u1", obj [("followerCount", VInt 9)])])])])
                  "u1"
                  [(VStr "uniqueId", VStr "jane");
                   (VStr "stats", obj [("followerCount", VInt 7)])]
                  (ex_intro _ [] eq_refl))
               (obj [("followerCount", VInt 7)])).
  reflexivity.
Defined.

(** ** Claims on the fallback strategies *)

(** C5. When the fetch gives no content for [https://example.com/@jane], the
    pipeline returns a record whose [url] is that URL, whose [username] is
    ["jane"], and whose other fields have their defaults. *)
Theorem empty_content_minimal_record `{L : Library}
    (session : Session) (timeout retries : Z) (w : world) :
  fst (fetch_html "https://example.com/@jane" session timeout retries w) = "" ->
  fst (parse_user_from_url "https://example.com/@jane" session timeout retries w)
  = Ok (Some {| id := ""; url := "https://example.com/@jane";
                username := VStr "jane"; nickname := VStr ""; bio := VStr "";
                followers := 0; following := 0; likes := 0; videos := 0;
                verified := false; avatar := VStr ""; region := VStr "";
                language := VStr ""; hasEmail := false; hasPhone := false;
                coverImage := VStr ""; extra := [] |}).
Proof.
  intros H. unfold parse_user_from_url.
  destruct (fetch_html "https://example.com/@jane" session timeout retries w)
    as [html w'].
  simpl in H. subst html. reflexivity.
Qed.

Lemma empty_content_minimal_record_witness :
  fst (parse_user_from_url (L := page_library (metadata_page []))
         "https://example.com/@jane" failing_session 10 3 new_world)
  = Ok (Some {| id := ""; url := "https://example.com/@jane";
                username := VStr "jane"; nickname := VStr ""; bio := VStr "";
                followers := 0; following := 0; likes := 0; videos := 0;
                verified := false; avatar := VStr ""; region := VStr "";
                language := VStr ""; hasEmail := false; hasPhone := false;
                coverImage := VStr ""; extra := [] |}).
Proof.
  apply (@empty_content_minimal_record (page_library (metadata_page []))
           failing_session 10%Z 3%Z new_world).
  reflexivity.
Defined.

Lemma no_state_empty_dict `{L : Library} (page : string) :
  no_decodable_state page -> _parse_from_sigi_state page = empty_dict.
Proof.
  unfold no_decodable_state, _parse_from_sigi_state.
  destruct (script_string page) as [text|]; [|reflexivity].
  intros [-> | [e He]]; [reflexivity|].
  rewrite He. destruct (negb (truthy (VStr text))); reflexivity.
Qed.

Lemma detect_contacts_str (s : string) : exists c, _detect_contacts (VStr s) = Ok c.
Proof. apply detect_contacts_text. simpl. apply orb_true_r. Qed.

Lemma title_jane_doe :
  re_match TITLE_RE "Jane Doe (@jane)"
  = Some {| m_start := 0; m_end := 16; m_spans := [(2, (11, 15)); (1, (0, 8))] |}.
Proof. reflexivity. Qed.

(** C6. For content without a decodable embedded state whose [og:title] is
    ["Jane Doe (@jane)"], and a URL that gives no username, the pipeline
    returns a record with nickname ["Jane Doe"], username ["jane"] and no
    followers. *)
Theorem metadata_title_jane `{L : Library} (link page : string)
    (session : Session) (timeout retries : Z) (w w' : world) :
  fetch_html link session timeout retries w = (page, w') ->
  page <> "" ->
  no_decodable_state page ->
  meta_content page "og:title" = Some "Jane Doe (@jane)" ->
  _extract_username_from_url link = "" ->
  exists r,
    parse_user_from_url link session timeout retries w = (Ok (Some r), w')
    /\ nickname r = VStr "Jane Doe"
    /\ username r = VStr "jane"
    /\ followers r = 0%Z.
Proof.
  intros Hfetch Hpage Hstate Htitle Hurl.
  unfold parse_user_from_url. rewrite Hfetch.
  destruct page as [|c page]; [congruence|]. cbn [truthy String.eqb negb].
  rewrite (no_blob_no_structured link (String c page) (no_state_empty_dict (String c page) Hstate)).
  cbn [bind]. unfold _parse_from_open_graph.
  assert (Hog : og (String c page) "title" = "Jane Doe (@jane)").
  { unfold og. cbn [append]. rewrite Htitle. reflexivity. }
  rewrite Hog, Hurl, title_jane_doe.
  set (description := og (String c page) "description").
  set (text := if truthy (VStr description) then description else "").
  destruct (detect_contacts_str text) as [ct Hct].
  cbn [truthy String.eqb Ascii.eqb Bool.eqb negb].
  cbv zeta. cbv beta iota. rewrite Hct. cbn [bind].
  eexists. split; [reflexivity|]. repeat split; reflexivity.
Qed.

Lemma metadata_title_jane_witness :
  exists r,
    parse_user_from_url
      (L := page_library (metadata_page [("og:title", "Jane Doe (@jane)")]))
      "https://www.tiktok.com/share/1" (serving_session "<html>") 10 1 new_world
    = (Ok (Some r),
       {| requests := 1; trace := [Get "https://www.tiktok.com/share/1" 10] |})
    /\ nickname r = VStr "Jane Doe"
    /\ username r = VStr "jane"
    /\ followers r = 0%Z.
Proof.
  apply (@metadata_title_jane
           (page_library (metadata_page [("og:title", "Jane Doe (@jane)")]))
           "https://www.tiktok.com/share/1" "<html>" (serving_session "<html>")
           10%Z 1%Z new_world).
  - reflexivity.
  - discriminate.
  - exact I.
  - reflexivity.
  - reflexivity.
Defined.

(** ** The fetcher *)

Section Fetcher.
Variable session : Session.
Variable link : string.
Variable timeout : Z.

Lemma get_ok_fails (w : world) :
  request_fails session link timeout (requests w) = true ->
  get_ok session link timeout w
  = (None, {| requests := S (requests w);
              trace := trace w ++ [Get link timeout] |}).
Proof.
  unfold request_fails, get_ok.
  destruct (session_get session (requests w) link timeout) as [|status text];
    [reflexivity|].
  intros ->. reflexivity.
Qed.

Lemma get_ok_succeeds (w : world) :
  request_fails session link timeout (requests w) = false ->
  exists text,
    get_ok session link timeout w
    = (Some text, {| requests := S (requests w);
                     trace := trace w ++ [Get link timeout] |}).
Proof.
  unfold request_fails, get_ok.
  destruct (session_get session (requests w) link timeout) as [|status text];
    [discriminate|].
  intros ->. eauto.
Qed.

Lemma fetch_attempts_all_fail (attempts : list Z) :
  forall w,
    (forall i, i < List.length attempts ->
               request_fails session link timeout (requests w + i) = true) ->
    fetch_attempts session link timeout attempts w
    = ("", {| requests := requests w + List.length attempts;
              trace := trace w ++ flat_map (failed_attempt link timeout) attempts |}).
Proof.
  induction attempts as [|k rest IH]; intros w Hfail.
  - simpl. rewrite Nat.add_0_r, app_nil_r. destruct w; reflexivity.
  - cbn [fetch_attempts].
    rewrite get_ok_fails by (rewrite <- (Nat.add_0_r (requests w)); apply Hfail; simpl; lia).
    rewrite IH.
    + cbn [requests trace sleep flat_map failed_attempt List.length app].
      rewrite <- !app_assoc. cbn [app]. f_equal. f_equal. lia.
    + intros i Hi. cbn [requests sleep].
      replace (S (requests w) + i) with (requests w + S i) by lia.
      apply Hfail. simpl. lia.
Qed.

Lemma fetch_attempts_first_success (failed : list Z) (k : Z) (rest : list Z) :
  forall w,
    (forall i, i < List.length failed ->
               request_fails session link timeout (requests w + i) = true) ->
    request_fails session link timeout (requests w + List.length failed) = false ->
    exists text,
      fetch_attempts session link timeout (failed ++ k :: rest) w
      = (text, {| requests := requests w + List.length failed + 1;
                  trace := trace w ++ flat_map (failed_attempt link timeout) failed
                                   ++ [Get link timeout] |}).
Proof.
  induction failed as [|j failed IH]; intros w Hfail Hok.
  - cbn [app fetch_attempts List.length flat_map].
    rewrite Nat.add_0_r in Hok. destruct (get_ok_succeeds w Hok) as [text ->].
    exists text. f_equal. f_equal. lia.
  - cbn [app fetch_attempts].
    rewrite get_ok_fails by (rewrite <- (Nat.add_0_r (requests w)); apply Hfail; simpl; lia).
    destruct (IH (sleep (Z.min (2 * j) 10)
                    {| requests := S (requests w);
                       trace := trace w ++ [Get link timeout] |})) as [text Ht].
    + intros i Hi. cbn [requests sleep].
      replace (S (requests w) + i) with (requests w + S i) by lia.
      apply Hfail. simpl. lia.
    + cbn [requests sleep].
      replace (S (requests w) + List.length failed)
        with (requests w + List.length (j :: failed)) by (simpl; lia).
      exact Hok.
    + exists text. rewrite Ht.
      cbn [requests trace sleep flat_map failed_attempt List.length app].
      rewrite <- !app_assoc. cbn [app]. f_equal. f_equal. lia.
Qed.
End Fetcher.

Lemma py_range_length (a b : Z) : List.length (py_range a b) = Z.to_nat (b - a).
Proof. unfold py_range. rewrite length_map, length_seq. reflexivity. Qed.

Lemma map_seq_from_zero {A} (f : nat -> A) (m : nat) :
  forall s, map f (seq s m) = map (fun i => f (s + i)) (seq 0 m).
Proof.
  revert f. induction m as [|m IH]; intros f s; [reflexivity|].
  cbn [seq map]. f_equal; [f_equal; lia|].
  rewrite (IH f (S s)), (IH (fun i => f (s + i)) 1).
  apply map_ext. intros i. f_equal. lia.
Qed.

Lemma py_range_split (a : Z) (n : nat) (b : Z) :
  (a + Z.of_nat n < b)%Z ->
  py_range a b
  = py_range a (a + Z.of_nat n) ++ (a + Z.of_nat n)%Z :: py_range (a + Z.of_nat n + 1) b.
Proof.
  intros H. unfold py_range.
  replace (Z.to_nat (b - a)) with (n + S (Z.to_nat (b - (a + Z.of_nat n + 1)))) by lia.
  rewrite seq_app, map_app. cbn [seq map Nat.add].
  replace (Z.to_nat (a + Z.of_nat n - a)) with n by lia.
  f_equal. f_equal.
  rewrite map_seq_from_zero. apply map_ext. intros i. lia.
Qed.

(** C4, as stated, fails: with one attempt allowed and that attempt failing,
    the fetcher still waits 2 time units after it, before it returns. *)
Lemma wait_after_final_attempt :
  fetch_html "https://www.tiktok.com/@jane" failing_session 10 1 new_world
  = ("", {| requests := 1;
            trace := [Get "https://www.tiktok.com/@jane" 10; Sleep 2] |}).
Proof. reflexivity. Qed.

(** C4, as the code has it. A call of the fetcher makes its attempts in
    order, numbered from 1, and after every failed attempt [k], the final one
    included, it waits [min (2 * k) 10] time units; it does not wait before
    the first attempt nor after a successful one. *)
Theorem fetch_backoff (session : Session) (link : string) (timeout retries : Z)
    (w : world) :
  ((forall i, i < Z.to_nat retries ->
              request_fails session link timeout (requests w + i) = true) ->
   fetch_html link session timeout retries w
   = ("", {| requests := requests w + Z.to_nat retries;
             trace := trace w
                      ++ flat_map (fun k => [Get link timeout; Sleep (Z.min (2 * k) 10)])
                                  (py_range 1 (retries + 1)) |}))
  /\ (forall j,
        (Z.of_nat j < retries)%Z ->
        (forall i, i < j ->
                   request_fails session link timeout (requests w + i) = true) ->
        request_fails session link timeout (requests w + j) = false ->
        exists text,
          fetch_html link session timeout retries w
          = (text, {| requests := requests w + j + 1;
                      trace := trace w
                               ++ flat_map (fun k => [Get link timeout;
                                                      Sleep (Z.min (2 * k) 10)])
                                           (py_range 1 (Z.of_nat j + 1))
                               ++ [Get link timeout] |})).
Proof.
  split.
  - intros Hfail. unfold fetch_html.
    rewrite (@fetch_attempts_all_fail session link timeout).
    + rewrite py_range_length. do 3 f_equal. lia.
    + intros i Hi. rewrite py_range_length in Hi. apply Hfail. lia.
  - intros j Hj Hfail Hok. unfold fetch_html.
    rewrite (@py_range_split 1 j (retries + 1)) by lia.
    destruct (@fetch_attempts_first_success session link timeout
                (py_range 1 (1 + Z.of_nat j)) (1 + Z.of_nat j)%Z
                (py_range (1 + Z.of_nat j + 1) (retries + 1)) w) as [text Ht].
    + intros i Hi. rewrite py_range_length in Hi. apply Hfail. lia.
    + rewrite py_range_length.
      replace (Z.to_nat (1 + Z.of_nat j - 1)) with j by lia. exact Hok.
    + exists text. rewrite Ht, py_range_length.
      replace (Z.to_nat (1 + Z.of_nat j - 1)) with j by lia.
      replace (Z.of_nat j + 1)%Z with (1 + Z.of_nat j)%Z by lia.
      reflexivity.
Qed.

Lemma fetch_backoff_witness :
  fetch_html "https://www.tiktok.com/@jane" failing_session 10 6 new_world
  = ("", {| requests := 6;
            trace := [Get "https://www.tiktok.com/@jane" 10; Sleep 2;
                      Get "https://www.tiktok.com/@jane" 10; Sleep 4;
                      Get "https://www.tiktok.com/@jane" 10; Sleep 6;
                      Get "https://www.tiktok.com/@jane" 10; Sleep 8;
                      Get "https://www.tiktok.com/@jane" 10; Sleep 10;
                      Get "https://www.tiktok.com/@jane" 10; Sleep 10] |})
  /\ exists text,
       fetch_html "https://www.tiktok.com/@jane"
         {| session_get := fun n _ _ =>
              if Nat.ltb n 2 then Response 503 "" else Response 200 "<html>" |}
         10 5 new_world
       = (text, {| requests := 3;
                   trace := [Get "https://www.tiktok.com/@jane" 10; Sleep 2;
                             Get "https://www.tiktok.com/@jane" 10; Sleep 4;
                             Get "https://www.tiktok.com/@jane" 10] |}).
Proof.
  split.
  - apply (proj1 (fetch_backoff failing_session "https://www.tiktok.com/@jane"
                    10 6 new_world)).
    intros i Hi. reflexivity.
  - apply (proj2 (fetch_backoff
                    {| session_get := fun n _ _ =>
                         if Nat.ltb n 2 then Response 503 "" else Response 200 "<html>" |}
                    "https://www.tiktok.com/@jane" 10 5 new_world) 2).
    + reflexivity.
    + intros i Hi. simpl in Hi.
      destruct i as [|[|i]]; [reflexivity | reflexivity | lia].
    + reflexivity.
Defined.

(** ** The exporter *)

Lemma str_in_In (key : string) (l : list string) :
  str_in key l = true <-> In key l.
Proof.
  unfold str_in. rewrite existsb_exists. split.
  - intros (x & Hx & E). apply String.eqb_eq in E. subst. exact Hx.
  - intros H. exists key. split; [exact H | apply String.eqb_refl].
Qed.

Lemma first_seen_In (key : string) (l : list string) :
  In key (first_seen l) <-> In key l.
Proof.
  unfold first_seen. rewrite <- in_rev, nodup_In, <- in_rev. reflexivity.
Qed.

Lemma first_seen_snoc (l : list string) (key : string) :
  first_seen (l ++ [key])
  = if str_in key (first_seen l) then first_seen l else first_seen l ++ [key].
Proof.
  unfold first_seen at 1. rewrite rev_app_distr. cbn [rev app nodup].
  destruct (in_dec string_dec key (rev l)) as [Hin | Hout].
  - replace (str_in key (first_seen l)) with true; [reflexivity|].
    symmetry. apply (proj2 (str_in_In _ _)). apply (proj2 (first_seen_In _ _)).
    apply (proj2 (in_rev _ _)). exact Hin.
  - replace (str_in key (first_seen l)) with false; [reflexivity|].
    symmetry. apply not_true_is_false. intros H.
    apply (proj1 (str_in_In _ _)) in H. apply (proj1 (first_seen_In _ _)) in H.
    apply Hout. apply (proj1 (in_rev _ _)). exact H.
Qed.

Lemma add_fieldnames_first_seen (l : list string) :
  fold_left add_fieldname l [] = first_seen l.
Proof.
  induction l as [|key l IH] using rev_ind; [reflexivity|].
  rewrite fold_left_app, IH, first_seen_snoc. cbn [fold_left].
  unfold add_fieldname. destruct (str_in key (first_seen l)); reflexivity.
Qed.

Lemma collect_fieldnames_fold (records : list record) :
  forall acc,
    fold_left (fun fieldnames rec => fold_left add_fieldname (keys rec) fieldnames)
              records acc
    = fold_left add_fieldname (all_keys records) acc.
Proof.
  unfold all_keys.
  induction records as [|rec records IH]; intros acc; [reflexivity|].
  cbn [fold_left map List.concat]. rewrite fold_left_app. apply IH.
Qed.

Lemma collect_fieldnames_first_seen (records : list record) :
  collect_fieldnames records = first_seen (all_keys records).
Proof.
  unfold collect_fieldnames.
  rewrite collect_fieldnames_fold. apply add_fieldnames_first_seen.
Qed.

Lemma writerows_ok (fieldnames : list string) (recs : list record) :
  (forall rec key, In rec recs -> In key (keys rec) -> In key fieldnames) ->
  exists rows,
    writerows fieldnames recs = Ok rows
    /\ List.length rows = List.length recs.
Proof.
  induction recs as [|rec recs IH]; intros H.
  - exists []. split; reflexivity.
  - destruct IH as (rows & Hrows & Hlen).
    { intros r key Hr. apply H. right. exact Hr. }
    cbn [writerows]. unfold writerow.
    replace (forallb (fun k => str_in k fieldnames) (keys rec)) with true.
    + cbn [bind]. rewrite Hrows. cbn [bind]. eexists. split; [reflexivity|].
      simpl. rewrite Hlen. reflexivity.
    + symmetry. apply forallb_forall. intros key Hkey.
      apply str_in_In. apply (H rec key); [left; reflexivity | exact Hkey].
Qed.

(** C9. A non-empty list of records is written as a header line followed by
    one line per record; the header holds the keys of all records, each
    once, in the order in which they are first seen across the records.  The
    empty list is written as a file without any line. *)
Theorem csv_header_union_first_seen :
  export_to_csv [] = Ok []
  /\ forall records,
       records <> [] ->
       exists rows,
         export_to_csv records = Ok (Header (first_seen (all_keys records)) :: rows)
         /\ List.length rows = List.length records
         /\ NoDup (first_seen (all_keys records))
         /\ forall key,
              In key (first_seen (all_keys records))
              <-> exists rec, In rec records /\ In key (keys rec).
Proof.
  split; [reflexivity|].
  intros records Hne.
  assert (Hmem : forall key,
             In key (first_seen (all_keys records))
             <-> exists rec, In rec records /\ In key (keys rec)).
  { intros key. rewrite first_seen_In. unfold all_keys. rewrite in_concat.
    split.
    - intros (l & Hl & Hkey). apply in_map_iff in Hl.
      destruct Hl as (rec & <- & Hrec). eauto.
    - intros (rec & Hrec & Hkey). exists (keys rec). split; [|exact Hkey].
      apply in_map. exact Hrec. }
  destruct (@writerows_ok (first_seen (all_keys records)) records) as (rows & Hrows & Hlen).
  { intros rec key Hrec Hkey. apply Hmem. eauto. }
  exists rows. repeat split.
  - unfold export_to_csv. destruct records as [|rec records]; [congruence|].
    rewrite collect_fieldnames_first_seen, Hrows. reflexivity.
  - exact Hlen.
  - unfold first_seen. apply NoDup_rev. apply NoDup_nodup.
  - apply Hmem.
  - apply Hmem.
Qed.

Lemma csv_header_union_first_seen_witness :
  exists rows,
    export_to_csv [[("id", VStr "1"); ("url", VStr "a")];
                   [("url", VStr "b"); ("note", VStr "n"); ("id", VStr "2")]]
    = Ok (Header ["id"; "url"; "note"] :: rows)
    /\ List.length rows = 2
    /\ NoDup ["id"; "url"; "note"]
    /\ forall key,
         In key ["id"; "url"; "note"]
         <-> exists rec,
               In rec [[("id", VStr "1"); ("url", VStr "a")];
                       [("url", VStr "b"); ("note", VStr "n"); ("id", VStr "2")]]
               /\ In key (keys rec).
Proof.
  apply (proj2 csv_header_union_first_seen
           [[("id", VStr "1"); ("url", VStr "a")];
            [("url", VStr "b"); ("note", VStr "n"); ("id", VStr "2")]]).
  discriminate.
Defined.


(** ** More on the numeric coercion *)

Lemma str_filter_append (p : ascii -> bool) (a b : string) :
  str_filter p (a ++ b) = (str_filter p a ++ str_filter p b)%string.
Proof.
  induction a as [|c a IH]; cbn [append str_filter]; [reflexivity|].
  destruct (p c); cbn [append]; rewrite IH; reflexivity.
Qed.

Lemma str_filter_all (p : ascii -> bool) (s : string) :
  str_forall p (str_filter p s) = true.
Proof.
  induction s as [|c s IH]; cbn [str_filter]; [reflexivity|].
  destruct (p c) eqn:E; [|exact IH]. cbn [str_forall]. rewrite E. exact IH.
Qed.

(** On a text of digits the accumulator is never refused. *)
Lemma digits_acc_digits (s : string) :
  str_forall is_digit s = true ->
  forall acc, exists z, digits_acc acc s = Ok z.
Proof.
  induction s as [|c s IH]; cbn [str_forall digits_acc]; intros H acc; [eauto|].
  apply andb_prop in H. destruct H as [Hc Hs]. rewrite Hc. apply IH. exact Hs.
Qed.

Lemma digits_acc_append (a b : string) :
  forall acc,
    digits_acc acc (a ++ b) = (z <- digits_acc acc a ;; digits_acc z b).
Proof.
  induction a as [|c a IH]; intros acc; cbn [append digits_acc bind]; [reflexivity|].
  destruct (is_digit c); [apply IH | reflexivity].
Qed.

Lemma digits_acc_shift (s : string) :
  forall acc acc' z,
    digits_acc acc s = Ok z ->
    digits_acc acc' s
    = Ok (z + (acc' - acc) * 10 ^ Z.of_nat (String.length s))%Z.
Proof.
  induction s as [|c s IH]; intros acc acc' z H; cbn [digits_acc] in *.
  - injection H as <-. cbn [String.length Z.of_nat]. f_equal. lia.
  - destruct (is_digit c); [|discriminate].
    rewrite (IH _ (10 * acc' + digit_val c)%Z _ H). f_equal.
    cbn [String.length]. rewrite Nat2Z.inj_succ, Z.pow_succ_r by lia. lia.
Qed.

(** The conversion of a text of digits that the interpreter accepts. *)
Lemma int_of_str_within (s : string) :
  s <> "" ->
  String.length s <= int_max_str_digits ->
  int_of_str s = digits_acc 0 s.
Proof.
  intros Hne Hlen. unfold int_of_str. destruct s as [|c r]; [congruence|].
  destruct (Nat.ltb_spec int_max_str_digits (String.length (String c r)));
    [lia | reflexivity].
Qed.

(** The conversion of a text of more digits than the interpreter accepts. *)
Lemma int_of_str_beyond (s : string) :
  int_max_str_digits < String.length s -> int_of_str s = Raise ValueError.
Proof.
  intros Hlen. unfold int_of_str. destruct s as [|c r]; [reflexivity|].
  destruct (Nat.ltb_spec int_max_str_digits (String.length (String c r)));
    [reflexivity | lia].
Qed.

(** The coercion of a text of at most [int_max_str_digits] digits is the
    number its digits spell, 0 when it has none. *)
Lemma safe_int_digits (s : string) :
  digit_count s <= int_max_str_digits ->
  digits_acc 0 (str_filter is_digit s) = Ok (_safe_int (VStr s) 0).
Proof.
  unfold digit_count, _safe_int, _safe_int_body, re_sub_non_digit. cbv zeta.
  intros Hlen.
  destruct (str_filter is_digit s) as [|c r] eqn:E; [reflexivity|].
  cbn [truthy String.eqb negb].
  rewrite (@int_of_str_within (String c r)) by (congruence || exact Hlen).
  destruct (@digits_acc_digits (String c r)) with (acc := 0%Z) as [z Hz].
  - rewrite <- E. apply str_filter_all.
  - rewrite Hz. reflexivity.
Qed.

(** A text of more digits than the interpreter converts is coerced to the
    default. *)
Lemma safe_int_beyond (s : string) (default : Z) :
  int_max_str_digits < digit_count s -> _safe_int (VStr s) default = default.
Proof.
  unfold digit_count, _safe_int, _safe_int_body, re_sub_non_digit. cbv zeta.
  intros Hlen. rewrite (@int_of_str_beyond _ Hlen).
  destruct (truthy (VStr (str_filter is_digit s))); reflexivity.
Qed.

Lemma digit_count_append (a b : string) :
  digit_count (a ++ b) = digit_count a + digit_count b.
Proof. unfold digit_count. rewrite str_filter_append. apply length_append. Qed.

(** X2. Reading two texts one after the other, when together they hold no
    more digits than the interpreter converts: the digits of the second text
    are appended to the number read from the first. *)
Theorem safe_int_concat (a b : string) :
  digit_count (a ++ b) <= int_max_str_digits ->
  _safe_int (VStr (a ++ b)) 0
  = (_safe_int (VStr a) 0 * 10 ^ Z.of_nat (digit_count b) + _safe_int (VStr b) 0)%Z.
Proof.
  intros Hlen. pose proof (@safe_int_digits (a ++ b) Hlen) as H.
  rewrite digit_count_append in Hlen.
  assert (Ha : digit_count a <= int_max_str_digits) by lia.
  assert (Hb : digit_count b <= int_max_str_digits) by lia.
  rewrite str_filter_append, digits_acc_append, (@safe_int_digits a Ha) in H.
  cbn [bind] in H.
  rewrite (@digits_acc_shift _ 0%Z (_safe_int (VStr a) 0) _ (@safe_int_digits b Hb)) in H.
  injection H as H. unfold digit_count. lia.
Qed.

Lemma safe_int_concat_witness :
  _safe_int (VStr ("12,3" ++ "45 fans")) 0
  = (_safe_int (VStr "12,3") 0 * 10 ^ Z.of_nat (digit_count "45 fans")
     + _safe_int (VStr "45 fans") 0)%Z.
Proof.
  apply (@safe_int_concat "12,3" "45 fans").
  apply Nat.leb_le. vm_compute. reflexivity.
Defined.

Lemma digits_of_uint (d : Decimal.uint) :
  forall acc,
    digits_acc (Z.of_nat acc) (NilEmpty.string_of_uint d)
    = Ok (Z.of_nat (Nat.of_uint_acc d acc))
    /\ str_forall is_digit (NilEmpty.string_of_uint d) = true.
Proof.
  induction d as [|d IH|d IH|d IH|d IH|d IH|d IH|d IH|d IH|d IH|d IH];
    intros acc;
    [split; reflexivity | ..];
    cbn [NilEmpty.string_of_uint digits_acc Nat.of_uint_acc str_forall];
    match goal with
    | |- context [is_digit ?c] =>
        change (is_digit c) with true; cbn [andb]
    end;
    match goal with
    | |- context [Nat.of_uint_acc d ?n] =>
        destruct (IH n) as [IH1 IH2]; rewrite <- IH1, IH2
    end;
    (split; [|reflexivity]); f_equal;
    rewrite ?Nat2Z.inj_succ, Nat.tail_mul_spec, Nat2Z.inj_mul;
    unfold digit_val; cbn; lia.
Qed.

Lemma decimal_digits (n : nat) :
  digits_acc 0 (decimal n) = Ok (Z.of_nat n)
  /\ str_forall is_digit (decimal n) = true
  /\ decimal n <> "".
Proof.
  unfold decimal, NilZero.string_of_uint.
  pose proof (DecimalNat.Unsigned.of_to n) as Hn. unfold Nat.of_uint in Hn.
  destruct (Nat.to_uint n) as [|d|d|d|d|d|d|d|d|d|d] eqn:E;
    try (rewrite <- E; destruct (digits_of_uint (Nat.to_uint n) 0) as [H1 H2];
         rewrite E in *; rewrite Hn in H1;
         repeat split; [exact H1 | exact H2 | discriminate]).
  cbn in Hn. subst n. repeat split. discriminate.
Qed.

Lemma str_filter_id (p : ascii -> bool) (s : string) :
  str_forall p s = true -> str_filter p s = s.
Proof.
  induction s as [|c s IH]; cbn [str_forall str_filter]; [reflexivity|].
  intros H. apply andb_prop in H. destruct H as [Hc Hs].
  rewrite Hc, (IH Hs). reflexivity.
Qed.

(** X1. A non-negative number written in decimal, in no more digits than
    the interpreter converts, is read back, whatever characters that are not
    digits are written between, before or after its digits, and whatever the
    default. *)
Theorem safe_int_reads_decimal (s : string) (n : nat) (default : Z) :
  str_filter is_digit s = decimal n ->
  digit_count s <= int_max_str_digits ->
  _safe_int (VStr s) default = Z.of_nat n.
Proof.
  intros H Hlen. destruct (decimal_digits n) as (Hval & _ & Hne).
  unfold digit_count in Hlen.
  unfold _safe_int, _safe_int_body, re_sub_non_digit. cbv zeta.
  rewrite H in *.
  rewrite (@int_of_str_within _ Hne Hlen), Hval.
  destruct (decimal n) as [|c r]; [congruence | reflexivity].
Qed.

Lemma safe_int_reads_decimal_witness :
  _safe_int (VStr "4 321 followers") (-1) = Z.of_nat 4321.
Proof.
  apply (@safe_int_reads_decimal "4 321 followers" 4321 (-1)%Z).
  - vm_compute. reflexivity.
  - apply Nat.leb_le. vm_compute. reflexivity.
Defined.


(** ** E-mail detection *)

Lemma email_tld_some (s : string) (pos : nat) (st : captures) :
  run [Rep is_alpha 2 true] s pos st <> None <-> 2 <= span_len is_alpha s.
Proof.
  change (run [Rep is_alpha 2 true] s pos st)
    with (rep_greedy is_alpha (fun s' pos' => run [] s' pos' st) 2 s pos).
  rewrite rep_greedy_some. split.
  - intros (j & H2 & Hj & _). lia.
  - intros H. exists 2. repeat split; [lia | exact H | discriminate].
Qed.

Lemma email_dot_some (s : string) (pos : nat) (st : captures) :
  run EMAIL_DOT s pos st <> None
  <-> exists t, s = String "." t /\ 2 <= span_len is_alpha t.
Proof.
  unfold EMAIL_DOT. destruct s as [|c t].
  - cbn [run]. split; [congruence | intros (t & E & _); discriminate].
  - change (run (One (is_char ".") :: [Rep is_alpha 2 true]) (String c t) pos st)
      with (if is_char "." c then run [Rep is_alpha 2 true] t (S pos) st else None).
    unfold is_char. destruct (Ascii.eqb_spec c ".") as [->|Hc].
    + rewrite email_tld_some. split; [eauto|].
      intros (t' & E & H). injection E as <-. exact H.
    + split; [congruence|]. intros (t' & E & _). congruence.
Qed.

Lemma email_at_rep (u : string) (pos : nat) (st : captures) :
  run EMAIL_AT (String "@" u) pos st
  = rep_greedy email_domain (fun s' pos' => run EMAIL_DOT s' pos' st) 1 u (S pos).
Proof. reflexivity. Qed.

Lemma email_at_other (c : ascii) (u : string) (pos : nat) (st : captures) :
  c <> "@"%char -> run EMAIL_AT (String c u) pos st = None.
Proof.
  intros H. cbn [EMAIL_AT run]. unfold is_char.
  destruct (Ascii.eqb_spec c "@"); [contradiction | reflexivity].
Qed.

Lemma email_at_some (s : string) (pos : nat) (st : captures) :
  run EMAIL_AT s pos st <> None
  <-> exists u j t,
        s = String "@" u
        /\ 1 <= j <= span_len email_domain u
        /\ drop j u = String "." t
        /\ 2 <= span_len is_alpha t.
Proof.
  destruct s as [|c u].
  - cbn [EMAIL_AT run]. split; [congruence | intros (u & j & t & E & _); discriminate].
  - destruct (Ascii.eqb_spec c "@") as [->|Hc].
    + rewrite email_at_rep, rep_greedy_some. split.
      * intros (j & H1 & Hj & Hk). apply email_dot_some in Hk.
        destruct Hk as (t & E & Ht). exists u, j, t. auto.
      * intros (u' & j & t & E & [H1 Hj] & Hd & Ht). injection E as <-.
        exists j. repeat split; [exact H1 | exact Hj |].
        apply email_dot_some. eauto.
    + rewrite (email_at_other u pos st Hc).
      split; [congruence|]. intros (u' & j & t & E & _). congruence.
Qed.

Lemma email_match_some (s : string) (pos : nat) :
  match_at EMAIL_RE s pos <> None
  <-> exists i u j t,
        1 <= i <= span_len email_local s
        /\ drop i s = String "@" u
        /\ 1 <= j <= span_len email_domain u
        /\ drop j u = String "." t
        /\ 2 <= span_len is_alpha t.
Proof.
  rewrite match_at_some.
  change (run EMAIL_RE s pos no_captures)
    with (rep_greedy email_local (fun s' pos' => run EMAIL_AT s' pos' no_captures)
                     1 s pos).
  rewrite rep_greedy_some. split.
  - intros (i & H1 & Hi & Hk). apply email_at_some in Hk.
    destruct Hk as (u & j & t & E & Hj & Hd & Ht). exists i, u, j, t. auto.
  - intros (i & u & j & t & [H1 Hi] & E & Hj & Hd & Ht).
    exists i. repeat split; [exact H1 | exact Hi |].
    apply email_at_some. exists u, j, t. auto.
Qed.

Lemma span_len_take (p : ascii -> bool) (s : string) :
  str_forall p (take (span_len p s) s) = true
  /\ String.length (take (span_len p s) s) = span_len p s.
Proof. apply take_span. lia. Qed.

Lemma email_search (text : string) :
  re_search EMAIL_RE text <> None <-> email_like text.
Proof.
  unfold re_search, email_like. split.
  - intros H. destruct (search_from EMAIL_RE text 0) as [m|] eqn:E; [|congruence].
    destruct (search_from_some _ _ _ E) as (a & b & -> & Hb).
    apply email_match_some in Hb.
    destruct Hb as (i & u & j & t & [H1 Hi] & Hu & [Hj1 Hj] & Ht & Htld).
    destruct (@take_span email_local b i Hi) as [Hl1 Hl2].
    destruct (@take_span email_domain u j Hj) as [Hd1 Hd2].
    destruct (span_len_take is_alpha t) as [Ht1 Ht2].
    exists a, (take i b), (take j u), (take (span_len is_alpha t) t),
           (drop (span_len is_alpha t) t).
    rewrite take_drop, <- Ht, take_drop, <- Hu, take_drop, Hl2, Hd2, Ht2.
    repeat split; assumption.
  - intros (before & local & domain & tld & after & -> & L1 & L2 & D1 & D2 & T1 & T2).
    apply search_from_append. apply email_match_some.
    exists (String.length local), (domain ++ String "." (tld ++ after))%string,
           (String.length domain), (tld ++ after)%string.
    repeat split.
    + exact L1.
    + apply span_len_append. exact L2.
    + apply drop_append.
    + exact D1.
    + apply span_len_append. exact D2.
    + apply drop_append.
    + pose proof (@span_len_append is_alpha tld after T2). lia.
Qed.

(** X3. For every bio text, [hasEmail] is true exactly when the text holds
    a non-empty local part, [@], a non-empty domain, a dot and at least two
    letters. *)
Theorem email_detection (text : string) :
  exists has_email has_phone,
    _detect_contacts (VStr text) = Ok (has_email, has_phone)
    /\ (has_email = true <-> email_like text).
Proof.
  unfold _detect_contacts. destruct text as [|c text].
  - exists false, false. split; [reflexivity|]. split; [discriminate|].
    intros (before & local & domain & tld & after & E & _).
    destruct before; destruct local; discriminate.
  - cbn [truthy String.eqb negb].
    eexists. eexists. split; [reflexivity|].
    rewrite <- email_search.
    destruct (re_search EMAIL_RE (String c text)); cbn [is_some];
      split; congruence.
Qed.

(** X4. A bio without the character [@] never has [hasEmail] set. *)
Theorem no_at_no_email (text : string) :
  str_forall (fun c => negb (is_char "@" c)) text = true ->
  exists has_phone, _detect_contacts (VStr text) = Ok (false, has_phone).
Proof.
  intros Hno. unfold _detect_contacts.
  destruct (negb (truthy (VStr text))); [eauto|].
  eexists. f_equal. f_equal.
  destruct (re_search EMAIL_RE text) eqn:E; [|reflexivity]. exfalso.
  assert (Hlike : email_like text) by (apply email_search; congruence).
  destruct Hlike as (before & local & domain & tld & after & -> & _).
  rewrite !str_forall_append in Hno.
  cbn [str_forall is_char Ascii.eqb Bool.eqb negb] in Hno.
  rewrite !andb_false_r in Hno. discriminate.
Qed.

Lemma no_at_no_email_witness :
  exists has_phone,
    _detect_contacts (VStr "call 555-123-4567 after 5") = Ok (false, has_phone).
Proof.
  apply (@no_at_no_email "call 555-123-4567 after 5"). reflexivity.
Defined.


(** ** Profile and video URLs *)

Lemma split_on_nonempty (sep : ascii) (s : string) : split_on sep s <> [].
Proof.
  destruct s as [|c s]; cbn [split_on]; [discriminate|].
  destruct (Ascii.eqb c sep); [discriminate|].
  destruct (split_on sep s); discriminate.
Qed.

(** Splitting a text at a separator splits its pieces. *)
Lemma split_on_append (sep : ascii) (a b : string) :
  split_on sep (a ++ String sep b) = split_on sep a ++ split_on sep b.
Proof.
  induction a as [|c a IH]; cbn [append split_on].
  - rewrite Ascii.eqb_refl. reflexivity.
  - destruct (Ascii.eqb c sep); rewrite IH; [reflexivity|].
    pose proof (split_on_nonempty sep a) as Hne.
    destruct (split_on sep a); [congruence | reflexivity].
Qed.

Lemma split_on_whole (s : string) :
  str_forall not_slash s = true -> split_on "/" s = [s].
Proof.
  induction s as [|c s IH]; cbn [str_forall split_on]; [reflexivity|].
  intros H. apply andb_prop in H. destruct H as [Hc Hs].
  unfold not_slash, is_char in Hc. apply negb_true_iff in Hc.
  rewrite Hc, (IH Hs). reflexivity.
Qed.

Lemma segments_append (pre rest : string) :
  segments (pre ++ String "/" rest) = segments pre ++ split_on "/" rest.
Proof.
  unfold segments. rewrite split_on_append.
  pose proof (split_on_nonempty "/" pre) as Hne.
  destruct (split_on "/" pre); [congruence | reflexivity].
Qed.

(** The derived username is the first handle of the path. *)
Lemma username_of_path (link path suffix : string) :
  strip link = (path ++ suffix)%string ->
  str_forall in_path path = true ->
  (suffix = "" \/ exists c r, suffix = String c r /\ in_path c = false) ->
  _extract_username_from_url link = first_handle (segments path).
Proof.
  intros Hstrip Hpath Hsuffix.
  unfold _extract_username_from_url. rewrite Hstrip.
  destruct (negb (truthy (VStr (path ++ suffix)))) eqn:E.
  - cbn [truthy] in E. rewrite negb_involutive in E.
    apply String.eqb_eq in E. destruct path; [reflexivity | discriminate].
  - rewrite (@cut_query_fragment path suffix Hpath Hsuffix).
    unfold re_search. exact (search_first_handle path "").
Qed.

Lemma handle_chars (h : string) :
  str_forall handle_char h = true ->
  str_forall not_slash h = true /\ str_forall in_path h = true.
Proof.
  induction h as [|c h IH]; cbn [str_forall]; [auto|].
  intros H. apply andb_prop in H. destruct H as [Hc Hh].
  unfold handle_char in Hc. apply andb_prop in Hc. destruct Hc as [H1 H2].
  destruct (IH Hh) as [IH1 IH2]. rewrite H1, H2, IH1, IH2. auto.
Qed.

(** X5. The two shapes of the docstring, for every site and handle: from a
    URL made of a prefix without handle, [/@], a handle, and then nothing,
    a further path, a query string or a fragment, the derived username is
    the handle. *)
Theorem username_of_profile_url (link pre h tail : string) :
  strip link = (pre ++ String "/" (String "@" (h ++ tail)))%string ->
  str_forall in_path pre = true ->
  Forall (fun seg => handle_of seg = None) (segments pre) ->
  h <> "" ->
  str_forall handle_char h = true ->
  (tail = "" \/ exists c r, tail = String c r /\ handle_char c = false) ->
  _extract_username_from_url link = h.
Proof.
  intros Hstrip Hpre Hnone Hne Hh Htail.
  destruct (handle_chars h Hh) as [Hslash Hin].
  destruct (path_suffix_exists tail) as (tp & ts & -> & Htp & Hts).
  assert (Hsplit :
            split_on "/" (String "@" (h ++ tp))
            = String "@" h :: tl (split_on "/" (String "@" (h ++ tp)))).
  { destruct tp as [|c tp].
    - rewrite append_nil_r, split_on_whole; [reflexivity|].
      cbn [str_forall]. rewrite Hslash. reflexivity.
    - destruct Htail as [E | (c' & r & E & Hc')]; [discriminate|].
      injection E as <- _.
      cbn [str_forall] in Htp. apply andb_prop in Htp. destruct Htp as [Hc _].
      unfold handle_char in Hc'. rewrite Hc, andb_true_r in Hc'.
      unfold not_slash, is_char in Hc'. apply negb_false_iff in Hc'.
      apply Ascii.eqb_eq in Hc'. subst c.
      change (String "@" (h ++ String "/" tp))
        with (String "@" h ++ String "/" tp)%string.
      rewrite split_on_append, split_on_whole; [reflexivity|].
      cbn [str_forall]. rewrite Hslash. reflexivity. }
  rewrite (@username_of_path link (pre ++ String "/" (String "@" (h ++ tp))) ts).
  - rewrite segments_append, (@first_handle_skip _ _ Hnone), Hsplit.
    cbn [first_handle]. destruct h as [|c h]; [congruence | reflexivity].
  - rewrite Hstrip. rewrite !append_assoc. cbn [append].
    rewrite append_assoc. reflexivity.
  - rewrite str_forall_append. cbn [str_forall].
    rewrite str_forall_append, Hpre, Hin, Htp. reflexivity.
  - exact Hts.
Qed.

Lemma username_of_profile_url_witness :
  _extract_username_from_url " https://www.tiktok.com/@dance.queen/video/123456?lang=en "
  = "dance.queen".
Proof.
  apply (@username_of_profile_url
           " https://www.tiktok.com/@dance.queen/video/123456?lang=en "
           "https://www.tiktok.com" "dance.queen" "/video/123456?lang=en").
  - reflexivity.
  - reflexivity.
  - repeat constructor.
  - discriminate.
  - reflexivity.
  - right. exists "/"%char, "video/123456?lang=en". split; reflexivity.
Defined.


(** ** Nested lookups *)

(** X6. Looking up a path in two steps: a path followed by a non-empty
    path is looked up by looking up the first with a default that is not an
    object, and the second in what was found; the [TypeError] of a key that
    cannot be hashed, met under an object in either part, is the outcome of
    both sides. *)
Theorem deep_get_append (data : value) (p q : list value) (default miss : value) :
  is_dict miss = false ->
  q <> [] ->
  _deep_get data (p ++ q) default
  = (node <- _deep_get data p miss ;; _deep_get node q default).
Proof.
  intros Hmiss Hq.
  assert (Hm : _deep_get miss q default = Ok default).
  { destruct q as [|k q]; [congruence|]. destruct miss; try reflexivity. discriminate. }
  revert data. induction p as [|k p IH]; intros data; [reflexivity|].
  cbn [app _deep_get]. destruct data; cbn [bind]; try (symmetry; exact Hm).
  destruct (hashable k); [|reflexivity].
  destruct (dict_find k d); [apply IH | symmetry; exact Hm].
Qed.

Lemma deep_get_append_witness :
  _deep_get (obj [("UserModule", obj [("stats", obj [("u1", VInt 3)])])])
            ([VStr "UserModule"] ++ [VStr "stats"; VStr "u1"]) empty_dict
  = (node <- _deep_get (obj [("UserModule", obj [("stats", obj [("u1", VInt 3)])])])
                       [VStr "UserModule"] VNone ;;
     _deep_get node [VStr "stats"; VStr "u1"] empty_dict).
Proof.
  apply (@deep_get_append
           (obj [("UserModule", obj [("stats", obj [("u1", VInt 3)])])])
           [VStr "UserModule"] [VStr "stats"; VStr "u1"] empty_dict VNone).
  - reflexivity.
  - discriminate.
Defined.

(** ** The embedded-state strategy on [UserPage.userInfo] *)

Lemma select_user_info `{L : Library} (data : value) (info : dict) :
  no_users data ->
  _deep_get data [VStr "UserPage"; VStr "userInfo"] empty_dict = Ok (VDict info) ->
  _select_primary_user data = Ok info.
Proof.
  unfold no_users, _select_primary_user. intros Hno Hinfo.
  destruct (@deep_get_hashable [VStr "UserModule"; VStr "users"]
              data empty_dict eq_refl) as [users Husers].
  rewrite Husers in *. cbn [bind].
  destruct users as [| | | | | |[|[k v] rest]]; try (rewrite Hinfo; reflexivity).
  contradiction.
Qed.

(** X7. The second layout. When the blob has no users mapping and
    [UserPage.userInfo] holds an object ["user"] and an object ["stats"], the
    record is read from these two: the username from [uniqueId] of the first,
    or else from the URL, and the follower count from the second. *)
Theorem user_info_layout `{L : Library} (link page : string) (info user stats : dict) :
  no_users (_parse_from_sigi_state page) ->
  _deep_get (_parse_from_sigi_state page) [VStr "UserPage"; VStr "userInfo"] empty_dict
  = Ok (VDict info) ->
  dict_find "user" info = Some (VDict user) ->
  dict_find "stats" info = Some (VDict stats) ->
  negb (truthy (dict_get "signature" user "")) || is_str (dict_get "signature" user "") = true ->
  exists r,
    _parse_user_from_structured_json link page = Ok (Some r)
    /\ username r = dict_get "uniqueId" user VNone
                    or' VStr (_extract_username_from_url link)
    /\ followers r = _safe_int (dict_get "followerCount" stats VNone
                                or' dict_get "fans" stats VNone
                                or' dict_get "followers" stats VNone
                                or' dict_get "follower" stats VNone) 0.
Proof.
  intros Hno Hinfo Huser Hstats Hsig.
  assert (Hne : info <> []) by (destruct info; [discriminate | congruence]).
  destruct (detect_contacts_text _ Hsig) as [c Hc].
  destruct (@structured_fields L link page info user stats c)
    as (r & Hr & _ & Hu & _ & Hf).
  - apply (@deep_get_found _ _ _ _ _ Hinfo). unfold empty_dict. congruence.
  - apply select_user_info; assumption.
  - apply truthy_dict_nonempty. exact Hne.
  - unfold dict_has, dict_get. rewrite Huser, Hstats. cbn [andb].
    unfold py_or, empty_dict. destruct user; reflexivity.
  - unfold dict_get. rewrite Hstats.
    unfold py_or, empty_dict. destruct stats; reflexivity.
  - exact Hc.
  - exists r. auto.
Qed.

Lemma user_info_layout_witness :
  exists r,
    _parse_user_from_structured_json
      (L := page_library (user_page (obj [("uniqueId", VStr "jane")])
                                    (obj [("fans", VInt 12)])))
      "https://www.tiktok.com/@x" "<html>" = Ok (Some r)
    /\ username r = VStr "jane" or' VStr (_extract_username_from_url "https://www.tiktok.com/@x")
    /\ followers r = _safe_int (VNone or' VInt 12 or' VNone or' VNone) 0.
Proof.
  apply (@user_info_layout
           (page_library (user_page (obj [("uniqueId", VStr "jane")])
                                    (obj [("fans", VInt 12)])))
           "https://www.tiktok.com/@x" "<html>"
           [(VStr "user", obj [("uniqueId", VStr "jane")]);
            (VStr "stats", obj [("fans", VInt 12)])]
           [(VStr "uniqueId", VStr "jane")]
           [(VStr "fans", VInt 12)]).
  - exact I.
  - reflexivity.
  - reflexivity.
  - reflexivity.
  - reflexivity.
Defined.


(** ** What every record of the pipeline satisfies *)

Section Invariants.
Context {L : Library}.

Lemma structured_well_formed (link page : string) (r : TikTokUser) :
  _parse_user_from_structured_json link page = Ok (Some r) ->
  well_formed link r.
Proof.
  destruct (page_unique_id_ok (_parse_from_sigi_state page)) as [pid Hpid].
  unfold _parse_user_from_structured_json.
  destruct (negb (truthy (_parse_from_sigi_state page))); [discriminate|].
  destruct (_select_primary_user (_parse_from_sigi_state page)) as [ud|];
    cbn [bind]; [|discriminate].
  destruct (negb (truthy (VDict ud))); [discriminate|].
  generalize (if dict_has "user" ud && dict_has "stats" ud
              then dict_get "user" ud empty_dict or' empty_dict
              else VDict ud).
  generalize (dict_get "stats" ud empty_dict or' empty_dict).
  intros stats user_info.
  destruct user_info as [| | | | | |ui]; cbn [py_get bind]; try discriminate.
  destruct stats as [| | | | | |st]; cbn [py_get bind]; try discriminate.
  rewrite Hpid. cbn [py_get bind].
  destruct (_detect_contacts (dict_get "signature" ui "")) as [[e p]|] eqn:Hc;
    cbn [bind]; [|discriminate].
  intros H. injection H as <-. repeat split. exact Hc.
Qed.

Lemma open_graph_record (link page : string) :
  exists r,
    _parse_from_open_graph link page = Ok (Some r)
    /\ well_formed link r
    /\ id r = ""
    /\ followers r = 0%Z /\ following r = 0%Z /\ likes r = 0%Z /\ videos r = 0%Z
    /\ bio r = VStr (og page "description")
    /\ avatar r = VStr (og page "image")
    /\ (_extract_username_from_url link <> "" ->
        username r = VStr (_extract_username_from_url link))
    /\ (og page "title" = "" ->
        nickname r = VStr "" /\ username r = VStr (_extract_username_from_url link)).
Proof.
  unfold _parse_from_open_graph.
  set (title := og page "title").
  set (description := og page "description").
  set (names :=
         if truthy (VStr title)
         then match re_match TITLE_RE title with
              | Some m =>
                  (strip (group 1 m title),
                   if negb (truthy (VStr (_extract_username_from_url link)))
                   then strip (group 2 m title)
                   else _extract_username_from_url link)
              | None =>
                  (strip (replace "| TikTok" "" title),
                   _extract_username_from_url link)
              end
         else ("", _extract_username_from_url link)).
  assert (Hbio : (if truthy (VStr description) then description else "") = description).
  { destruct description; reflexivity. }
  assert (Hurl : _extract_username_from_url link <> "" ->
                 snd names = _extract_username_from_url link).
  { intros Hne. unfold names. destruct (truthy (VStr title)); [|reflexivity].
    destruct (re_match TITLE_RE title); [|reflexivity]. cbn [snd truthy].
    destruct (_extract_username_from_url link); [congruence | reflexivity]. }
  assert (Htitle : title = "" -> names = ("", _extract_username_from_url link)).
  { intros E. unfold names. rewrite E. reflexivity. }
  destruct names as [nick user]. rewrite Hbio.
  destruct (detect_contacts_str description) as [[e p] Hc]. rewrite Hc. cbn [bind].
  eexists. split; [reflexivity|]. cbn [snd] in Hurl.
  repeat split; cbn; try assumption.
  - intros Hne. rewrite (Hurl Hne). reflexivity.
  - match goal with E : _ = "" |- _ => apply Htitle in E; congruence end.
  - match goal with E : _ = "" |- _ => apply Htitle in E; congruence end.
Qed.

(** X8. A call of the pipeline either raises or returns a record, never
    [None]; the record carries the URL it was asked for, unchanged, has an
    empty [extra], and its contact flags are those of its bio. *)
Theorem pipeline_record (link : string) (session : Session)
    (timeout retries : Z) (w : world) :
  match fst (parse_user_from_url link session timeout retries w) with
  | Ok (Some r) =>
      url r = link
      /\ extra r = []
      /\ _detect_contacts (bio r) = Ok (hasEmail r, hasPhone r)
  | Ok None => False
  | Raise _ => True
  end.
Proof.
  unfold parse_user_from_url.
  destruct (fetch_html link session timeout retries w) as [page w'].
  cbn [fst]. destruct (negb (truthy (VStr page))).
  - repeat split.
  - destruct (_parse_user_from_structured_json link page) as [[r|]|] eqn:E;
      cbn [bind]; [exact (structured_well_formed _ _ E) | | exact I].
    destruct (open_graph_record link page) as (r & -> & Hwf & _).
    cbn [bind]. exact Hwf.
Qed.

(** X9. The metadata strategy always returns a record: no identifier, no
    counts, the description as bio, the image as avatar.  A username derived
    from the URL is kept whatever the title says, and without a title the
    nickname is empty. *)
Theorem open_graph_fields (link page : string) :
  exists r,
    _parse_from_open_graph link page = Ok (Some r)
    /\ id r = ""
    /\ followers r = 0%Z /\ following r = 0%Z /\ likes r = 0%Z /\ videos r = 0%Z
    /\ bio r = VStr (og page "description")
    /\ avatar r = VStr (og page "image")
    /\ (_extract_username_from_url link <> "" ->
        username r = VStr (_extract_username_from_url link))
    /\ (og page "title" = "" ->
        nickname r = VStr "" /\ username r = VStr (_extract_username_from_url link)).
Proof.
  destruct (open_graph_record link page) as (r & Hr & _ & H).
  exists r. split; assumption.
Qed.
End Invariants.


(** ** Blobs that make the pipeline raise *)

(** X10. When the first entry of [UserModule.users] is not something
    [dict] accepts (a number, [null], a boolean, a non-empty string), the
    error of the copy leaves the pipeline: no record is returned for fetched
    content, and no weaker strategy is tried. *)
Theorem users_entry_not_a_mapping `{L : Library} (link page : string)
    (session : Session) (timeout retries : Z) (w w' : world)
    (k : string) (entry : value) (rest : dict) (e : exn) :
  fetch_html link session timeout retries w = (page, w') ->
  page <> "" ->
  _deep_get (_parse_from_sigi_state page) [VStr "UserModule"; VStr "users"] empty_dict
  = Ok (VDict ((VStr k, entry) :: rest)) ->
  py_dict entry = Raise e ->
  parse_user_from_url link session timeout retries w = (Raise e, w').
Proof.
  intros Hfetch Hpage Husers Hentry.
  unfold parse_user_from_url. rewrite Hfetch.
  destruct page as [|c page]; [congruence|]. cbn [truthy String.eqb negb].
  unfold _parse_user_from_structured_json.
  rewrite (@deep_get_found _ _ _ _ _ Husers) by (unfold empty_dict; congruence).
  cbn [negb]. unfold _select_primary_user. rewrite Husers. cbn [bind].
  rewrite module_stats_ok. cbn [bind].
  unfold dict_get. cbn [dict_find]. rewrite py_eqb_str, String.eqb_refl.
  rewrite Hentry. reflexivity.
Qed.

Lemma users_entry_not_a_mapping_witness :
  parse_user_from_url
    (L := page_library (user_module_page (VInt 7) (obj [])))
    "https://www.tiktok.com/@jane" (serving_session "<html>") 10 1 new_world
  = (Raise TypeError,
     {| requests := 1; trace := [Get "https://www.tiktok.com/@jane" 10] |}).
Proof.
  apply (@users_entry_not_a_mapping
           (page_library (user_module_page (VInt 7) (obj [])))
           "https://www.tiktok.com/@jane" "<html>" (serving_session "<html>")
           10%Z 1%Z new_world _ "u1" (VInt 7) []).
  - reflexivity.
  - discriminate.
  - reflexivity.
  - reflexivity.
Defined.

(** X11. A user entry whose [signature] is neither empty nor text (a
    number, a list, an object) makes the strategy raise a [TypeError] when the
    contact flags are computed. *)
Theorem signature_not_text `{L : Library} (link page k : string) (u : dict) :
  first_user (_parse_from_sigi_state page) k u ->
  dict_has "user" u = false ->
  negb (truthy (dict_get "stats" u empty_dict)) || is_dict (dict_get "stats" u empty_dict) = true ->
  truthy (dict_get "signature" u "") = true ->
  is_str (dict_get "signature" u "") = false ->
  _parse_user_from_structured_json link page = Raise TypeError.
Proof.
  intros Hfirst Huser Hown Htruthy Hstr.
  destruct (page_unique_id_ok (_parse_from_sigi_state page)) as [pid Hpid].
  destruct (merged_entry Hfirst) as (ud & Hsel & Hother & Hstats & Hnonempty).
  assert (Hne : u <> []).
  { intros ->. discriminate. }
  assert (Hlayout : dict_has "user" ud && dict_has "stats" ud = false).
  { unfold dict_has at 1. rewrite (Hother "user" eq_refl).
    unfold dict_has in Huser. destruct (dict_find "user" u); [discriminate|].
    reflexivity. }
  assert (Hst : exists st, dict_get "stats" ud empty_dict or' empty_dict = VDict st).
  { unfold dict_get in *. rewrite Hstats.
    destruct (dict_find "stats" u) as [own|].
    - apply or_empty_dict_is_dict. exact Hown.
    - destruct (module_stats (_parse_from_sigi_state page) k) as [| | | | | |md];
        try (exists []; reflexivity).
      simpl. destruct md; [exists [] | eexists]; reflexivity. }
  destruct Hst as [st Hst].
  unfold _parse_user_from_structured_json.
  rewrite (first_user_truthy Hfirst), Hsel. cbn [negb bind].
  rewrite (truthy_dict_nonempty (Hnonempty Hne)). cbn [negb].
  rewrite Hlayout, Hst. cbn [py_get bind]. rewrite Hpid. cbn [py_get bind].
  replace (dict_get "signature" ud "") with (dict_get "signature" u "")
    by (unfold dict_get; rewrite (Hother "signature" eq_refl); reflexivity).
  unfold _detect_contacts. rewrite Htruthy. cbn [negb].
  destruct (dict_get "signature" u ""); try reflexivity. discriminate.
Qed.

Lemma signature_not_text_witness :
  _parse_user_from_structured_json
    (L := page_library (user_module_page (obj [("uniqueId", VStr "jane");
                                               ("signature", VInt 5)])
                                         (obj [])))
    "https://www.tiktok.com/@jane" "<html>" = Raise TypeError.
Proof.
  apply (@signature_not_text
           (page_library (user_module_page (obj [("uniqueId", VStr "jane");
                                                 ("signature", VInt 5)])
                                           (obj [])))
           "https://www.tiktok.com/@jane" "<html>" "u1"
           [(VStr "uniqueId", VStr "jane"); (VStr "signature", VInt 5)]);
    try reflexivity.
  exists []. reflexivity.
Defined.


(** ** More on the fetcher *)

Section FetcherBounds.
Variable session : Session.
Variable link : string.
Variable timeout : Z.

Lemma get_ok_body (w : world) (status : Z) (body : string) :
  session_get session (requests w) link timeout = Response status body ->
  ((400 <=? status) && (status <? 600))%Z = false ->
  get_ok session link timeout w
  = (Some body, {| requests := S (requests w);
                   trace := trace w ++ [Get link timeout] |}).
Proof. intros H Hs. unfold get_ok. rewrite H, Hs. reflexivity. Qed.

Lemma fetch_attempts_body (failed : list Z) (k : Z) (rest : list Z)
    (status : Z) (body : string) :
  forall w,
    (forall i, i < List.length failed ->
               request_fails session link timeout (requests w + i) = true) ->
    session_get session (requests w + List.length failed) link timeout
    = Response status body ->
    ((400 <=? status) && (status <? 600))%Z = false ->
    fst (fetch_attempts session link timeout (failed ++ k :: rest) w) = body.
Proof.
  induction failed as [|j failed IH]; intros w Hfail Hresp Hstatus.
  - cbn [app fetch_attempts List.length] in *. rewrite Nat.add_0_r in Hresp.
    rewrite (get_ok_body w Hresp Hstatus). reflexivity.
  - cbn [app fetch_attempts].
    rewrite get_ok_fails
      by (rewrite <- (Nat.add_0_r (requests w)); apply Hfail; simpl; lia).
    apply IH.
    + intros i Hi. cbn [requests sleep].
      replace (S (requests w) + i) with (requests w + S i) by lia.
      apply Hfail. simpl. lia.
    + cbn [requests sleep].
      replace (S (requests w) + List.length failed)
        with (requests w + List.length (j :: failed)) by (simpl; lia).
      exact Hresp.
    + exact Hstatus.
Qed.

(** Whatever the session answers, the loop makes at most one request per
    attempt, counts each of them, and only adds to the trace. *)
Lemma fetch_attempts_bound (attempts : list Z) :
  forall w,
    let w' := snd (fetch_attempts session link timeout attempts w) in
    requests w <= requests w' <= requests w + List.length attempts
    /\ extends (trace w) (trace w')
    /\ count_gets (trace w') = count_gets (trace w) + (requests w' - requests w).
Proof.
  induction attempts as [|k rest IH]; intros w; cbn [fetch_attempts].
  - cbn [snd List.length]. repeat split; try lia.
    exists []. rewrite app_nil_r. reflexivity.
  - unfold get_ok.
    set (w1 := {| requests := S (requests w); trace := trace w ++ [Get link timeout] |}).
    assert (Hgets : count_gets (trace w1) = S (count_gets (trace w))).
    { unfold count_gets. cbn [trace w1]. rewrite filter_app, length_app.
      cbn. lia. }
    assert (Hdone : requests w <= requests w1 <= requests w + List.length (k :: rest)
                    /\ extends (trace w) (trace w1)
                    /\ count_gets (trace w1)
                       = count_gets (trace w) + (requests w1 - requests w)).
    { split; [cbn [requests w1 List.length]; lia|].
      split; [exists [Get link timeout]; reflexivity|].
      rewrite Hgets. cbn [requests w1]. lia. }
    assert (Hretry :
              let w' := snd (fetch_attempts session link timeout rest
                               (sleep (Z.min (2 * k) 10) w1)) in
              requests w <= requests w' <= requests w + List.length (k :: rest)
              /\ extends (trace w) (trace w')
              /\ count_gets (trace w') = count_gets (trace w) + (requests w' - requests w)).
    { specialize (IH (sleep (Z.min (2 * k) 10) w1)). cbv zeta in *.
      assert (Hs : count_gets (trace (sleep (Z.min (2 * k) 10) w1))
                   = S (count_gets (trace w))).
      { rewrite <- Hgets. unfold count_gets. cbn [trace sleep].
        rewrite filter_app, length_app. cbn. lia. }
      assert (Hr : requests (sleep (Z.min (2 * k) 10) w1) = S (requests w))
        by reflexivity.
      assert (Ht : trace (sleep (Z.min (2 * k) 10) w1)
                   = trace w ++ [Get link timeout; Sleep (Z.min (2 * k) 10)]).
      { cbn [trace sleep w1]. rewrite <- app_assoc. reflexivity. }
      destruct IH as ([H1 H2] & [more Hmore] & H3).
      rewrite Hr in *. rewrite Hs in H3. rewrite Ht in Hmore.
      cbn [List.length]. repeat split; try lia.
      exists ([Get link timeout; Sleep (Z.min (2 * k) 10)] ++ more).
      rewrite Hmore, <- !app_assoc. reflexivity. }
    destruct (session_get session (requests w) link timeout) as [|status text].
    + exact Hretry.
    + destruct ((400 <=? status) && (status <? 600))%Z; [exact Hretry | exact Hdone].
Qed.
End FetcherBounds.

(** X12. The fetcher returns the body of the first response that is not a
    failure, when there is one among the attempts allowed. *)
Theorem fetch_first_body (session : Session) (link : string)
    (timeout retries : Z) (w : world) (j : nat) (status : Z) (body : string) :
  (Z.of_nat j < retries)%Z ->
  (forall i, i < j -> request_fails session link timeout (requests w + i) = true) ->
  session_get session (requests w + j) link timeout = Response status body ->
  (status < 400 \/ 600 <= status)%Z ->
  fst (fetch_html link session timeout retries w) = body.
Proof.
  intros Hj Hfail Hresp Hstatus. unfold fetch_html.
  rewrite (@py_range_split 1 j (retries + 1)) by lia.
  apply (@fetch_attempts_body session link timeout _ _ _ status).
  - intros i Hi. rewrite py_range_length in Hi. apply Hfail. lia.
  - rewrite py_range_length.
    replace (Z.to_nat (1 + Z.of_nat j - 1)) with j by lia. exact Hresp.
  - destruct (Z.leb_spec 400 status), (Z.ltb_spec status 600); cbn; try reflexivity.
    lia.
Qed.

Lemma fetch_first_body_witness :
  fst (fetch_html "https://www.tiktok.com/@jane"
         {| session_get := fun n _ _ =>
              match n with
              | 0 => ConnectionError
              | 1 => Response 429 "slow down"
              | _ => Response 200 "<html>"
              end |}
         10 3 new_world) = "<html>".
Proof.
  apply (@fetch_first_body _ "https://www.tiktok.com/@jane" 10%Z 3%Z new_world
           2 200%Z "<html>").
  - reflexivity.
  - intros i Hi. destruct i as [|[|i]]; [reflexivity | reflexivity | simpl in Hi; lia].
  - reflexivity.
  - left. reflexivity.
Defined.

(** X13. Whatever the session answers, a call of the fetcher makes at most
    [retries] requests (none when [retries] is not positive), the trace it
    leaves extends the trace it found, and the request counter grows with the
    requests of the trace. *)
Theorem fetch_requests_bounded (session : Session) (link : string)
    (timeout retries : Z) (w : world) :
  requests w <= requests (snd (fetch_html link session timeout retries w))
             <= requests w + Z.to_nat retries
  /\ extends (trace w) (trace (snd (fetch_html link session timeout retries w)))
  /\ count_gets (trace (snd (fetch_html link session timeout retries w)))
     = count_gets (trace w)
       + (requests (snd (fetch_html link session timeout retries w)) - requests w).
Proof.
  unfold fetch_html.
  pose proof (fetch_attempts_bound session link timeout
                (py_range 1 (retries + 1)) w) as H.
  cbv zeta in H. rewrite py_range_length in H.
  replace (Z.to_nat (retries + 1 - 1)) with (Z.to_nat retries) in H by lia.
  exact H.
Qed.

(** X14. With a retry count that is not positive nothing is requested, and
    the pipeline answers with the record made from the URL alone: the URL,
    the username derived from it, and every other field at its default. *)
Theorem no_attempt_minimal_record `{L : Library} (link : string)
    (session : Session) (timeout retries : Z) (w : world) :
  (retries <= 0)%Z ->
  fetch_html link session timeout retries w = ("", w)
  /\ parse_user_from_url link session timeout retries w
     = (Ok (Some {| id := ""; url := link;
                    username := VStr (_extract_username_from_url link);
                    nickname := VStr ""; bio := VStr "";
                    followers := 0; following := 0; likes := 0; videos := 0;
                    verified := false; avatar := VStr ""; region := VStr "";
                    language := VStr ""; hasEmail := false; hasPhone := false;
                    coverImage := VStr ""; extra := [] |}),
        w).
Proof.
  intros H.
  assert (Hf : fetch_html link session timeout retries w = ("", w)).
  { unfold fetch_html, py_range.
    replace (Z.to_nat (retries + 1 - 1)) with 0 by lia. reflexivity. }
  split; [exact Hf|].
  unfold parse_user_from_url. rewrite Hf. reflexivity.
Qed.

Lemma no_attempt_minimal_record_witness :
  fetch_html "https://www.tiktok.com/@jane" (serving_session "<html>") 10 0 new_world
  = ("", new_world)
  /\ parse_user_from_url (L := page_library (metadata_page []))
       "https://www.tiktok.com/@jane" (serving_session "<html>") 10 0 new_world
     = (Ok (Some {| id := ""; url := "https://www.tiktok.com/@jane";
                    username :=
                      VStr (_extract_username_from_url "https://www.tiktok.com/@jane");
                    nickname := VStr ""; bio := VStr "";
                    followers := 0; following := 0; likes := 0; videos := 0;
                    verified := false; avatar := VStr ""; region := VStr "";
                    language := VStr ""; hasEmail := false; hasPhone := false;
                    coverImage := VStr ""; extra := [] |}),
        new_world).
Proof.
  apply (@no_attempt_minimal_record (page_library (metadata_page []))
           "https://www.tiktok.com/@jane" (serving_session "<html>") 10%Z 0%Z new_world).
  reflexivity.
Defined.


(** ** Flattened records *)

Lemma py_eqb_str_r (a : value) (k : string) :
  py_eqb a (VStr k) = true <-> a = VStr k.
Proof.
  split.
  - destruct a as [| | |[]| | |]; cbn; try discriminate.
    intros H. apply String.eqb_eq in H. congruence.
  - intros ->. cbn. apply String.eqb_refl.
Qed.

Lemma py_eqb_str_l (a : value) (k : string) :
  py_eqb (VStr k) a = true <-> a = VStr k.
Proof.
  split.
  - destruct a as [| | |[]| | |]; cbn; try discriminate.
    intros H. apply String.eqb_eq in H. congruence.
  - intros ->. cbn. apply String.eqb_refl.
Qed.

(** Lookup of a string key after an assignment. *)
Lemma dict_find_set (k : string) (key v : value) (d : dict) :
  dict_find (VStr k) (dict_set key v d)
  = if py_eqb key (VStr k) then Some v else dict_find (VStr k) d.
Proof.
  induction d as [|[k' v'] d IH]; cbn [dict_set dict_find]; [reflexivity|].
  destruct (py_eqb k' key) eqn:E; cbn [dict_find].
  - destruct (py_eqb k' (VStr k)) eqn:E1.
    + apply py_eqb_str_r in E1. subst k'.
      apply py_eqb_str_l in E. subst key.
      cbn. rewrite String.eqb_refl. reflexivity.
    + destruct (py_eqb key (VStr k)) eqn:E2; [|reflexivity].
      apply py_eqb_str_r in E2. subst key.
      apply py_eqb_str_r in E. subst k'.
      cbn in E1. rewrite String.eqb_refl in E1. discriminate.
  - destruct (py_eqb k' (VStr k)) eqn:E1; [|exact IH].
    destruct (py_eqb key (VStr k)) eqn:E2; [|reflexivity].
    apply py_eqb_str_r in E1, E2. subst. cbn in E.
    rewrite String.eqb_refl in E. discriminate.
Qed.

(** Lookup of a string key after an update: the last item of the update
    with that key, or else what the dict had. *)
Lemma dict_find_update (k : string) (items : dict) :
  forall d,
    dict_find (VStr k) (dict_update d items)
    = match dict_find (VStr k) (rev items) with
      | Some v => Some v
      | None => dict_find (VStr k) d
      end.
Proof.
  unfold dict_update.
  induction items as [|[key v] items IH] using rev_ind; intros d; [reflexivity|].
  rewrite fold_left_app, rev_app_distr. cbn [fold_left rev app fst snd dict_find].
  rewrite dict_find_set. destruct (py_eqb key (VStr k)); [reflexivity | apply IH].
Qed.

(** An assignment keeps the keys of the dict in place and adds a new one at
    the end. *)
Lemma dict_set_keys (key v : value) (d : dict) :
  exists more, map fst (dict_set key v d) = map fst d ++ more.
Proof.
  induction d as [|[k' v'] d [more IH]]; cbn [dict_set].
  - exists [key]. reflexivity.
  - destruct (py_eqb k' key); cbn [map fst].
    + exists []. rewrite app_nil_r. reflexivity.
    + exists more. rewrite IH. reflexivity.
Qed.

Lemma dict_update_keys (items : dict) :
  forall d, exists more, map fst (dict_update d items) = map fst d ++ more.
Proof.
  unfold dict_update. induction items as [|[key v] items IH]; intros d.
  - exists []. rewrite app_nil_r. reflexivity.
  - cbn [fold_left fst snd].
    destruct (IH (dict_set key v d)) as [more Hmore].
    destruct (dict_set_keys key v d) as [more' Hmore'].
    exists (more' ++ more). rewrite Hmore, Hmore', app_assoc. reflexivity.
Qed.

Lemma to_dict_update (u : TikTokUser) :
  to_dict u = dict_update (str_keys (schema_record u)) (extra u).
Proof.
  unfold to_dict, asdict, dict_pop. cbn.
  destruct (extra u) as [|kv more]; reflexivity.
Qed.

(** X15. The flattened form of a record starts with the fields of the
    schema, in the order of their declaration; a key of [extra] overrides the
    field of the same name in place, the last item with that key winning;
    without [extra] the flattened form is the sixteen fields. *)
Theorem to_dict_flattens (u : TikTokUser) :
  (exists more, map fst (to_dict u) = map VStr schema ++ more)
  /\ (forall k,
        dict_find (VStr k) (to_dict u)
        = match dict_find (VStr k) (rev (extra u)) with
          | Some v => Some v
          | None => dict_find (VStr k) (str_keys (schema_record u))
          end)
  /\ (extra u = [] -> to_dict u = str_keys (schema_record u)).
Proof.
  rewrite to_dict_update. repeat split.
  - destruct (dict_update_keys (extra u) (str_keys (schema_record u)))
      as [more Hmore].
    exists more. rewrite Hmore. reflexivity.
  - intros k. apply dict_find_update.
  - intros ->. reflexivity.
Qed.

(** ** Rows of the tabular export *)

Lemma rec_get_missing (key : string) (rec : record) (restval : value) :
  ~ In key (keys rec) -> rec_get key rec restval = restval.
Proof.
  induction rec as [|[k v] rec IH]; cbn [rec_get keys map fst]; [reflexivity|].
  intros H. destruct (String.eqb_spec k key) as [->|Hk].
  - exfalso. apply H. left. reflexivity.
  - apply IH. intros Hin. apply H. right. exact Hin.
Qed.

Lemma rec_get_present (key : string) (v : value) (rec : record) (restval : value) :
  NoDup (keys rec) -> In (key, v) rec -> rec_get key rec restval = v.
Proof.
  induction rec as [|[k v'] rec IH]; cbn [rec_get keys map fst]; [contradiction|].
  intros Hnd [E | Hin].
  - injection E as -> ->. rewrite String.eqb_refl. reflexivity.
  - inversion Hnd as [|? ? Hout Hnd']; subst.
    destruct (String.eqb_spec k key) as [->|Hk]; [|apply IH; assumption].
    exfalso. apply Hout. apply (in_map fst) in Hin. exact Hin.
Qed.

Lemma writerows_rows (fieldnames : list string) (recs : list record) :
  (forall rec key, In rec recs -> In key (keys rec) -> In key fieldnames) ->
  writerows fieldnames recs
  = Ok (map (fun rec => Row (map (fun key => rec_get key rec "") fieldnames)) recs).
Proof.
  induction recs as [|rec recs IH]; intros H; [reflexivity|].
  cbn [writerows map]. unfold writerow.
  replace (forallb (fun k => str_in k fieldnames) (keys rec)) with true.
  - cbn [bind]. rewrite IH; [reflexivity|].
    intros r key Hr. apply H. right. exact Hr.
  - symmetry. apply forallb_forall. intros key Hkey.
    apply str_in_In. apply (H rec key); [left; reflexivity | exact Hkey].
Qed.

(** X16. What the tabular export of a non-empty list of records hands to
    the writer: after the header, one row per record, in order, with one
    cell per column: the value the record has for the key of the column, and
    the empty string when the record has no such key.  Every key of every
    record is a column, so the writer's refusal of a key outside the header
    is never met.  (Whether the file takes the text is not part of this
    statement: the strings here are code points below U+0100, and the
    encoding of the file has errors of its own beyond them.) *)
Theorem csv_rows_follow_header (records : list record) :
  records <> [] ->
  exists header,
    export_to_csv records
    = Ok (Header header
          :: map (fun rec => Row (map (fun key => rec_get key rec "") header)) records)
    /\ (forall rec key v,
          In rec records -> NoDup (keys rec) -> In (key, v) rec ->
          In key header /\ rec_get key rec "" = v)
    /\ (forall rec key, ~ In key (keys rec) -> rec_get key rec "" = VStr "").
Proof.
  intros Hne. exists (collect_fieldnames records).
  assert (Hall : forall rec key,
             In rec records -> In key (keys rec) ->
             In key (collect_fieldnames records)).
  { intros rec key Hrec Hkey. rewrite collect_fieldnames_first_seen.
    apply first_seen_In. unfold all_keys. apply in_concat.
    exists (keys rec). split; [apply in_map; exact Hrec | exact Hkey]. }
  split; [|split].
  - unfold export_to_csv. destruct records as [|rec records]; [congruence|].
    rewrite (@writerows_rows _ _ Hall). reflexivity.
  - intros rec key v Hrec Hnd Hin. split.
    + apply (Hall rec); [exact Hrec|]. apply (in_map fst) in Hin. exact Hin.
    + apply rec_get_present; assumption.
  - intros rec key Hkey. apply rec_get_missing. exact Hkey.
Qed.

Lemma csv_rows_follow_header_witness :
  exists header,
    export_to_csv [[("id", VStr "1"); ("url", VStr "a")]; [("note", VStr "n")]]
    = Ok (Header header
          :: map (fun rec => Row (map (fun key => rec_get key rec "") header))
                 [[("id", VStr "1"); ("url", VStr "a")]; [("note", VStr "n")]])
    /\ (forall rec key v,
          In rec [[("id", VStr "1"); ("url", VStr "a")]; [("note", VStr "n")]] ->
          NoDup (keys rec) -> In (key, v) rec ->
          In key header /\ rec_get key rec "" = v)
    /\ (forall rec key, ~ In key (keys rec) -> rec_get key rec "" = VStr "").
Proof.
  apply (@csv_rows_follow_header
           [[("id", VStr "1"); ("url", VStr "a")]; [("note", VStr "n")]]).
  discriminate.
Defined.

(** ** From the pipeline to the tabular export *)

Lemma add_fieldnames_present (l acc : list string) :
  (forall key, In key l -> In key acc) ->
  fold_left add_fieldname l acc = acc.
Proof.
  induction l as [|key l IH]; intros H; [reflexivity|].
  cbn [fold_left]. unfold add_fieldname at 2.
  replace (str_in key acc) with true
    by (symmetry; apply str_in_In; apply H; left; reflexivity).
  cbn [negb]. apply IH. intros k Hk. apply H. right. exact Hk.
Qed.

Lemma schema_fieldnames (users : list TikTokUser) :
  users <> [] -> collect_fieldnames (map schema_record users) = schema.
Proof.
  intros Hne. unfold collect_fieldnames. rewrite collect_fieldnames_fold.
  destruct users as [|u users]; [congruence|].
  unfold all_keys. cbn [map List.concat]. rewrite fold_left_app.
  change (fold_left add_fieldname (keys (schema_record u)) []) with schema.
  apply add_fieldnames_present. intros key Hkey.
  apply in_concat in Hkey. destruct Hkey as (l & Hl & Hkey).
  apply in_map_iff in Hl. destruct Hl as (rec & <- & Hrec).
  apply in_map_iff in Hrec. destruct Hrec as (u' & <- & _). exact Hkey.
Qed.

(** X17. Records without [extra], as the pipeline makes them, flatten to
    the sixteen fields of the schema, and the tabular export of a non-empty
    list of them is the header of these sixteen names followed, record by
    record, by the sixteen values. *)
Theorem csv_of_pipeline_records (users : list TikTokUser) :
  users <> [] ->
  Forall (fun u => extra u = []) users ->
  map to_dict users = map (fun u => str_keys (schema_record u)) users
  /\ export_to_csv (map schema_record users)
     = Ok (Header schema :: map (fun u => Row (map snd (schema_record u))) users).
Proof.
  intros Hne Hextra. split.
  - apply map_ext_in. intros u Hu. rewrite Forall_forall in Hextra.
    rewrite to_dict_update, (Hextra u Hu). reflexivity.
  - unfold export_to_csv.
    destruct (map schema_record users) as [|rec recs] eqn:E.
    + destruct users; [congruence | discriminate].
    + rewrite <- E, (schema_fieldnames Hne), (@writerows_rows schema).
      * rewrite map_map. reflexivity.
      * intros rec' key Hrec Hkey. apply in_map_iff in Hrec.
        destruct Hrec as (u & <- & _). exact Hkey.
Qed.

Lemma csv_of_pipeline_records_witness :
  map to_dict [minimal_user "https://www.tiktok.com/@jane" "jane"]
  = map (fun u => str_keys (schema_record u))
        [minimal_user "https://www.tiktok.com/@jane" "jane"]
  /\ export_to_csv (map schema_record [minimal_user "https://www.tiktok.com/@jane" "jane"])
     = Ok (Header schema
           :: map (fun u => Row (map snd (schema_record u)))
                  [minimal_user "https://www.tiktok.com/@jane" "jane"]).
Proof.
  apply (@csv_of_pipeline_records [minimal_user "https://www.tiktok.com/@jane" "jane"]).
  - discriminate.
  - repeat constructor.
Defined.


(** ** Input lines *)

Lemma rstrip_cons (c : ascii) (r : string) :
  is_space c = false -> rstrip (String c r) = String c (rstrip r).
Proof. intros H. cbn [rstrip]. rewrite H. destruct (rstrip r); reflexivity. Qed.

Lemma rstrip_idempotent (s : string) : rstrip (rstrip s) = rstrip s.
Proof.
  induction s as [|c s IH]; [reflexivity|]. cbn [rstrip].
  destruct (rstrip s) as [|c' r'] eqn:E.
  - destruct (is_space c) eqn:Ec; [reflexivity|]. cbn [rstrip]. rewrite Ec. reflexivity.
  - cbn [rstrip]. cbn [rstrip] in IH. rewrite IH. reflexivity.
Qed.

Lemma lstrip_head (s : string) :
  lstrip s = "" \/ exists c r, lstrip s = String c r /\ is_space c = false.
Proof.
  induction s as [|c s IH]; [left; reflexivity|]. cbn [lstrip].
  destruct (is_space c) eqn:E; [exact IH | right; eauto].
Qed.

Lemma strip_idempotent (s : string) : strip (strip s) = strip s.
Proof.
  unfold strip. destruct (lstrip_head s) as [-> | (c & r & -> & Hc)]; [reflexivity|].
  rewrite (@rstrip_cons c r Hc). cbn [lstrip]. rewrite Hc.
  rewrite <- (@rstrip_cons c r Hc). apply rstrip_idempotent.
Qed.

Lemma keep_lines_filter (lines : list string) :
  forall urls,
    fold_left keep_line lines urls
    = urls ++ filter (fun s => negb (negb (truthy (VStr s)) || starts_with "#" s))
                     (map strip lines).
Proof.
  induction lines as [|line lines IH]; intros urls; cbn [fold_left map filter].
  - rewrite app_nil_r. reflexivity.
  - rewrite IH. unfold keep_line. cbv zeta.
    destruct (negb (truthy (VStr (strip line))) || starts_with "#" (strip line));
      cbn [negb]; [reflexivity|].
    rewrite <- app_assoc. reflexivity.
Qed.

Lemma load_inputs_clean (file : option (list string)) :
  Forall clean_line (load_inputs file).
Proof.
  destruct file as [lines|]; [|constructor]. cbn [load_inputs].
  rewrite keep_lines_filter. cbn [app]. apply Forall_forall. intros u Hu.
  apply filter_In in Hu. destruct Hu as [Hin Hkeep].
  apply in_map_iff in Hin. destruct Hin as (line & <- & _).
  apply negb_true_iff, orb_false_iff in Hkeep. destruct Hkeep as [Hne Hc].
  repeat split.
  - intros E. rewrite E in Hne. discriminate.
  - apply strip_idempotent.
  - exact Hc.
Qed.

Lemma keep_clean_lines (lines : list string) :
  Forall clean_line lines -> forall urls, fold_left keep_line lines urls = urls ++ lines.
Proof.
  induction 1 as [|line lines (Hne & Hstrip & Hc) _ IH]; intros urls; cbn [fold_left].
  - rewrite app_nil_r. reflexivity.
  - rewrite IH. unfold keep_line. cbv zeta. rewrite Hstrip, Hc.
    destruct line; [congruence|]. cbn [truthy String.eqb negb orb].
    rewrite <- app_assoc. reflexivity.
Qed.

(** X18. Every line the runner keeps is not empty, has no surrounding white
    space and is not a comment; the lines kept are the stripped input lines of
    that kind, in their order; reading the lines kept once more keeps them
    all; a missing file gives no line. *)
Theorem load_inputs_filters (file : option (list string)) :
  Forall clean_line (load_inputs file)
  /\ (forall lines,
        file = Some lines ->
        load_inputs file
        = filter (fun s => negb (String.eqb s "") && negb (starts_with "#" s))
                 (map strip lines))
  /\ load_inputs (Some (load_inputs file)) = load_inputs file
  /\ load_inputs None = [].
Proof.
  split; [apply load_inputs_clean|]. split; [|split; [|reflexivity]].
  - intros lines ->. cbn [load_inputs]. rewrite keep_lines_filter. cbn [app].
    apply filter_ext. intros s. cbn [truthy].
    rewrite negb_involutive, negb_orb. reflexivity.
  - change (load_inputs (Some (load_inputs file)))
      with (fold_left keep_line (load_inputs file) []).
    rewrite (keep_clean_lines (load_inputs_clean file)). reflexivity.
Qed.

Lemma load_inputs_filters_witness :
  load_inputs (Some ["# profiles"; "  https://www.tiktok.com/@jane  "; "";
                     "https://www.tiktok.com/@bob"])
  = filter (fun s => negb (String.eqb s "") && negb (starts_with "#" s))
           (map strip ["# profiles"; "  https://www.tiktok.com/@jane  "; "";
                       "https://www.tiktok.com/@bob"]).
Proof.
  apply (proj1 (proj2 (load_inputs_filters
                         (Some ["# profiles"; "  https://www.tiktok.com/@jane  "; "";
                                "https://www.tiktok.com/@bob"])))).
  reflexivity.
Defined.


(** ** Query parameters *)

Lemma dict_find_absent (k : string) (items : list (string * value)) :
  ~ In k (map fst items) -> dict_find (VStr k) (str_keys items) = None.
Proof.
  induction items as [|[a v] items IH]; cbn [str_keys map fst snd dict_find];
    [reflexivity|].
  intros H. rewrite py_eqb_str.
  destruct (String.eqb_spec a k) as [->|Hk].
  - exfalso. apply H. left. reflexivity.
  - apply IH. intros Hin. apply H. right. exact Hin.
Qed.

Lemma dict_set_fresh (a : string) (v : value) (items : list (string * value)) :
  ~ In a (map fst items) ->
  dict_set (VStr a) v (str_keys items) = str_keys (items ++ [(a, v)]).
Proof.
  induction items as [|[b w] items IH]; cbn [str_keys map fst snd dict_set app];
    [reflexivity|].
  intros H. rewrite py_eqb_str.
  destruct (String.eqb_spec b a) as [->|Hb].
  - exfalso. apply H. left. reflexivity.
  - f_equal. apply IH. intros Hin. apply H. right. exact Hin.
Qed.

Lemma dict_update_fresh (items : list (string * value)) :
  forall acc,
    NoDup (map fst (acc ++ items)) ->
    dict_update (str_keys acc) (str_keys items) = str_keys (acc ++ items).
Proof.
  unfold dict_update.
  induction items as [|[a v] items IH]; intros acc Hnd.
  - rewrite app_nil_r. reflexivity.
  - cbn [str_keys map fold_left fst snd].
    rewrite dict_set_fresh.
    + fold (str_keys items). rewrite IH; rewrite <- app_assoc; [reflexivity | exact Hnd].
    + rewrite map_app in Hnd. apply NoDup_remove_2 in Hnd.
      intros Hin. apply Hnd. apply in_or_app. left. exact Hin.
Qed.

Lemma filter_keys_nodup (f : string * value -> bool) (items : list (string * value)) :
  NoDup (map fst items) -> NoDup (map fst (filter f items)).
Proof.
  induction items as [|[a v] items IH]; cbn [map fst filter]; [auto|].
  intros Hnd. inversion Hnd as [|? ? Hout Hnd']; subst.
  destruct (f (a, v)); [|apply IH; exact Hnd'].
  cbn [map fst]. constructor; [|apply IH; exact Hnd'].
  intros Hin. apply Hout. apply in_map_iff in Hin.
  destruct Hin as ([b w] & <- & Hin). apply filter_In in Hin.
  destruct Hin as [Hin _]. apply (in_map fst) in Hin. exact Hin.
Qed.

Lemma str_keys_filter (f : value -> bool) (items : list (string * value)) :
  filter (fun kv => f (snd kv)) (str_keys items)
  = str_keys (filter (fun kv => f (snd kv)) items).
Proof.
  induction items as [|[a v] items IH]; cbn [str_keys map filter fst snd];
    [reflexivity|].
  fold (str_keys items). rewrite IH.
  destruct (f v); reflexivity.
Qed.

Lemma dict_find_rev (k : string) (items : list (string * value)) :
  NoDup (map fst items) ->
  dict_find (VStr k) (rev (str_keys items)) = dict_find (VStr k) (str_keys items).
Proof.
  induction items as [|[a v] items IH]; cbn [str_keys map rev fst snd]; [reflexivity|].
  intros Hnd. inversion Hnd as [|? ? Hout Hnd']; subst.
  fold (str_keys items). rewrite dict_find_app, (IH Hnd').
  cbn [dict_find]. rewrite py_eqb_str.
  destruct (String.eqb_spec a k) as [->|Hk].
  - rewrite (@dict_find_absent k items Hout). reflexivity.
  - destruct (dict_find (VStr k) (str_keys items)); reflexivity.
Qed.

Lemma dict_find_filter (k : string) (f : value -> bool) (items : list (string * value)) :
  NoDup (map fst items) ->
  dict_find (VStr k) (str_keys (filter (fun kv => f (snd kv)) items))
  = match dict_find (VStr k) (str_keys items) with
    | Some v => if f v then Some v else None
    | None => None
    end.
Proof.
  induction items as [|[a v] items IH]; cbn [str_keys map filter fst snd dict_find];
    [reflexivity|].
  intros Hnd. inversion Hnd as [|? ? Hout Hnd']; subst.
  fold (str_keys items). rewrite py_eqb_str.
  destruct (f v) eqn:Ef; cbn [str_keys map fst snd dict_find];
    fold (str_keys (filter (fun kv => f (snd kv)) items));
    rewrite ?py_eqb_str;
    destruct (String.eqb_spec a k) as [->|Hk]; rewrite ?Ef; try reflexivity;
    try (apply IH; exact Hnd').
  apply dict_find_absent. intros Hin. apply Hout.
  apply in_map_iff in Hin. destruct Hin as ([b w] & <- & Hin).
  apply filter_In in Hin. destruct Hin as [Hin _].
  apply (in_map fst) in Hin. exact Hin.
Qed.

(** X19. Merging query parameters: a key of [extras] whose value is not
    [None] overrides the base or is added to it, a key whose value is [None]
    leaves the base as it is, every other key keeps the value of the base,
    and the keys of the base keep their place; without [extras], or with an
    empty one, the result is the base. *)
Theorem build_query_params_merge (base : dict) (extras : list (string * value)) :
  NoDup (map fst extras) ->
  (forall k,
     dict_find (VStr k) (build_query_params base (Some (str_keys extras)))
     = match dict_find (VStr k) (str_keys extras) with
       | Some v => if is_none v then dict_find (VStr k) base else Some v
       | None => dict_find (VStr k) base
       end)
  /\ (exists more,
        map fst (build_query_params base (Some (str_keys extras)))
        = map fst base ++ more)
  /\ build_query_params base None = base
  /\ build_query_params base (Some []) = base.
Proof.
  intros Hnd.
  assert (Hwn : without_none (str_keys extras)
                = str_keys (filter (fun kv => negb (is_none (snd kv))) extras)).
  { unfold without_none.
    pose proof (str_keys_filter (fun v => negb (is_none v)) extras) as Hf.
    cbv beta in Hf. rewrite Hf.
    apply (@dict_update_fresh _ []). cbn [app]. apply filter_keys_nodup. exact Hnd. }
  split; [|split; [|split; reflexivity]].
  - intros k. unfold build_query_params.
    destruct extras as [|kv extras]; [reflexivity|].
    cbn [str_keys map truthy List.length Nat.eqb negb].
    fold (str_keys extras). change ((VStr (fst kv), snd kv) :: str_keys extras)
      with (str_keys (kv :: extras)).
    rewrite dict_find_update, Hwn, dict_find_rev
      by (apply filter_keys_nodup; exact Hnd).
    pose proof (@dict_find_filter k (fun v => negb (is_none v)) _ Hnd) as Hf.
    cbv beta in Hf. rewrite Hf.
    destruct (dict_find (VStr k) (str_keys (kv :: extras))) as [v|]; [|reflexivity].
    destruct (is_none v); reflexivity.
  - unfold build_query_params.
    destruct (truthy (VDict (str_keys extras))).
    + apply dict_update_keys.
    + exists []. rewrite app_nil_r. reflexivity.
Qed.

Lemma build_query_params_merge_witness :
  (forall k,
     dict_find (VStr k)
       (build_query_params (str_keys [("lang", VStr "en"); ("count", VInt 30)])
          (Some (str_keys [("count", VInt 50); ("lang", VNone); ("cursor", VStr "0")])))
     = match dict_find (VStr k)
               (str_keys [("count", VInt 50); ("lang", VNone); ("cursor", VStr "0")]) with
       | Some v =>
           if is_none v
           then dict_find (VStr k) (str_keys [("lang", VStr "en"); ("count", VInt 30)])
           else Some v
       | None => dict_find (VStr k) (str_keys [("lang", VStr "en"); ("count", VInt 30)])
       end)
  /\ (exists more,
        map fst (build_query_params (str_keys [("lang", VStr "en"); ("count", VInt 30)])
                   (Some (str_keys [("count", VInt 50); ("lang", VNone);
                                    ("cursor", VStr "0")])))
        = map fst (str_keys [("lang", VStr "en"); ("count", VInt 30)]) ++ more)
  /\ build_query_params (str_keys [("lang", VStr "en"); ("count", VInt 30)]) None
     = str_keys [("lang", VStr "en"); ("count", VInt 30)]
  /\ build_query_params (str_keys [("lang", VStr "en"); ("count", VInt 30)]) (Some [])
     = str_keys [("lang", VStr "en"); ("count", VInt 30)].
Proof.
  apply (@build_query_params_merge
           (str_keys [("lang", VStr "en"); ("count", VInt 30)])
           [("count", VInt 50); ("lang", VNone); ("cursor", VStr "0")]).
  repeat constructor; simpl; intuition discriminate.
Defined.


(** ** Falling through to the metadata strategy *)

(** X20. When the decoded blob has neither a users mapping nor a
    [UserPage.userInfo] object with content, the embedded-state strategy
    yields nothing and the pipeline answers, for fetched content, with the
    outcome of the metadata strategy. *)
Theorem userless_blob_falls_through `{L : Library} (link page : string)
    (session : Session) (timeout retries : Z) (w w' : world) :
  fetch_html link session timeout retries w = (page, w') ->
  page <> "" ->
  no_users (_parse_from_sigi_state page) ->
  no_user_info (_parse_from_sigi_state page) ->
  _parse_user_from_structured_json link page = Ok None
  /\ parse_user_from_url link session timeout retries w
     = (_parse_from_open_graph link page, w').
Proof.
  intros Hfetch Hpage Husers Hinfo.
  assert (Hnone : _parse_user_from_structured_json link page = Ok None).
  { unfold _parse_user_from_structured_json.
    destruct (negb (truthy (_parse_from_sigi_state page))); [reflexivity|].
    assert (Hsel : _select_primary_user (_parse_from_sigi_state page) = Ok []).
    { unfold no_users, no_user_info, _select_primary_user in *.
      destruct (@deep_get_hashable [VStr "UserModule"; VStr "users"]
                  (_parse_from_sigi_state page) empty_dict eq_refl)
        as [users Hu].
      destruct (@deep_get_hashable [VStr "UserPage"; VStr "userInfo"]
                  (_parse_from_sigi_state page) empty_dict eq_refl)
        as [info Hi].
      rewrite Hu, Hi in *. cbn [bind].
      destruct users as [| | | | | |[|[k v] rest]]; try contradiction;
        destruct info as [| | | | | |[|kv rest']]; try contradiction;
        reflexivity. }
    rewrite Hsel. reflexivity. }
  split; [exact Hnone|].
  unfold parse_user_from_url. rewrite Hfetch.
  destruct page as [|c page]; [congruence|]. cbn [truthy String.eqb negb].
  rewrite Hnone. cbn [bind].
  destruct (open_graph_record link (String c page)) as (r & -> & _).
  reflexivity.
Qed.

Lemma userless_blob_falls_through_witness :
  _parse_user_from_structured_json
    (L := page_library (userless_page [("og:title", "Jane Doe (@jane)")]))
    "https://www.tiktok.com/@jane" "<html>" = Ok None
  /\ parse_user_from_url
       (L := page_library (userless_page [("og:title", "Jane Doe (@jane)")]))
       "https://www.tiktok.com/@jane" (serving_session "<html>") 10 1 new_world
     = (_parse_from_open_graph
          (L := page_library (userless_page [("og:title", "Jane Doe (@jane)")]))
          "https://www.tiktok.com/@jane" "<html>",
        {| requests := 1; trace := [Get "https://www.tiktok.com/@jane" 10] |}).
Proof.
  apply (@userless_blob_falls_through
           (page_library (userless_page [("og:title", "Jane Doe (@jane)")]))
           "https://www.tiktok.com/@jane" "<html>" (serving_session "<html>")
           10%Z 1%Z new_world).
  - reflexivity.
  - discriminate.
  - exact I.
  - exact I.
Defined.

(** ** Instances *)

Lemma email_detection_witness :
  exists has_email has_phone,
    _detect_contacts (VStr "write to jane.doe@example.com") = Ok (has_email, has_phone)
    /\ (has_email = true <-> email_like "write to jane.doe@example.com").
Proof. exact (email_detection "write to jane.doe@example.com"). Defined.

Lemma open_graph_fields_witness :
  exists r,
    _parse_from_open_graph
      (L := page_library (metadata_page [("og:title", "Jane Doe (@jd)");
                                         ("og:description", "dancer")]))
      "https://www.tiktok.com/@jane" "<html>" = Ok (Some r)
    /\ id r = ""
    /\ followers r = 0%Z /\ following r = 0%Z /\ likes r = 0%Z /\ videos r = 0%Z
    /\ bio r = VStr (og (L := page_library (metadata_page [("og:title", "Jane Doe (@jd)");
                                                           ("og:description", "dancer")]))
                        "<html>" "description")
    /\ avatar r = VStr (og (L := page_library (metadata_page [("og:title", "Jane Doe (@jd)");
                                                              ("og:description", "dancer")]))
                           "<html>" "image")
    /\ (_extract_username_from_url "https://www.tiktok.com/@jane" <> "" ->
        username r = VStr (_extract_username_from_url "https://www.tiktok.com/@jane"))
    /\ (og (L := page_library (metadata_page [("og:title", "Jane Doe (@jd)");
                                              ("og:description", "dancer")]))
           "<html>" "title" = "" ->
        nickname r = VStr ""
        /\ username r = VStr (_extract_username_from_url "https://www.tiktok.com/@jane")).
Proof.
  exact (@open_graph_fields
           (page_library (metadata_page [("og:title", "Jane Doe (@jd)");
                                         ("og:description", "dancer")]))
           "https://www.tiktok.com/@jane" "<html>").
Defined.

Lemma to_dict_flattens_witness :
  to_dict (minimal_user "https://www.tiktok.com/@jane" "jane")
  = str_keys (schema_record (minimal_user "https://www.tiktok.com/@jane" "jane")).
Proof.
  apply (proj2 (proj2 (to_dict_flattens
                         (minimal_user "https://www.tiktok.com/@jane" "jane")))).
  reflexivity.
Defined.
